(** * Trade-in storefront: cart, quote, submission and tracking logic

    A shallow embedding of the client-side trade-in code of the theme:

    - [assets/trade-in-app.js]: configuration, cart management, totals,
      form sections and submission (module [App]);
    - the variant of the same script that adds contact and bank-transfer
      fields to the submission form (module [BankForm]);
    - the earlier variant of the script, whose fallback price starts from
      the near-mint trade-in price (module [Legacy]);
    - [assets/trade-in-track.js]: the per-item rendering of a tracked
      submission (module [Track]) and the lookup page around it (module
      [TrackPage]);
    - the cart functions of [assets/trade-in-app.js] on a storage that can
      refuse a write (module [Quota]);
    - the rest of [assets/trade-in-app.js]: the normalization of API cards,
      the browse grid and its pagination (module [Catalog]), the request
      cache (module [Cache]), the settings of the server (module
      [Settings]) and the condition modal (module [Modal]);
    - [assets/trade-in.js]: the trade-in rows of the shop cart (module
      [ThemeCart]).

    Conventions.  Quantities and prices in pence are integer-valued
    JavaScript numbers and are modelled by [Z]; the two places where the code
    multiplies by a non-integer number (a condition multiplier, the store
    credit bonus) are modelled in IEEE 754 binary64.  The page is modelled by
    a record of the element properties the scripts write; every element the
    scripts look up is taken to be present.  [formatPrice] is not modelled:
    where the script writes [formatPrice(v)] the model records [v]. *)

From Stdlib Require Import ZArith Lia SpecFloat Ascii String.
From stdpp Require Import gmap strings list pretty.

Local Open Scope Z_scope.

(** ** JavaScript numbers and strings *)

Module JS.

(** A [number] is a binary64 float. *)
Definition number := spec_float.

Definition prec : Z := 53.
Definition emax : Z := 1024.

(** The number nearest to an integer (exact up to 2^53). *)
Definition of_Z (z : Z) : number := binary_normalize prec emax z 0 false.

Definition mul : number -> number -> number := SFmul prec emax.
Definition add : number -> number -> number := SFadd prec emax.
Definition div : number -> number -> number := SFdiv prec emax.

(** A decimal literal such as [0.70], read as the quotient [70/100]
    rounded to nearest, which is the value the literal denotes. *)
Definition literal (num den : Z) : number := div (of_Z num) (of_Z den).

(** [Math.floor], on a number whose floor is an integer.  NaN and the
    infinities have no integer floor; they do not arise from the finite
    operands used here and are sent to [0]. *)
Definition Math_floor (x : number) : Z :=
  match x with
  | S754_finite s m e =>
      let v := if s then Z.neg m else Z.pos m in
      if 0 <=? e then v * 2 ^ e else v / 2 ^ (- e)
  | _ => 0
  end.

(** Truthiness of a number and of a possibly undefined string. *)
Definition nonzero (z : Z) : bool := negb (z =? 0).

Definition nonempty (s : string) : bool := negb (bool_decide (s = EmptyString)).

Definition truthy (v : option string) : bool :=
  match v with
  | Some s => nonempty s
  | None => false
  end.

(** [a || b] on strings. *)
Definition or_else (a b : string) : string := if nonempty a then a else b.

(** [a || null] on a string. *)
Definition or_null (a : string) : option string :=
  if nonempty a then Some a else None.

(** Strings are read as sequences of code units below 256.  In that range
    the class [\s] (and the set stripped by [trim]) is made of the
    characters 9 to 13, the space and the no-break space. *)
Definition is_space (c : ascii) : bool :=
  let n := N_of_ascii c in
  ((9 <=? n) && (n <=? 13) || (n =? 32) || (n =? 160))%N.

Definition is_digit (c : ascii) : bool :=
  let n := N_of_ascii c in ((48 <=? n) && (n <=? 57))%N.

Fixpoint remove_chars (p : ascii -> bool) (s : string) : string :=
  match s with
  | EmptyString => EmptyString
  | String c s' =>
      if p c then remove_chars p s' else String c (remove_chars p s')
  end.

Fixpoint trimStart (s : string) : string :=
  match s with
  | String c s' => if is_space c then trimStart s' else s
  | EmptyString => EmptyString
  end.

Definition trim (s : string) : string :=
  String.rev (trimStart (String.rev (trimStart s))).

Fixpoint all_chars (p : ascii -> bool) (s : string) : bool :=
  match s with
  | EmptyString => true
  | String c s' => p c && all_chars p s'
  end.

(** [/^\d{n}$/.test(s)]. *)
Definition digits_exactly (n : nat) (s : string) : bool :=
  bool_decide (String.length s = n) && all_chars is_digit s.

(** [array[index]] for an integer index: undefined out of range. *)
Definition at_index {A} (l : list A) (index : Z) : option A :=
  if index <? 0 then None else l !! Z.to_nat index.

(** [array.findIndex(p)]: the first index satisfying [p], or [-1]. *)
Fixpoint findIndex {A} (p : A -> bool) (l : list A) : Z :=
  match l with
  | [] => -1
  | x :: l' =>
      if p x then 0
      else let i := findIndex p l' in if i <? 0 then -1 else i + 1
  end.

(** [array.splice(index, 1)]: a negative index counts from the end, and
    the start position is clamped to the array. *)
Definition splice1 {A} (l : list A) (index : Z) : list A :=
  let len := Z.of_nat (length l) in
  let start := if index <? 0 then Z.max (len + index) 0
               else Z.min index len in
  delete (Z.to_nat start) l.

(** [a || b] on possibly undefined strings. *)
Definition or_opt (a b : option string) : option string :=
  if truthy a then a else b.

(** [parseInt(s, 10)] on integers of any size: leading white space, an
    optional sign, then the longest run of digits; [None] is NaN. *)
Fixpoint digits_prefix (s : string) (acc : option Z) : option Z :=
  match s with
  | String c s' =>
      if is_digit c
      then digits_prefix s'
             (Some (10 * default 0 acc + (Z.of_N (N_of_ascii c) - 48)))
      else acc
  | EmptyString => acc
  end.

Definition parseInt (s : string) : option Z :=
  match trimStart s with
  | String c s' =>
      if bool_decide (c = "-"%char) then Z.opp <$> digits_prefix s' None
      else if bool_decide (c = "+"%char) then digits_prefix s' None
      else digits_prefix (String c s') None
  | EmptyString => None
  end.

(** [Number.isFinite]. *)
Definition is_finite (x : number) : bool :=
  match x with
  | S754_finite _ _ _ | S754_zero _ => true
  | _ => false
  end.

End JS.

(** ** [assets/trade-in-app.js] *)

Module App.

(** *** Configuration *)

Record Condition := {
  code : string;
  label : string;
  multiplier : JS.number;
}.

Record Config := {
  apiBase : string;
  minimumValue : Z;
  storeCreditBonus : JS.number;
  freeShippingThreshold : Z;
  conditions : list Condition;
  configLoaded : bool;
}.

Definition DEFAULT_conditions : list Condition :=
  [ {| code := "NM"; label := "Near Mint"; multiplier := JS.literal 70 100 |};
    {| code := "LP"; label := "Lightly Played";
       multiplier := JS.literal 55 100 |};
    {| code := "MP"; label := "Moderately Played";
       multiplier := JS.literal 40 100 |};
    {| code := "HP"; label := "Heavily Played";
       multiplier := JS.literal 25 100 |};
    {| code := "DMG"; label := "Damaged"; multiplier := JS.literal 10 100 |} ].

(** [CONFIG] as the script initialises it from [DEFAULT_CONFIG]. *)
Definition DEFAULT_CONFIG : Config := {|
  apiBase := "/apps/trade-in";
  minimumValue := 500;
  storeCreditBonus := JS.literal 10 100;
  freeShippingThreshold := 5000;
  conditions := DEFAULT_conditions;
  configLoaded := false;
|}.

(** *** Cards and cart items

    [None] stands for a property that is undefined, null or absent: the
    script only tests such properties for truthiness. *)

Module Card.
Record t := {
  cardId : option string;
  name : option string;
  setCode : string;
  cardNumber : string;
  variantType : string;
  fullCardNumber : string;
  rarity : string;
  imageUrl : option string;
  bestPriceGbp : Z;
  prices : option (gmap string Z);
}.
End Card.

Module Item.
Record t := {
  cardId : option string;
  name : option string;
  set : string;
  setCode : option string;
  variantType : option string;
  imageUrl : option string;
  condition : string;
  quantity : Z;
  pricePerItem : Z;
  basePriceGbp : Z;
}.

(** Assignment to [item.quantity]. *)
Definition set_quantity (f : Z -> Z) (it : t) : t := {|
  cardId := cardId it; name := name it; set := set it;
  setCode := setCode it; variantType := variantType it;
  imageUrl := imageUrl it; condition := condition it;
  quantity := f (quantity it);
  pricePerItem := pricePerItem it; basePriceGbp := basePriceGbp it;
|}.

(** The pair that identifies a cart entry. *)
Definition key (it : t) : option string * string :=
  (cardId it, condition it).
End Item.

(** *** The request body sent to [/submissions] *)

Module Payload.
Record item := {
  cardPriceId : option string;
  cardName : option string;
  setName : string;
  setCode : option string;
  variant : option string;
  conditionClaimed : string;
  quantity : Z;
}.

(** [None] in the last five fields: the property is not set. *)
Record t := {
  email : string;
  firstName : string;
  lastName : string;
  payoutType : string;
  shopifyCustomerId : option string;
  items : list item;
  phone : option string;
  contactChannel : option string;
  bankAccountName : option string;
  bankSortCode : option string;
  bankAccountNumber : option string;
}.
End Payload.

(** What awaiting [submitTradeIn] yields: the parsed response, or the
    message of the error it throws. *)
Inductive Outcome :=
| Resolved (submissionNumber : string)
| Rejected (message : string).

(** *** The page *)

Inductive StepClass := StepPlain | StepActive | StepComplete.

Record CartRow := {
  row_imageUrl : option string;
  row_name : option string;
  row_condition : string;
  row_set : string;
  row_price : Z;
  row_quantity : Z;
}.

Record CartPanel := {
  empty_hidden : bool;
  rows : list CartRow;
  summary_hidden : bool;
  clear_hidden : bool;
  badge : Z;
  itemCount_text : Z;
  quotedTotal_text : Z;
}.

Record FormSections := {
  customer_hidden : bool;
  payout_hidden : bool;
  submit_hidden : bool;
  storeCreditTotal_text : Z;
  bankTotal_text : Z;
  minimumNotice_hidden : bool;
  minimumNotice_remaining : Z;
  submitButton_disabled : bool;
  progress : list StepClass;
}.

Record Banner := {
  banner_hidden : bool;
  banner_message : string;
}.

(** The last four fields belong to the page of the bank-transfer variant
    of the form; this script never writes them. *)
Record Success := {
  success_hidden : bool;
  submissionNumber_text : string;
  packingSlip_href : string;
  shipping_href : string;
  tracking_href : string;
  successEmail_text : string;
  successItems_text : Z;
  successTotal_text : Z;
  successPayout_text : string;
}.

(** [focused] and the two inline error flags are likewise only written by
    the bank-transfer variant. *)
Record SubmitView := {
  errorBanner : Banner;
  formContent_shown : bool;
  loading_hidden : bool;
  success : Success;
  focused : option string;
  phoneError_hidden : bool;
  contactChannelError_hidden : bool;
}.

Definition set_errorBanner (b : Banner) (v : SubmitView) : SubmitView := {|
  errorBanner := b; formContent_shown := formContent_shown v;
  loading_hidden := loading_hidden v; success := success v;
  focused := focused v; phoneError_hidden := phoneError_hidden v;
  contactChannelError_hidden := contactChannelError_hidden v |}.

Definition set_formContent_shown (b : bool) (v : SubmitView) : SubmitView := {|
  errorBanner := errorBanner v; formContent_shown := b;
  loading_hidden := loading_hidden v; success := success v;
  focused := focused v; phoneError_hidden := phoneError_hidden v;
  contactChannelError_hidden := contactChannelError_hidden v |}.

Definition set_loading_hidden (b : bool) (v : SubmitView) : SubmitView := {|
  errorBanner := errorBanner v; formContent_shown := formContent_shown v;
  loading_hidden := b; success := success v;
  focused := focused v; phoneError_hidden := phoneError_hidden v;
  contactChannelError_hidden := contactChannelError_hidden v |}.

Definition set_success (s : Success) (v : SubmitView) : SubmitView := {|
  errorBanner := errorBanner v; formContent_shown := formContent_shown v;
  loading_hidden := loading_hidden v; success := s;
  focused := focused v; phoneError_hidden := phoneError_hidden v;
  contactChannelError_hidden := contactChannelError_hidden v |}.

Definition set_focused (f : option string) (v : SubmitView) : SubmitView := {|
  errorBanner := errorBanner v; formContent_shown := formContent_shown v;
  loading_hidden := loading_hidden v; success := success v;
  focused := f; phoneError_hidden := phoneError_hidden v;
  contactChannelError_hidden := contactChannelError_hidden v |}.

Definition set_phoneError_hidden (b : bool) (v : SubmitView) : SubmitView := {|
  errorBanner := errorBanner v; formContent_shown := formContent_shown v;
  loading_hidden := loading_hidden v; success := success v;
  focused := focused v; phoneError_hidden := b;
  contactChannelError_hidden := contactChannelError_hidden v |}.

Definition set_contactChannelError_hidden (b : bool) (v : SubmitView)
  : SubmitView := {|
  errorBanner := errorBanner v; formContent_shown := formContent_shown v;
  loading_hidden := loading_hidden v; success := success v;
  focused := focused v; phoneError_hidden := phoneError_hidden v;
  contactChannelError_hidden := b |}.

(** *** Module state: [CONFIG], [state.cart], [localStorage], the page, the
    toast and the bodies posted so far *)

Record State := {
  CONFIG : Config;
  cart : list Item.t;
  localStorage : gmap string string;
  cartPanel : CartPanel;
  formSections : FormSections;
  submitView : SubmitView;
  toast : option (string * string);
  posted : list Payload.t;
}.

Definition set_cart (c : list Item.t) (st : State) : State := {|
  CONFIG := CONFIG st; cart := c; localStorage := localStorage st;
  cartPanel := cartPanel st; formSections := formSections st;
  submitView := submitView st; toast := toast st; posted := posted st |}.

Definition set_localStorage (ls : gmap string string) (st : State) : State := {|
  CONFIG := CONFIG st; cart := cart st; localStorage := ls;
  cartPanel := cartPanel st; formSections := formSections st;
  submitView := submitView st; toast := toast st; posted := posted st |}.

Definition set_cartPanel (p : CartPanel) (st : State) : State := {|
  CONFIG := CONFIG st; cart := cart st; localStorage := localStorage st;
  cartPanel := p; formSections := formSections st;
  submitView := submitView st; toast := toast st; posted := posted st |}.

Definition set_formSections (f : FormSections) (st : State) : State := {|
  CONFIG := CONFIG st; cart := cart st; localStorage := localStorage st;
  cartPanel := cartPanel st; formSections := f;
  submitView := submitView st; toast := toast st; posted := posted st |}.

Definition set_submitView (v : SubmitView) (st : State) : State := {|
  CONFIG := CONFIG st; cart := cart st; localStorage := localStorage st;
  cartPanel := cartPanel st; formSections := formSections st;
  submitView := v; toast := toast st; posted := posted st |}.

Definition set_toast (t : option (string * string)) (st : State) : State := {|
  CONFIG := CONFIG st; cart := cart st; localStorage := localStorage st;
  cartPanel := cartPanel st; formSections := formSections st;
  submitView := submitView st; toast := t; posted := posted st |}.

Definition set_posted (p : list Payload.t) (st : State) : State := {|
  CONFIG := CONFIG st; cart := cart st; localStorage := localStorage st;
  cartPanel := cartPanel st; formSections := formSections st;
  submitView := submitView st; toast := toast st; posted := p |}.

(** The values read from the form on submit.  The last five inputs only
    exist in the bank-transfer variant of the form. *)
Module Form.
Record t := {
  email : string;
  firstName : string;
  lastName : string;
  payoutType : option string;
  shopifyCustomerId : option string;
  bankAccountName : string;
  bankSortCode : string;
  bankAccountNumber : string;
  phone : string;
  contactChannel : string;
}.
End Form.

(** *** The browser's JSON codec on cart payloads

    [JSON_parse] yields [None] where [JSON.parse] throws or the value is
    not an array of objects. *)
Class JSON := {
  JSON_stringify : list Item.t -> string;
  JSON_parse : string -> option (list Item.t);
}.

(** *** Cart management *)

Definition CART_VERSION : Z := 2.

(** [String(n)] for an integer [n]. *)
Definition String_ (n : Z) : string := pretty n.

Record Totals := {
  itemCount : Z;
  subtotal : Z;
  storeCreditTotal : Z;
  bankTotal : Z;
}.

Definition getCartTotals (st : State) : Totals :=
  let itemCount :=
    fold_left (fun sum item => sum + Item.quantity item) (cart st) 0 in
  let subtotal :=
    fold_left (fun sum item => sum + Item.pricePerItem item * Item.quantity item)
              (cart st) 0 in
  let storeCreditTotal :=
    JS.Math_floor
      (JS.mul (JS.of_Z subtotal)
              (JS.add (JS.of_Z 1) (storeCreditBonus (CONFIG st)))) in
  {| itemCount := itemCount; subtotal := subtotal;
     storeCreditTotal := storeCreditTotal; bankTotal := subtotal |}.

Definition renderRow (item : Item.t) : CartRow := {|
  row_imageUrl := Item.imageUrl item;
  row_name := Item.name item;
  row_condition := Item.condition item;
  row_set := Item.set item;
  row_price := Item.pricePerItem item * Item.quantity item;
  row_quantity := Item.quantity item;
|}.

Definition renderCart (st : State) : State :=
  let totals := getCartTotals st in
  let old := cartPanel st in
  if bool_decide (length (cart st) = 0%nat) then
    set_cartPanel
      {| empty_hidden := false; rows := []; summary_hidden := true;
         clear_hidden := true; badge := 0;
         itemCount_text := itemCount_text old;
         quotedTotal_text := quotedTotal_text old |} st
  else
    set_cartPanel
      {| empty_hidden := true; clear_hidden := false;
         badge := itemCount totals;
         rows := map renderRow (cart st);
         summary_hidden := false;
         itemCount_text := itemCount totals;
         quotedTotal_text := subtotal totals |} st.

Definition updateProgress (hasItems : bool) (steps : list StepClass)
  : list StepClass :=
  imap (fun i _ =>
          if bool_decide (i = 0%nat) then
            if hasItems then StepComplete else StepActive
          else if bool_decide (i = 1%nat) && hasItems then StepActive
          else StepPlain) steps.

Definition updateFormSections (st : State) : State :=
  let old := formSections st in
  let hasItems := bool_decide (0 < length (cart st))%nat in
  let totals := getCartTotals st in
  let meetsMinimum := subtotal totals >=? minimumValue (CONFIG st) in
  set_formSections
    {| customer_hidden := negb hasItems;
       payout_hidden := negb hasItems;
       submit_hidden := negb hasItems;
       storeCreditTotal_text :=
         if hasItems then storeCreditTotal totals
         else storeCreditTotal_text old;
       bankTotal_text :=
         if hasItems then bankTotal totals else bankTotal_text old;
       minimumNotice_hidden :=
         if hasItems then meetsMinimum else minimumNotice_hidden old;
       minimumNotice_remaining :=
         if hasItems && negb meetsMinimum
         then minimumValue (CONFIG st) - subtotal totals
         else minimumNotice_remaining old;
       submitButton_disabled :=
         if hasItems then negb meetsMinimum else submitButton_disabled old;
       progress := updateProgress hasItems (progress old) |} st.

Definition showToast (message type : string) (st : State) : State :=
  set_toast (Some (message, type)) st.

Definition showError (message : string) (st : State) : State :=
  set_submitView
    (set_errorBanner {| banner_hidden := false; banner_message := message |}
                     (submitView st)) st.

(** The price block of [addToCart]: the price listed for the condition
    when it is a number, else the market price times the multiplier of
    the condition, else [0]. *)
Definition resolvePrice (cfg : Config) (card : Card.t) (condition : string)
  : Z :=
  match Card.prices card ≫= (fun prices => prices !! condition) with
  | Some listed => listed
  | None =>
      let conditionData :=
        find (fun c => bool_decide (code c = condition)) (conditions cfg) in
      match conditionData with
      | Some c =>
          if JS.nonzero (Card.bestPriceGbp card)
          then JS.Math_floor
                 (JS.mul (JS.of_Z (Card.bestPriceGbp card)) (multiplier c))
          else 0
      | None => 0
      end
  end.

Definition newItem (cfg : Config) (card : Card.t) (condition : string)
           (quantity : Z) : Item.t := {|
  Item.cardId := Card.cardId card;
  Item.name := Card.name card;
  Item.set := JS.or_else (Card.fullCardNumber card) (Card.setCode card);
  Item.setCode := JS.or_null (Card.setCode card);
  Item.variantType := JS.or_null (Card.variantType card);
  Item.imageUrl := Card.imageUrl card;
  Item.condition := condition;
  Item.quantity := quantity;
  Item.pricePerItem := resolvePrice cfg card condition;
  Item.basePriceGbp := Card.bestPriceGbp card;
|}.

Definition sameEntry (card : Card.t) (condition : string) (item : Item.t)
  : bool :=
  bool_decide (Item.cardId item = Card.cardId card)
  && bool_decide (Item.condition item = condition).

Section WithJSON.
Context `{JSON}.

(** The storage is taken to accept every write (the script catches and
    logs a refusal).  [Quota.saveCart] has both cases. *)
Definition saveCart (st : State) : State :=
  set_localStorage
    (<["tradeInCartVersion" := String_ CART_VERSION]>
       (<["tradeInCart" := JSON_stringify (cart st)]> (localStorage st)))
    st.

Definition isValid (item : Item.t) : bool :=
  JS.truthy (Item.cardId item) && JS.truthy (Item.name item)
  && JS.nonempty (Item.condition item).

(** A text that does not parse lands in the [catch], which empties the
    cart. *)
Definition loadCart (st : State) : State :=
  let saved := localStorage st !! "tradeInCart" in
  let savedVersion := localStorage st !! "tradeInCartVersion" in
  if bool_decide (savedVersion ≠ Some (String_ CART_VERSION)) then
    set_cart []
      (set_localStorage
         (<["tradeInCartVersion" := String_ CART_VERSION]>
            (delete "tradeInCart" (localStorage st))) st)
  else
    match saved with
    | Some text =>
        if JS.nonempty text then
          match JSON_parse text with
          | Some parsedCart =>
              let st' := set_cart (List.filter isValid parsedCart) st in
              if bool_decide (length (cart st') ≠ length parsedCart)
              then saveCart st' else st'
          | None => set_cart [] st
          end
        else st
    | None => st
    end.

Definition clearCart (st : State) : State :=
  updateFormSections (renderCart (saveCart (set_cart [] st))).

Definition addToCart (card : Card.t) (condition : string) (quantity : Z)
           (st : State) : State :=
  let existingIndex := JS.findIndex (sameEntry card condition) (cart st) in
  let cart' :=
    if existingIndex >=? 0 then
      alter (Item.set_quantity (fun q => q + quantity))
            (Z.to_nat existingIndex) (cart st)
    else cart st ++ [newItem (CONFIG st) card condition quantity] in
  showToast
    ("Added " +:+ default "undefined" (Card.name card) +:+ " to trade-in")
    "success"
    (updateFormSections (renderCart (saveCart (set_cart cart' st)))).

Definition removeFromCart (index : Z) (st : State) : State :=
  updateFormSections
    (renderCart (saveCart (set_cart (JS.splice1 (cart st) index) st))).

Definition updateCartQuantity (index delta : Z) (st : State) : State :=
  match JS.at_index (cart st) index with
  | None => st
  | Some _ =>
      let cart' :=
        alter (Item.set_quantity (fun q => Z.max 1 (q + delta)))
              (Z.to_nat index) (cart st) in
      updateFormSections (renderCart (saveCart (set_cart cart' st)))
  end.

(** *** Form submission *)

Definition payloadItem (item : Item.t) : Payload.item := {|
  Payload.cardPriceId := Item.cardId item;
  Payload.cardName := Item.name item;
  Payload.setName := JS.or_else (Item.set item) "Unknown";
  Payload.setCode :=
    if JS.truthy (Item.setCode item) then Item.setCode item else None;
  Payload.variant :=
    if JS.truthy (Item.variantType item) then Item.variantType item
    else None;
  Payload.conditionClaimed := Item.condition item;
  Payload.quantity := Item.quantity item;
|}.

Definition showLoading (st : State) : State :=
  let f := formSections st in
  set_submitView
    (set_loading_hidden false (set_formContent_shown false (submitView st)))
    (set_formSections
       {| customer_hidden := true; payout_hidden := true;
          submit_hidden := true;
          storeCreditTotal_text := storeCreditTotal_text f;
          bankTotal_text := bankTotal_text f;
          minimumNotice_hidden := minimumNotice_hidden f;
          minimumNotice_remaining := minimumNotice_remaining f;
          submitButton_disabled := submitButton_disabled f;
          progress := progress f |} st).

Definition showLinks (submissionNumber : string) (st : State) : State :=
  let v := submitView st in
  let s := success v in
  set_submitView
    (set_success
       {| success_hidden := false;
          submissionNumber_text := submissionNumber;
          packingSlip_href :=
            apiBase (CONFIG st) +:+ "/packing-slip/" +:+ submissionNumber;
          shipping_href :=
            apiBase (CONFIG st) +:+ "/shipping-instructions/"
                    +:+ submissionNumber;
          tracking_href :=
            "/pages/trade-in-track?number=" +:+ submissionNumber;
          successEmail_text := successEmail_text s;
          successItems_text := successItems_text s;
          successTotal_text := successTotal_text s;
          successPayout_text := successPayout_text s |} v) st.

Definition hideLoading (st : State) : State :=
  set_submitView (set_loading_hidden true (submitView st)) st.

Definition hideError (st : State) : State :=
  set_submitView
    (set_errorBanner
       {| banner_hidden := true;
          banner_message := banner_message (errorBanner (submitView st)) |}
       (submitView st)) st.

(** [handleSubmit(form)], with the result of awaiting [submitTradeIn]
    given as [outcome]. *)
Definition handleSubmit (form : Form.t) (outcome : Outcome) (st : State)
  : State :=
  let st := hideError st in
  let email := Form.email form in
  let payoutType := default "STORE_CREDIT"
                      (if JS.truthy (Form.payoutType form)
                       then Form.payoutType form else None) in
  if negb (JS.nonempty email) then
    showError "Please enter your email address" st
  else
    let st := showLoading st in
    let body := {|
      Payload.email := email;
      Payload.firstName := Form.firstName form;
      Payload.lastName := Form.lastName form;
      Payload.payoutType := payoutType;
      Payload.shopifyCustomerId := Form.shopifyCustomerId form;
      Payload.items := map payloadItem (cart st);
      Payload.phone := None;
      Payload.contactChannel := None;
      Payload.bankAccountName := None;
      Payload.bankSortCode := None;
      Payload.bankAccountNumber := None;
    |} in
    let st := set_posted (posted st ++ [body]) st in
    match outcome with
    | Resolved submissionNumber =>
        let st := showLinks submissionNumber (hideLoading st) in
        let st := clearCart st in
        set_localStorage (delete "tradeInCart" (localStorage st)) st
    | Rejected message =>
        let st := hideLoading st in
        let st :=
          set_submitView (set_formContent_shown true (submitView st)) st in
        let st := updateFormSections st in
        showError (JS.or_else message "Submission failed. Please try again.")
                  st
    end.

End WithJSON.

End App.

(** ** The bank-transfer variant of the form

    The second copy of the script differs from [assets/trade-in-app.js] in
    [handleSubmit] (and in the catalogue queries, which are not modelled):
    it reads and validates contact and bank inputs, sends them, and fills a
    summary on success.  Cart management is the same text and is shared.
    The ship-to address lookup and the copy button of the success panel
    only write to elements of their own and are left out. *)

Module BankForm.
Import App.

Section WithJSON.
Context `{JSON}.

Definition is_separator (c : ascii) : bool :=
  bool_decide (c = "-"%char) || JS.is_space c.

Definition focus (field : string) (st : State) : State :=
  set_submitView (set_focused (Some field) (submitView st)) st.

Definition set_phoneError (hidden : bool) (st : State) : State :=
  set_submitView (set_phoneError_hidden hidden (submitView st)) st.

Definition set_contactChannelError (hidden : bool) (st : State) : State :=
  set_submitView (set_contactChannelError_hidden hidden (submitView st)) st.

Definition showSummary (email payoutType : string) (totals : Totals)
           (st : State) : State :=
  let v := submitView st in
  let s := success v in
  set_submitView
    (set_success
       {| success_hidden := success_hidden s;
          submissionNumber_text := submissionNumber_text s;
          packingSlip_href := packingSlip_href s;
          shipping_href := shipping_href s;
          tracking_href := tracking_href s;
          successEmail_text := email;
          successItems_text := itemCount totals;
          successTotal_text :=
            if bool_decide (payoutType = "STORE_CREDIT")
            then storeCreditTotal totals else subtotal totals;
          successPayout_text :=
            if bool_decide (payoutType = "STORE_CREDIT")
            then "Store Credit (+10%)" else "Bank Transfer" |} v) st.

Definition handleSubmit (form : Form.t) (outcome : Outcome) (st : State)
  : State :=
  let st := hideError st in
  let email := Form.email form in
  let payoutType := default "STORE_CREDIT"
                      (if JS.truthy (Form.payoutType form)
                       then Form.payoutType form else None) in
  let bankAccountName := JS.trim (Form.bankAccountName form) in
  let bankSortCode := JS.remove_chars is_separator (Form.bankSortCode form) in
  let bankAccountNumber :=
    JS.remove_chars JS.is_space (Form.bankAccountNumber form) in
  let phone := JS.trim (Form.phone form) in
  let contactChannel := Form.contactChannel form in
  if negb (JS.nonempty email) then
    showError "Please enter your email address" st
  else if negb (JS.nonempty phone) then
    focus "phone"
      (set_phoneError false (showError "Please enter your phone number" st))
  else
    let st := set_phoneError true st in
    if negb (JS.nonempty contactChannel) then
      focus "contactChannel"
        (set_contactChannelError false
           (showError "Please select a contact method" st))
    else
      let st := set_contactChannelError true st in
      if bool_decide (payoutType = "BANK")
         && negb (JS.nonempty bankAccountName) then
        focus "bankAccountName"
          (showError
             "Please enter the account holder name for bank transfer" st)
      else if bool_decide (payoutType = "BANK")
              && (negb (JS.nonempty bankSortCode)
                  || negb (JS.digits_exactly 6 bankSortCode)) then
        focus "bankSortCode"
          (showError
             "Please enter a valid 6-digit sort code (e.g. 12-34-56)" st)
      else if bool_decide (payoutType = "BANK")
              && (negb (JS.nonempty bankAccountNumber)
                  || negb (JS.digits_exactly 8 bankAccountNumber)) then
        focus "bankAccountNumber"
          (showError "Please enter a valid 8-digit account number" st)
      else
        let st := showLoading st in
        let bank (v : string) : option string :=
          if bool_decide (payoutType = "BANK") then Some v else None in
        let submissionData := {|
          Payload.email := email;
          Payload.firstName := Form.firstName form;
          Payload.lastName := Form.lastName form;
          Payload.payoutType := payoutType;
          Payload.shopifyCustomerId := Form.shopifyCustomerId form;
          Payload.items := map payloadItem (cart st);
          Payload.phone := Some phone;
          Payload.contactChannel := Some contactChannel;
          Payload.bankAccountName := bank bankAccountName;
          Payload.bankSortCode := bank bankSortCode;
          Payload.bankAccountNumber := bank bankAccountNumber;
        |} in
        let st := set_posted (posted st ++ [submissionData]) st in
        match outcome with
        | Resolved submissionNumber =>
            let totals := getCartTotals st in
            let st := showLinks submissionNumber (hideLoading st) in
            let st := showSummary email payoutType totals st in
            let st := clearCart st in
            set_localStorage (delete "tradeInCart" (localStorage st)) st
        | Rejected message =>
            let st := hideLoading st in
            let st :=
              set_submitView (set_formContent_shown true (submitView st))
                             st in
            let st := updateFormSections st in
            showError
              (JS.or_else message "Submission failed. Please try again.") st
        end.

End WithJSON.
End BankForm.

(** ** The earlier variant of the script: price block of [addToCart]

    Cards carry the near-mint trade-in price and the per-condition prices;
    the fallback rescales the near-mint price.  There is no guard on the
    lookup of the condition: [None] stands for the TypeError it raises. *)

Module Legacy.

Record Card := {
  cardId : option string;
  name : option string;
  setCode : string;
  cardNumber : string;
  variantType : string;
  fullCardNumber : string;
  rarity : string;
  imageUrl : option string;
  tradeinPriceGbp : Z;
  conditionPrices : option (gmap string Z);
}.

Definition resolvePrice (cfg : App.Config) (card : Card) (condition : string)
  : option Z :=
  match conditionPrices card ≫= (fun prices => prices !! condition) with
  | Some listed => Some listed
  | None =>
      match find (fun c => bool_decide (App.code c = condition))
                 (App.conditions cfg) with
      | Some c =>
          Some (JS.Math_floor
                  (JS.div (JS.mul (JS.of_Z (tradeinPriceGbp card))
                                  (App.multiplier c))
                          (JS.literal 70 100)))
      | None => None
      end
  end.

End Legacy.

(** ** [assets/trade-in-track.js]: the items of a tracked submission *)

Module Track.

(** An item of the tracking response; [None] is JSON null. *)
Record Item := {
  cardName : string;
  setCode : option string;
  quantity : Z;
  conditionClaimed : string;
  conditionActual : option string;
  quotedPrice : Z;
  finalPrice : option Z;
  status : string;
}.

(** One rendered item: the condition change, the struck-through quoted
    amount when there is an adjustment, the displayed amount and the
    status badge. *)
Record Row := {
  row_name : string;
  row_setCode : option string;
  row_quantity : Z;
  row_conditionClaimed : string;
  row_conditionChange : option string;
  row_adjusted : option Z;
  row_amount : Z;
  row_status : option string;
}.

Definition hasAdjustment (item : Item) : bool :=
  match finalPrice item with
  | Some final => negb (final =? quotedPrice item)
  | None => false
  end.

Definition displayPrice (item : Item) : Z :=
  match finalPrice item with
  | Some final => final
  | None => quotedPrice item
  end.

Definition renderItem (item : Item) : Row := {|
  row_name := cardName item;
  row_setCode := if JS.truthy (setCode item) then setCode item else None;
  row_quantity := quantity item;
  row_conditionClaimed := conditionClaimed item;
  row_conditionChange :=
    if JS.truthy (conditionActual item)
       && negb (bool_decide (conditionActual item
                             = Some (conditionClaimed item)))
    then conditionActual item else None;
  row_adjusted :=
    if hasAdjustment item then Some (quotedPrice item * quantity item)
    else None;
  row_amount := displayPrice item * quantity item;
  row_status :=
    if negb (bool_decide (status item = "PENDING")) then Some (status item)
    else None;
|}.

(** [renderItems]: the rows and the text of the item counter. *)
Definition renderItems (items : list Item) : list Row * Z :=
  (map renderItem items,
   fold_left (fun sum item => sum + quantity item) items 0).

End Track.

(** ** A reference JSON codec for cart payloads

    A printer and a reader of the JSON text of a cart, used to run the
    model on concrete carts.  An item of the script has [setCode],
    [variantType] and [imageUrl] set to a string or to [null], so for these
    [None] is printed as [null]; its [cardId] and [name] are strings or
    undefined, so for these [None] is not printed, as [JSON.stringify]
    leaves out an undefined property.  [null] and a missing property both
    read as [None].  The reader takes the texts the script writes, arrays
    of objects whose [quantity], [pricePerItem] and [basePriceGbp] are
    numbers.  On any other text it gives [None], also where [JSON.parse]
    succeeds (on [[null]], on an object without [quantity]): those values
    are not carts of the model. *)

Module RefJSON.
Import App.

Definition dquote : ascii := "034"%char.
Definition backslash : ascii := "092"%char.

Fixpoint escape (s : string) : string :=
  match s with
  | EmptyString => EmptyString
  | String c s' =>
      if bool_decide (c = dquote) || bool_decide (c = backslash)
      then String backslash (String c (escape s'))
      else String c (escape s')
  end.

Definition quote (s : string) : string :=
  String dquote (escape s +:+ String dquote EmptyString).

Definition member (k v : string) : list string := [quote k +:+ ":" +:+ v].

Definition member_opt (k : string) (v : option string) : list string :=
  match v with
  | Some s => member k (quote s)
  | None => []
  end.

Definition member_null (k : string) (v : option string) : list string :=
  match v with
  | Some s => member k (quote s)
  | None => member k "null"
  end.

Fixpoint join (sep : string) (l : list string) : string :=
  match l with
  | [] => EmptyString
  | [x] => x
  | x :: l' => x +:+ sep +:+ join sep l'
  end.

Definition print_item (it : Item.t) : string :=
  "{" +:+ join ","
    (member_opt "cardId" (Item.cardId it)
     ++ member_opt "name" (Item.name it)
     ++ member "set" (quote (Item.set it))
     ++ member_null "setCode" (Item.setCode it)
     ++ member_null "variantType" (Item.variantType it)
     ++ member_null "imageUrl" (Item.imageUrl it)
     ++ member "condition" (quote (Item.condition it))
     ++ member "quantity" (pretty (Item.quantity it))
     ++ member "pricePerItem" (pretty (Item.pricePerItem it))
     ++ member "basePriceGbp" (pretty (Item.basePriceGbp it)))
  +:+ "}".

Definition stringify (c : list Item.t) : string :=
  "[" +:+ join "," (map print_item c) +:+ "]".

(** *** Lexer *)

Inductive value := VString (s : string) | VNumber (z : Z) | VNull.

Inductive token :=
| LBracket | RBracket | LBrace | RBrace | Colon | Comma
| Lit (v : value).

(** The lexer is between tokens, inside a string (after a backslash or
    not), inside a number, or inside the word [null]. *)
Inductive mode :=
| Between
| InString (acc : string)
| InEscape (acc : string)
| InNumber (negative : bool) (acc : Z)
| InNull (seen : nat).

Definition between (c : ascii) (out : list token)
  : option (mode * list token) :=
  if JS.is_space c then Some (Between, out)
  else if bool_decide (c = "["%char) then Some (Between, LBracket :: out)
  else if bool_decide (c = "]"%char) then Some (Between, RBracket :: out)
  else if bool_decide (c = "{"%char) then Some (Between, LBrace :: out)
  else if bool_decide (c = "}"%char) then Some (Between, RBrace :: out)
  else if bool_decide (c = ":"%char) then Some (Between, Colon :: out)
  else if bool_decide (c = ","%char) then Some (Between, Comma :: out)
  else if bool_decide (c = dquote) then Some (InString EmptyString, out)
  else if bool_decide (c = "-"%char) then Some (InNumber true 0, out)
  else if JS.is_digit c
       then Some (InNumber false (Z.of_N (N_of_ascii c) - 48), out)
  else if bool_decide (c = "n"%char) then Some (InNull 1, out)
  else None.

Definition number_token (negative : bool) (acc : Z) : token :=
  Lit (VNumber (if negative then - acc else acc)).

Definition lex_step (c : ascii) (m : mode) (out : list token)
  : option (mode * list token) :=
  match m with
  | Between => between c out
  | InString acc =>
      if bool_decide (c = dquote)
      then Some (Between, Lit (VString (String.rev acc)) :: out)
      else if bool_decide (c = backslash) then Some (InEscape acc, out)
      else Some (InString (String c acc), out)
  | InEscape acc =>
      if bool_decide (c = dquote) || bool_decide (c = backslash)
      then Some (InString (String c acc), out)
      else None
  | InNumber negative acc =>
      if JS.is_digit c
      then Some (InNumber negative (10 * acc + (Z.of_N (N_of_ascii c) - 48)),
                 out)
      else between c (number_token negative acc :: out)
  | InNull seen =>
      if bool_decide (seen = 1%nat) && bool_decide (c = "u"%char)
      then Some (InNull 2, out)
      else if bool_decide (seen = 2%nat) && bool_decide (c = "l"%char)
      then Some (InNull 3, out)
      else if bool_decide (seen = 3%nat) && bool_decide (c = "l"%char)
      then Some (Between, Lit VNull :: out)
      else None
  end.

Fixpoint lex (s : string) (m : mode) (out : list token)
  : option (list token) :=
  match s with
  | EmptyString =>
      match m with
      | Between => Some (rev out)
      | InNumber negative acc => Some (rev (number_token negative acc :: out))
      | _ => None
      end
  | String c s' =>
      match lex_step c m out with
      | Some (m', out') => lex s' m' out'
      | None => None
      end
  end.

(** *** Reader: an array of flat objects *)

Definition fields := list (string * value).

Inductive expect :=
| Start
| Element (first : bool) (done : list fields)
| AfterElement (done : list fields)
| Key (first : bool) (done : list fields) (fs : fields)
| AfterKey (done : list fields) (fs : fields) (k : string)
| Value (done : list fields) (fs : fields) (k : string)
| AfterValue (done : list fields) (fs : fields)
| Finished (done : list fields).

Definition read_step (t : token) (e : expect) : option expect :=
  match e, t with
  | Start, LBracket => Some (Element true [])
  | Element true done, RBracket => Some (Finished done)
  | Element _ done, LBrace => Some (Key true done [])
  | AfterElement done, Comma => Some (Element false done)
  | AfterElement done, RBracket => Some (Finished done)
  | Key true done fs, RBrace => Some (AfterElement (fs :: done))
  | Key _ done fs, Lit (VString k) => Some (AfterKey done fs k)
  | AfterKey done fs k, Colon => Some (Value done fs k)
  | Value done fs k, Lit v => Some (AfterValue done ((k, v) :: fs))
  | AfterValue done fs, Comma => Some (Key false done fs)
  | AfterValue done fs, RBrace => Some (AfterElement (fs :: done))
  | _, _ => None
  end.

Fixpoint read (ts : list token) (e : expect) : option (list fields) :=
  match ts with
  | [] => match e with Finished done => Some (rev done) | _ => None end
  | t :: ts' =>
      match read_step t e with
      | Some e' => read ts' e'
      | None => None
      end
  end.

Fixpoint get (k : string) (fs : fields) : option value :=
  match fs with
  | [] => None
  | (k', v) :: fs' => if bool_decide (k' = k) then Some v else get k fs'
  end.

Definition get_string (k : string) (fs : fields) : option string :=
  match get k fs with
  | Some (VString s) => Some s
  | _ => None
  end.

Definition get_number (k : string) (fs : fields) : option Z :=
  match get k fs with
  | Some (VNumber z) => Some z
  | _ => None
  end.

(** An object is read as a cart item when its numeric properties are
    numbers; a missing [set] or [condition] reads as the empty string. *)
Definition item_of (fs : fields) : option Item.t :=
  quantity ← get_number "quantity" fs;
  pricePerItem ← get_number "pricePerItem" fs;
  basePriceGbp ← get_number "basePriceGbp" fs;
  Some {| Item.cardId := get_string "cardId" fs;
          Item.name := get_string "name" fs;
          Item.set := default EmptyString (get_string "set" fs);
          Item.setCode := get_string "setCode" fs;
          Item.variantType := get_string "variantType" fs;
          Item.imageUrl := get_string "imageUrl" fs;
          Item.condition := default EmptyString (get_string "condition" fs);
          Item.quantity := quantity;
          Item.pricePerItem := pricePerItem;
          Item.basePriceGbp := basePriceGbp |}.

Definition parse (text : string) : option (list Item.t) :=
  ts ← lex text Between [];
  objects ← read ts Start;
  mapM item_of objects.

#[export] Instance codec : JSON := {|
  JSON_stringify := stringify;
  JSON_parse := parse;
|}.

End RefJSON.

(** ** The statements of the specification *)

Module Spec.
Import App.

(** The five condition codes. *)
Inductive ConditionCode := NM | LP | MP | HP | DMG.

Definition codeOf (c : ConditionCode) : string :=
  match c with
  | NM => "NM" | LP => "LP" | MP => "MP" | HP => "HP" | DMG => "DMG"
  end.

(** The fixed table [{NM:0.70, LP:0.55, MP:0.40, HP:0.25, DMG:0.10}], each
    entry being the binary64 number its literal denotes in the script. *)
Definition multiplierOf (c : ConditionCode) : JS.number :=
  match c with
  | NM => JS.literal 70 100
  | LP => JS.literal 55 100
  | MP => JS.literal 40 100
  | HP => JS.literal 25 100
  | DMG => JS.literal 10 100
  end.

(** The same table as the decimal fractions it writes, in hundredths. *)
Definition percentOf (c : ConditionCode) : Z :=
  match c with
  | NM => 70 | LP => 55 | MP => 40 | HP => 25 | DMG => 10
  end.

(** [priceOf(card, condition)]: the per-condition price when present,
    else [floor(marketPrice × multiplier[condition])], the product and
    the floor being those of the rational numbers. *)
Definition priceOf (card : Card.t) (c : ConditionCode) : Z :=
  match Card.prices card ≫= (fun prices => prices !! codeOf c) with
  | Some listed => listed
  | None => (Card.bestPriceGbp card * percentOf c) / 100
  end.

(** Sums over the cart. *)
Fixpoint sumOf (f : Item.t -> Z) (c : list Item.t) : Z :=
  match c with
  | [] => 0
  | item :: c' => f item + sumOf f c'
  end.

Definition itemCount (c : list Item.t) : Z := sumOf Item.quantity c.

Definition subtotal (c : list Item.t) : Z :=
  sumOf (fun item => Item.quantity item * Item.pricePerItem item) c.

(** Eligibility as the specification words it: the minimum is met, at
    most 100 items, and at most 99 of each. *)
Definition eligible (minimumValue : Z) (c : list Item.t) : bool :=
  (minimumValue <=? subtotal c)
  && (itemCount c <=? 100)
  && forallb (fun item => Item.quantity item <=? 99) c.

(** The validation steps of a submission, in the order of the
    specification. *)
Inductive Check :=
| EmailPresent | PhonePresent | ChannelSelected
| HolderNamePresent | SortCodeSixDigits | AccountNumberEightDigits.

Definition checks (payoutType : string) : list Check :=
  [EmailPresent; PhonePresent; ChannelSelected]
  ++ (if bool_decide (payoutType = "BANK")
      then [HolderNamePresent; SortCodeSixDigits; AccountNumberEightDigits]
      else []).

Definition payoutOf (form : Form.t) : string :=
  match Form.payoutType form with
  | Some p => if bool_decide (p = EmptyString) then "STORE_CREDIT" else p
  | None => "STORE_CREDIT"
  end.

(** The sort code with hyphens and white space removed. *)
Definition normalizedSortCode (form : Form.t) : string :=
  JS.remove_chars
    (fun c => bool_decide (c = "-"%char) || JS.is_space c)
    (Form.bankSortCode form).

Definition normalizedAccountNumber (form : Form.t) : string :=
  JS.remove_chars JS.is_space (Form.bankAccountNumber form).

Definition passes (form : Form.t) (c : Check) : bool :=
  match c with
  | EmailPresent => JS.nonempty (Form.email form)
  | PhonePresent => JS.nonempty (JS.trim (Form.phone form))
  | ChannelSelected => JS.nonempty (Form.contactChannel form)
  | HolderNamePresent => JS.nonempty (JS.trim (Form.bankAccountName form))
  | SortCodeSixDigits => JS.digits_exactly 6 (normalizedSortCode form)
  | AccountNumberEightDigits =>
      JS.digits_exactly 8 (normalizedAccountNumber form)
  end.

(** First failure wins. *)
Definition firstFailure (form : Form.t) : option Check :=
  find (fun c => negb (passes form c)) (checks (payoutOf form)).

Definition messageOf (c : Check) : string :=
  match c with
  | EmailPresent => "Please enter your email address"
  | PhonePresent => "Please enter your phone number"
  | ChannelSelected => "Please select a contact method"
  | HolderNamePresent =>
      "Please enter the account holder name for bank transfer"
  | SortCodeSixDigits =>
      "Please enter a valid 6-digit sort code (e.g. 12-34-56)"
  | AccountNumberEightDigits =>
      "Please enter a valid 8-digit account number"
  end.

End Spec.

(** ** Sample data *)

Module Sample.
Import App.

Definition page : CartPanel * FormSections * SubmitView :=
  ({| empty_hidden := false; rows := []; summary_hidden := true;
      clear_hidden := true; badge := 0; itemCount_text := 0;
      quotedTotal_text := 0 |},
   {| customer_hidden := true; payout_hidden := true; submit_hidden := true;
      storeCreditTotal_text := 0; bankTotal_text := 0;
      minimumNotice_hidden := true; minimumNotice_remaining := 0;
      submitButton_disabled := false;
      progress := [StepActive; StepPlain; StepPlain] |},
   {| errorBanner := {| banner_hidden := true;
                        banner_message := EmptyString |};
      formContent_shown := true; loading_hidden := true;
      success := {| success_hidden := true;
                    submissionNumber_text := EmptyString;
                    packingSlip_href := "#"; shipping_href := "#";
                    tracking_href := "#";
                    successEmail_text := EmptyString;
                    successItems_text := 0; successTotal_text := 0;
                    successPayout_text := EmptyString |};
      focused := None; phoneError_hidden := true;
      contactChannelError_hidden := true |}).

(** The state of a page that has just been opened, with the given cart
    in memory and the given storage. *)
Definition state (c : list Item.t) (ls : gmap string string) : State := {|
  CONFIG := DEFAULT_CONFIG; cart := c; localStorage := ls;
  cartPanel := page.1.1; formSections := page.1.2; submitView := page.2;
  toast := None; posted := [] |}.

Definition luffy : Card.t := {|
  Card.cardId := Some "OP03-OP01-051-sp";
  Card.name := Some "Monkey D. Luffy";
  Card.setCode := "OP03"; Card.cardNumber := "051";
  Card.variantType := "sp"; Card.fullCardNumber := "OP03-051";
  Card.rarity := "SR"; Card.imageUrl := None;
  Card.bestPriceGbp := 6800;
  Card.prices :=
    Some (<["NM" := 4760]> (<["LP" := 3740]> (<["MP" := 2720]>
           (<["HP" := 1700]> (<["DMG" := 680]> ∅))))) |}.

(** A card for which the API sent no per-condition prices. *)
Definition unpriced : Card.t := {|
  Card.cardId := Some "OP01-001"; Card.name := Some "Roronoa Zoro";
  Card.setCode := "OP01"; Card.cardNumber := EmptyString;
  Card.variantType := EmptyString; Card.fullCardNumber := "OP01";
  Card.rarity := EmptyString; Card.imageUrl := None;
  Card.bestPriceGbp := 90; Card.prices := None |}.

Definition item (price quantity : Z) : Item.t := {|
  Item.cardId := Some "OP03-OP01-051-sp";
  Item.name := Some "Monkey D. Luffy";
  Item.set := "OP03-051"; Item.setCode := Some "OP03";
  Item.variantType := Some "sp"; Item.imageUrl := None;
  Item.condition := "NM"; Item.quantity := quantity;
  Item.pricePerItem := price; Item.basePriceGbp := 6800 |}.

(** An item whose name is empty. *)
Definition nameless (price quantity : Z) : Item.t := {|
  Item.cardId := Some "OP01-001";
  Item.name := Some EmptyString;
  Item.set := "OP01"; Item.setCode := Some "OP01";
  Item.variantType := None; Item.imageUrl := None;
  Item.condition := "LP"; Item.quantity := quantity;
  Item.pricePerItem := price; Item.basePriceGbp := 90 |}.

Definition form : Form.t := {|
  Form.email := "shopper@example.com";
  Form.firstName := "Sam"; Form.lastName := "Doe";
  Form.payoutType := Some "BANK"; Form.shopifyCustomerId := None;
  Form.bankAccountName := " Sam Doe ";
  Form.bankSortCode := "12-34-56";
  Form.bankAccountNumber := "1234 5678";
  Form.phone := " 07700 900123 ";
  Form.contactChannel := "email" |}.

End Sample.

Import App.

(** ** The cart states the operations lead to *)

Section Reachable.
Context `{JSON}.

(** From any state whose cart is empty (a first visit, or a visit after a
  submission), by the operations that write [state.cart]. *)
Inductive reachable : State -> Prop :=
| reach_empty st :
  cart st = [] -> reachable st
| reach_addToCart card condition quantity st :
  reachable st -> reachable (addToCart card condition quantity st)
| reach_removeFromCart index st :
  reachable st -> reachable (removeFromCart index st)
| reach_updateCartQuantity index delta st :
  reachable st -> reachable (updateCartQuantity index delta st)
| reach_clearCart st :
  reachable st -> reachable (clearCart st)
| reach_handleSubmit form outcome st :
  reachable st -> reachable (handleSubmit form outcome st).

End Reachable.

(** The body [handleSubmit] posts. *)
Definition bodyOf (form : Form.t) (c : list Item.t) : Payload.t := {|
  Payload.email := Form.email form;
  Payload.firstName := Form.firstName form;
  Payload.lastName := Form.lastName form;
  Payload.payoutType := Spec.payoutOf form;
  Payload.shopifyCustomerId := Form.shopifyCustomerId form;
  Payload.items := map payloadItem c;
  Payload.phone := None;
  Payload.contactChannel := None;
  Payload.bankAccountName := None;
  Payload.bankSortCode := None;
  Payload.bankAccountNumber := None;
|}.

(** The shopper can submit: the submit section is shown and its button is
    enabled. *)
Definition canSubmit (st : State) : bool :=
  negb (submit_hidden (formSections st))
  && negb (submitButton_disabled (formSections st)).

(** The body the bank-transfer variant posts: contact fields always, bank
    fields when the payout is a bank transfer. *)
Definition bankBodyOf (form : Form.t) (c : list Item.t) : Payload.t :=
  let bank (v : string) : option string :=
    if bool_decide (Spec.payoutOf form = "BANK") then Some v else None in
  {| Payload.email := Form.email form;
     Payload.firstName := Form.firstName form;
     Payload.lastName := Form.lastName form;
     Payload.payoutType := Spec.payoutOf form;
     Payload.shopifyCustomerId := Form.shopifyCustomerId form;
     Payload.items := map payloadItem c;
     Payload.phone := Some (JS.trim (Form.phone form));
     Payload.contactChannel := Some (Form.contactChannel form);
     Payload.bankAccountName := bank (JS.trim (Form.bankAccountName form));
     Payload.bankSortCode := bank (Spec.normalizedSortCode form);
     Payload.bankAccountNumber := bank (Spec.normalizedAccountNumber form) |}.

(** ** [assets/trade-in-app.js]: cart management on a storage that can refuse

    [localStorage.setItem] throws when the storage refuses a write (the
    quota is exceeded, the storage is disabled).  [saveCart] catches that,
    logs it and carries on, and so does the [try] of [loadCart].  Module
    [App] has the cart functions for a storage that accepts every write.
    Here each of them takes the quota in force during the call, which says
    for every key and value whether the storage accepts the write; the
    other steps are those of [App].  [getItem] and [removeItem] are taken
    not to throw. *)

Module Quota.

Definition t : Type := string -> string -> bool.

(** A storage that accepts every write, and one that refuses every write. *)
Definition unlimited : t := fun _ _ => true.

Definition full : t := fun _ _ => false.

(** [localStorage.setItem(key, value)]; [None]: it throws, and the storage
    is as before. *)
Definition setItem (q : t) (key value : string) (ls : gmap string string)
  : option (gmap string string) :=
  if q key value then Some (<[key := value]> ls) else None.

Section WithJSON.
Context `{JSON}.

(** The second write is not attempted when the first one throws. *)
Definition saveCart (q : t) (st : State) : State :=
  match setItem q "tradeInCart" (JSON_stringify (cart st)) (localStorage st)
  with
  | Some ls =>
      match setItem q "tradeInCartVersion" (String_ CART_VERSION) ls with
      | Some ls' => set_localStorage ls' st
      | None => set_localStorage ls st
      end
  | None => st
  end.

(** A refused write of the version lands in the [catch], after the stored
    cart has been removed; the [catch] empties the cart, as the branch
    does. *)
Definition loadCart (q : t) (st : State) : State :=
  let saved := localStorage st !! "tradeInCart" in
  let savedVersion := localStorage st !! "tradeInCartVersion" in
  if bool_decide (savedVersion ≠ Some (String_ CART_VERSION)) then
    let removed := delete "tradeInCart" (localStorage st) in
    match setItem q "tradeInCartVersion" (String_ CART_VERSION) removed with
    | Some ls => set_cart [] (set_localStorage ls st)
    | None => set_cart [] (set_localStorage removed st)
    end
  else
    match saved with
    | Some text =>
        if JS.nonempty text then
          match JSON_parse text with
          | Some parsedCart =>
              let st' := set_cart (List.filter isValid parsedCart) st in
              if bool_decide (length (cart st') ≠ length parsedCart)
              then saveCart q st' else st'
          | None => set_cart [] st
          end
        else st
    | None => st
    end.

Definition clearCart (q : t) (st : State) : State :=
  updateFormSections (renderCart (saveCart q (set_cart [] st))).

Definition addToCart (q : t) (card : Card.t) (condition : string)
           (quantity : Z) (st : State) : State :=
  let existingIndex := JS.findIndex (sameEntry card condition) (cart st) in
  let cart' :=
    if existingIndex >=? 0 then
      alter (Item.set_quantity (fun n => n + quantity))
            (Z.to_nat existingIndex) (cart st)
    else cart st ++ [newItem (CONFIG st) card condition quantity] in
  showToast
    ("Added " +:+ default "undefined" (Card.name card) +:+ " to trade-in")
    "success"
    (updateFormSections (renderCart (saveCart q (set_cart cart' st)))).

Definition removeFromCart (q : t) (index : Z) (st : State) : State :=
  updateFormSections
    (renderCart (saveCart q (set_cart (JS.splice1 (cart st) index) st))).

Definition updateCartQuantity (q : t) (index delta : Z) (st : State)
  : State :=
  match JS.at_index (cart st) index with
  | None => st
  | Some _ =>
      let cart' :=
        alter (Item.set_quantity (fun n => Z.max 1 (n + delta)))
              (Z.to_nat index) (cart st) in
      updateFormSections (renderCart (saveCart q (set_cart cart' st)))
  end.

(** One action of the shopper on the cart, and what it does. *)
Inductive Mutation :=
| Add (card : Card.t) (condition : string) (quantity : Z)
| Remove (index : Z)
| ChangeQuantity (index delta : Z)
| Clear.

Definition perform (q : t) (m : Mutation) (st : State) : State :=
  match m with
  | Add card condition quantity => addToCart q card condition quantity st
  | Remove index => removeFromCart q index st
  | ChangeQuantity index delta => updateCartQuantity q index delta st
  | Clear => clearCart q st
  end.

(** Whether the action reaches [saveCart]: all do, but a quantity change
    at an index that has no entry. *)
Definition saves (m : Mutation) (st : State) : bool :=
  match m with
  | ChangeQuantity index _ =>
      bool_decide (is_Some (JS.at_index (cart st) index))
  | _ => true
  end.

End WithJSON.

End Quota.

(** ** [assets/trade-in-app.js]: catalogue data and listings *)

Module Catalog.

(** A per-condition price object of an API response; [None]: the property
    is not a number. *)
Record ConditionPrices := {
  NM : option Z;
  LP : option Z;
  MP : option Z;
  HP : option Z;
  DMG : option Z;
}.

(** [card.prices] of a response: the search API puts the condition prices
    directly in it, the browse API under [tradein], beside [market]. *)
Record RawPrices := {
  flat : ConditionPrices;
  market : option Z;
  tradein : option ConditionPrices;
}.

(** A card as an API sends it; [None]: undefined, null or of another
    type. *)
Record RawCard := {
  cardId : option string;
  id : option string;
  name : option string;
  cardName : option string;
  setCode : option string;
  setName : option string;
  cardNumber : option string;
  variantType : option string;
  variant : option string;
  rarity : option string;
  imageUrl : option string;
  bestPriceGbp : option Z;
  prices : option RawPrices;
}.

(** The object literal [{ NM: .., LP: .., MP: .., HP: .., DMG: .. }], as the
    map of its numeric properties. *)
Definition priceObject (p : ConditionPrices) : gmap string Z :=
  let put (k : string) (v : option Z) (m : gmap string Z) :=
    match v with Some z => <[k := z]> m | None => m end in
  put "NM" (NM p) (put "LP" (LP p) (put "MP" (MP p)
    (put "HP" (HP p) (put "DMG" (DMG p) ∅)))).

(** [source] is not read by this version of the function. *)
Definition normalizeCardData (card : RawCard) (source : string) : Card.t :=
  let cardId := JS.or_opt (cardId card) (id card) in
  let name := JS.or_opt (name card) (cardName card) in
  let setCode := default EmptyString (JS.or_opt (setCode card) (setName card)) in
  let cardNumber := default EmptyString (cardNumber card) in
  let variantType :=
    default EmptyString (JS.or_opt (variantType card) (variant card)) in
  let fullCardNumber :=
    if JS.nonempty cardNumber then setCode +:+ "-" +:+ cardNumber
    else setCode in
  let bestPriceGbp :=
    match bestPriceGbp card with
    | Some b => b
    | None =>
        match prices card ≫= market with
        | Some m => m
        | None => 0
        end
    end in
  let prices :=
    match prices card with
    | Some p =>
        if bool_decide (is_Some (NM (flat p)))
        then Some (priceObject (flat p))
        else match tradein p with
             | Some t =>
                 if bool_decide (is_Some (NM t)) then Some (priceObject t)
                 else None
             | None => None
             end
    | None => None
    end in
  {| Card.cardId := cardId;
     Card.name := name;
     Card.setCode := setCode;
     Card.cardNumber := cardNumber;
     Card.variantType := variantType;
     Card.fullCardNumber := fullCardNumber;
     Card.rarity := default EmptyString (rarity card);
     Card.imageUrl := if JS.truthy (imageUrl card) then imageUrl card else None;
     Card.bestPriceGbp := bestPriceGbp;
     Card.prices := prices |}.

(** The price expression of [renderSearchResults] and [renderBrowseGrid]:
    the listed near-mint price when it is truthy, else the market price
    times the multiplier of the first configured condition.  [None]: there
    is no first condition and the expression throws. *)
Definition listingPrice (cfg : Config) (card : Card.t) : option Z :=
  let fallback :=
    match conditions cfg with
    | c :: _ =>
        Some (JS.Math_floor
                (JS.mul (JS.of_Z (Card.bestPriceGbp card)) (multiplier c)))
    | [] => None
    end in
  match Card.prices card ≫= (fun prices => prices !! "NM") with
  | Some nm => if JS.nonzero nm then Some nm else fallback
  | None => fallback
  end.

Record GridCell := {
  cell_image : option string;
  cell_name : option string;
  cell_set : string;
  cell_price : Z;
}.

(** What [renderBrowseGrid] leaves in the container: the empty notice, or
    the cells together with the cards kept for the click handler. *)
Inductive Grid :=
| GridEmpty
| GridCards (cells : list GridCell) (_cards : list Card.t).

Definition gridCell (cfg : Config) (card : Card.t) : option GridCell :=
  price ← listingPrice cfg card;
  Some {| cell_image :=
            if JS.truthy (Card.imageUrl card) then Card.imageUrl card else None;
          cell_name := Card.name card;
          cell_set := JS.or_else (Card.fullCardNumber card) (Card.setCode card);
          cell_price := price |}.

(** [None]: the rendering throws before the container is written. *)
Definition renderBrowseGrid (cfg : Config) (cards : list Card.t)
  : option Grid :=
  if bool_decide (length cards = 0%nat) then Some GridEmpty
  else cells ← mapM (gridCell cfg) cards; Some (GridCards cells cards).

Section WithJSON.
Context `{JSON}.

(** The click on the quick-add button of cell [index]. *)
Definition quickAdd (grid : Grid) (index : Z) (st : State) : State :=
  match grid with
  | GridCards _ _cards =>
      match JS.at_index _cards index with
      | Some card => addToCart card "NM" 1 st
      | None => st
      end
  | GridEmpty => st
  end.

End WithJSON.

(** *** Pagination *)

Inductive PageItem := PageNumber (p : Z) | Ellipsis.

#[export] Instance PageItem_eq_dec : EqDecision PageItem.
Proof. solve_decision. Defined.

Definition pageShown (currentPage totalPages i : Z) : bool :=
  (i =? 1) || (i =? totalPages)
  || ((currentPage - 1 <=? i) && (i <=? currentPage + 1)).

(** One turn of the loop that fills [pages]. *)
Definition pagesStep (currentPage totalPages : Z) (pages : list PageItem)
           (i : Z) : list PageItem :=
  if pageShown currentPage totalPages i then pages ++ [PageNumber i]
  else if bool_decide (last pages ≠ Some Ellipsis) then pages ++ [Ellipsis]
  else pages.

Definition pageList (currentPage totalPages : Z) : list PageItem :=
  fold_left (pagesStep currentPage totalPages) (seqZ 1 totalPages) [].

(** A control of the pagination bar: the page it leads to (none for the
    ellipsis), whether it is disabled, whether it is the active page. *)
Record PageButton := {
  data_page : option Z;
  disabled : bool;
  active : bool;
}.

Record Pagination := {
  pagination_hidden : bool;
  buttons : list PageButton;
}.

Definition pageButton (currentPage : Z) (p : PageItem) : PageButton :=
  match p with
  | Ellipsis => {| data_page := None; disabled := false; active := false |}
  | PageNumber n =>
      {| data_page := Some n; disabled := false;
         active := bool_decide (n = currentPage) |}
  end.

Definition renderPagination (container : Pagination)
           (currentPage totalPages : Z) : Pagination :=
  if totalPages <=? 1 then
    {| pagination_hidden := true; buttons := buttons container |}
  else
    {| pagination_hidden := false;
       buttons :=
         [{| data_page := Some (currentPage - 1);
             disabled := currentPage <=? 1; active := false |}]
         ++ map (pageButton currentPage) (pageList currentPage totalPages)
         ++ [{| data_page := Some (currentPage + 1);
                disabled := currentPage >=? totalPages; active := false |}] |}.

(** The two browse fields of [state], and the guard of the click handler of
    the pagination bar (the reload of the grid that follows is not
    modelled). *)
Record Browse := {
  currentPage : Z;
  totalPages : Z;
}.

Definition clickPage (btn : PageButton) (b : Browse) : Browse :=
  match data_page btn with
  | Some page =>
      if negb (disabled btn) && (page >=? 1) && (page <=? totalPages b)
      then {| currentPage := page; totalPages := totalPages b |}
      else b
  | None => b
  end.

End Catalog.

(** ** [assets/trade-in-app.js]: the request cache

    [Date.now()] is an input of each function that reads it.  [truthy] is
    the truthiness of a cached response body.  A call of [fetchWithCache]
    is followed from its lookup to its store, with no other call touching
    the cache while the request is awaited. *)

Module Cache.

Definition cacheMaxAge : Z := 5 * 60 * 1000.

Section WithData.
Context {Data : Type} (truthy : Data -> bool).

Record Entry := {
  data : Data;
  expires : Z;
}.

Definition getCached (key : string) (now : Z) (cache : gmap string Entry)
  : option Data * gmap string Entry :=
  match cache !! key with
  | None => (None, cache)
  | Some entry =>
      if now >? expires entry then (None, delete key cache)
      else (Some (data entry), cache)
  end.

Definition setCache (key : string) (d : Data) (now : Z)
           (cache : gmap string Entry) : gmap string Entry :=
  <[key := {| data := d; expires := now + cacheMaxAge |}]> cache.

Definition clearCache (cache : gmap string Entry) : gmap string Entry := ∅.

(** What [fetch] and [response.json()] give for one request. *)
Inductive Response :=
| FetchRejected (message : string)
| NotOk (status : Z)
| NotJson (message : string)
| Ok (body : Data).

Inductive Result :=
| Returned (body : Data)
| Thrown (message : string).

(** The cache and the list of URLs requested so far. *)
Record Net := {
  cache : gmap string Entry;
  requested : list string;
}.

(** [fetchWithCache(url, options)]: [now] is the time of the lookup,
    [response] what the request gives if it is made, [later] the time at
    which the body is stored. *)
Definition fetchWithCache (url : string) (skipCache : bool) (now : Z)
           (response : Response) (later : Z) (n : Net) : Result * Net :=
  let cacheKey := url in
  let '(cached, c) := getCached cacheKey now (cache n) in
  let request (_ : unit) :=
    let n' := {| cache := c; requested := requested n ++ [url] |} in
    match response with
    | FetchRejected message => (Thrown message, n')
    | NotOk status => (Thrown ("HTTP " +:+ pretty status), n')
    | NotJson message => (Thrown message, n')
    | Ok body =>
        (Returned body,
         {| cache := setCache cacheKey body later c;
            requested := requested n' |})
    end in
  match cached with
  | Some body =>
      if truthy body && negb skipCache
      then (Returned body, {| cache := c; requested := requested n |})
      else request ()
  | None => request ()
  end.

End WithData.

Arguments Entry : clear implicits.
Arguments Response : clear implicits.
Arguments Result : clear implicits.
Arguments Net : clear implicits.

(** The truthiness of a body that is a number. *)
Definition truthyNumber (z : Z) : bool := JS.nonzero z.

End Cache.

(** ** [assets/trade-in-app.js]: settings from the server *)

Module Settings.

(** The body of the settings response; [None]: the property is undefined
    (for [conditions]: or not an array). *)
Record Data := {
  minimumValue : option Z;
  storeCreditBonus : option JS.number;
  freeShippingThreshold : option Z;
  conditions : option (list Condition);
}.

(** The request fails or its body does not parse, the status is not OK, or
    the body arrives. *)
Inductive Response :=
| Failed
| NotOk
| Ok (data : Data).

Definition set_CONFIG (c : Config) (st : State) : State := {|
  CONFIG := c; cart := cart st; localStorage := localStorage st;
  cartPanel := cartPanel st; formSections := formSections st;
  submitView := submitView st; toast := toast st; posted := posted st |}.

Definition loadConfig (response : Response) (st : State) : State :=
  match response with
  | Failed => st
  | NotOk => st
  | Ok data =>
      let c := CONFIG st in
      set_CONFIG
        {| apiBase := apiBase c;
           App.minimumValue := default (App.minimumValue c) (minimumValue data);
           App.storeCreditBonus :=
             default (App.storeCreditBonus c) (storeCreditBonus data);
           App.freeShippingThreshold :=
             default (App.freeShippingThreshold c) (freeShippingThreshold data);
           App.conditions := default (App.conditions c) (conditions data);
           configLoaded := true |} st
  end.

Section WithJSON.
Context `{JSON}.

(** [init] on a page that has the form, up to the listeners.  The settings
    request is started and not awaited, so its response is handled after
    the saved cart has been loaded and shown. *)
Definition init (response : Response) (st : State) : State :=
  loadConfig response (updateFormSections (renderCart (loadCart st))).

End WithJSON.

End Settings.

(** ** [assets/trade-in-app.js]: the condition modal

    The quantity handlers are given by the number they assign to the input
    ([None]: NaN).  [modalPrice] and [modalAdd] yield [None] where the
    quantity read from the input is not a number, or the selected code is
    not configured and its price is not listed (the script throws). *)

Module Modal.

Record ConditionOption := {
  opt_code : string;
  opt_name : string;
  opt_price : Z;
  opt_selected : bool;
}.

Record View := {
  selectedCard : option Card.t;
  modal_hidden : bool;
  image_src : option string;
  name_text : option string;
  set_text : string;
  quantity_value : string;
  options : list ConditionOption;
  price_text : option Z;
}.

(** The price of a condition button. *)
Definition optionPrice (card : Card.t) (cond : Condition) : Z :=
  match Card.prices card ≫= (fun prices => prices !! code cond) with
  | Some listed => listed
  | None =>
      JS.Math_floor (JS.mul (JS.of_Z (Card.bestPriceGbp card)) (multiplier cond))
  end.

Definition conditionOptions (cfg : Config) (card : Card.t)
  : list ConditionOption :=
  imap (fun i cond =>
          {| opt_code := code cond; opt_name := label cond;
             opt_price := optionPrice card cond;
             opt_selected := bool_decide (i = 0%nat) |})
       (conditions cfg).

(** [parseInt(qtyInput?.value || 1, 10)]. *)
Definition quantityOf (value : string) : option Z :=
  JS.parseInt (JS.or_else value "1").

Definition modalPrice (cfg : Config) (card : Card.t) (conditionCode : string)
           (value : string) : option Z :=
  quantity ← quantityOf value;
  price ← match Card.prices card ≫= (fun prices => prices !! conditionCode) with
          | Some listed => Some listed
          | None =>
              condition ← find (fun c => bool_decide (code c = conditionCode))
                               (conditions cfg);
              Some (JS.Math_floor
                      (JS.mul (JS.of_Z (Card.bestPriceGbp card))
                              (multiplier condition)))
          end;
  Some (price * quantity).

(** The code of the button that carries the selected class. *)
Definition selectedCode (v : View) : option string :=
  opt_code <$> find opt_selected (options v).

Definition updateModalPrice (cfg : Config) (v : View) : View :=
  match selectedCard v, selectedCode v with
  | Some card, Some conditionCode =>
      {| selectedCard := selectedCard v; modal_hidden := modal_hidden v;
         image_src := image_src v; name_text := name_text v;
         set_text := set_text v; quantity_value := quantity_value v;
         options := options v;
         price_text := modalPrice cfg card conditionCode (quantity_value v) |}
  | _, _ => v
  end.

Definition openConditionModal (cfg : Config) (card : Card.t) (v : View)
  : View :=
  let v' :=
    updateModalPrice cfg
      {| selectedCard := Some card;
         modal_hidden := modal_hidden v;
         image_src :=
           if JS.truthy (Card.imageUrl card) then Card.imageUrl card
           else image_src v;
         name_text := Card.name card;
         set_text :=
           JS.or_else (Card.fullCardNumber card) (Card.setCode card) +:+ " "
           +:+ (if JS.nonempty (Card.variantType card)
                then "(" +:+ Card.variantType card +:+ ")" else EmptyString);
         quantity_value := "1";
         options := conditionOptions cfg card;
         price_text := price_text v |} in
  {| selectedCard := selectedCard v'; modal_hidden := false;
     image_src := image_src v'; name_text := name_text v';
     set_text := set_text v'; quantity_value := quantity_value v';
     options := options v'; price_text := price_text v' |}.

(** The click on the condition button number [index]. *)
Definition selectCondition (cfg : Config) (index : nat) (v : View) : View :=
  updateModalPrice cfg
    {| selectedCard := selectedCard v; modal_hidden := modal_hidden v;
       image_src := image_src v; name_text := name_text v;
       set_text := set_text v; quantity_value := quantity_value v;
       options :=
         imap (fun i o =>
                 {| opt_code := opt_code o; opt_name := opt_name o;
                    opt_price := opt_price o;
                    opt_selected := bool_decide (i = index) |})
              (options v);
       price_text := price_text v |}.

Definition closeModal (v : View) : View := {|
  selectedCard := None; modal_hidden := true;
  image_src := image_src v; name_text := name_text v;
  set_text := set_text v; quantity_value := quantity_value v;
  options := options v; price_text := price_text v |}.

(** The numbers the minus button, the plus button and the change handler
    assign to the quantity input. *)
Definition qtyDecrease (value : string) : option Z :=
  (fun n => Z.max 1 (n - 1)) <$> JS.parseInt value.

Definition qtyIncrease (value : string) : option Z :=
  (fun n => Z.min 99 (n + 1)) <$> JS.parseInt value.

Definition qtyChange (value : string) : Z :=
  Z.max 1
    (Z.min 99
       (match JS.parseInt value with
        | Some n => if JS.nonzero n then n else 1
        | None => 1
        end)).

Section WithJSON.
Context `{JSON}.

(** The click on the add button. *)
Definition modalAdd (v : View) (st : State) : option (View * State) :=
  match selectedCode v, selectedCard v with
  | Some condition, Some card =>
      quantity ← quantityOf (quantity_value v);
      Some (closeModal v, addToCart card condition quantity st)
  | _, _ => Some (v, st)
  end.

End WithJSON.

End Modal.

(** ** [assets/trade-in.js]: the trade-in rows of the shop cart *)

Module ThemeCart.

Inductive Effect :=
| Alert (message : string)
| PostChange (id : option string) (quantity : Z)
| PostUpdate (updates : gmap string Z)
| Reload.

(** What the request gives: [fetch] rejects, or the server answers, with
    a status in the 200s or another one ([ok]) and a body that
    [response.json()] reads or not ([parses]).  The script does not look at
    the status. *)
Inductive Response :=
| Rejected
| Answered (ok : bool) (parses : bool).

(** The [then] of the page reload runs when [response.json()] resolves;
    anything else lands in the [catch]. *)
Definition resolves (response : Response) : bool :=
  match response with
  | Rejected => false
  | Answered _ parses => parses
  end.

(** The [updates] object filled from the [data-item-id] of the rows. *)
Definition collectUpdates (rows : list (option string)) : gmap string Z :=
  fold_left (fun updates itemKey =>
               match itemKey with
               | Some k => if JS.nonempty k then <[k := 0]> updates else updates
               | None => updates
               end) rows ∅.

(** [confirmed]: the answer to the confirmation. *)
Definition clearAllTradeIns (confirmed : bool) (rows : list (option string))
           (response : Response) : list Effect :=
  if negb confirmed then []
  else
    let updates := collectUpdates rows in
    if bool_decide (size updates = 0%nat)
    then [Alert "No trade-in items found to remove."]
    else [PostUpdate updates;
          if resolves response then Reload
          else Alert "There was an error removing the items from your cart."].

Definition removeTradeInItem (confirmed : bool) (itemKey : option string)
           (response : Response) : list Effect :=
  if negb confirmed then []
  else [PostChange itemKey 0;
        if resolves response then Reload
        else Alert "There was an error removing the item from your cart."].

End ThemeCart.

(** ** [assets/trade-in-track.js]: the tracking page

    [toUpperCase] is the case mapping of the runtime.  The response of the
    track request is an input of [handleSubmit]. *)

Module TrackPage.

Definition apiBase : string := "/apps/trade-in".
Definition packingSlip : string := "/packing-slip".

Record Submission := {
  submissionNumber : string;
  status : string;
  statusLabel : string;
  statusDescription : string;
  itemCount : Z;
  quotedTotal : Z;
  payoutType : string;
  bonusAmount : option Z;
}.

Record TimelineStep := {
  step_label : string;
  isComplete : bool;
  isCurrent : bool;
}.

Record GradingResults := {
  originalTotal : Z;
  adjustedTotal : Z;
  hasAdjustments : bool;
  adjustedItemCount : Z;
}.

(** The body of a track response. *)
Inductive Data :=
| NotFound (error : option string)
| Found (submission : Submission) (timeline : list TimelineStep)
        (items : list Track.Item) (gradingResults : option GradingResults).

(** What the request gives: it is rejected or its body does not parse (with
    the message of the error), the status is not OK (with the message of the
    body, if any), or the body arrives. *)
Inductive Response :=
| Rejected (message : string)
| ErrorStatus (message : option string)
| Body (data : Data).

Inductive Outcome :=
| Threw (message : string)
| Fetched (data : Data).

Definition fetchTrackingInfo (response : Response) : Outcome :=
  match response with
  | Rejected message => Threw message
  | ErrorStatus message =>
      Threw (match message with
             | Some m => JS.or_else m "Failed to fetch tracking info"
             | None => "Failed to fetch tracking info"
             end)
  | Body data => Fetched data
  end.

Record TimelineRow := {
  data_complete : bool;
  data_current : bool;
  check_icon : bool;
  row_label : string;
}.

Record GradingView := {
  grading_hidden : bool;
  gradingOriginal : Z;
  gradingFinal : Z;
  gradingAdjustedCount : Z;
  gradingAdjustment : Z;
  gradingAdjustmentRow_hidden : bool;
}.

Record ResultView := {
  resultNumber : string;
  resultStatusBadge : string;
  resultStatus : string;
  resultDescription : string;
  timelineRows : list TimelineRow;
  resultItemCount : Z;
  resultQuotedTotal : Z;
  resultPayoutType : string;
  resultBonus : Z;
  bonusCard_hidden : bool;
  grading : GradingView;
  itemsList : list Track.Row;
  itemsCount : Z;
}.

(** The page, [currentSubmissionNumber], the numbers requested, the number
    put in the address bar and the URLs opened in a new tab. *)
Record Page := {
  input_value : string;
  input_disabled : bool;
  button_disabled : bool;
  submitText_hidden : bool;
  submitLoading_hidden : bool;
  error_hidden : bool;
  errorMessage : string;
  results_hidden : bool;
  result : ResultView;
  currentSubmissionNumber : option string;
  requested : list string;
  location_number : option string;
  opened : list string;
}.

(** The three known payout types; any other is shown as it is. *)
Definition formatPayoutType (type : string) : string :=
  if bool_decide (type = "STORE_CREDIT") then "Store Credit"
  else if bool_decide (type = "BANK") then "Bank Transfer"
  else if bool_decide (type = "PAYPAL") then "PayPal"
  else type.

Definition showError (message : string) (p : Page) : Page := {|
  input_value := input_value p; input_disabled := input_disabled p;
  button_disabled := button_disabled p;
  submitText_hidden := submitText_hidden p;
  submitLoading_hidden := submitLoading_hidden p;
  error_hidden := false; errorMessage := message; results_hidden := true;
  result := result p; currentSubmissionNumber := currentSubmissionNumber p;
  requested := requested p; location_number := location_number p;
  opened := opened p |}.

Definition hideError (p : Page) : Page := {|
  input_value := input_value p; input_disabled := input_disabled p;
  button_disabled := button_disabled p;
  submitText_hidden := submitText_hidden p;
  submitLoading_hidden := submitLoading_hidden p;
  error_hidden := true; errorMessage := errorMessage p;
  results_hidden := results_hidden p;
  result := result p; currentSubmissionNumber := currentSubmissionNumber p;
  requested := requested p; location_number := location_number p;
  opened := opened p |}.

Definition setLoading (loading : bool) (p : Page) : Page := {|
  input_value := input_value p; input_disabled := loading;
  button_disabled := loading;
  submitText_hidden := loading;
  submitLoading_hidden := negb loading;
  error_hidden := error_hidden p; errorMessage := errorMessage p;
  results_hidden := results_hidden p;
  result := result p; currentSubmissionNumber := currentSubmissionNumber p;
  requested := requested p; location_number := location_number p;
  opened := opened p |}.

Definition set_results_hidden (hidden : bool) (p : Page) : Page := {|
  input_value := input_value p; input_disabled := input_disabled p;
  button_disabled := button_disabled p;
  submitText_hidden := submitText_hidden p;
  submitLoading_hidden := submitLoading_hidden p;
  error_hidden := error_hidden p; errorMessage := errorMessage p;
  results_hidden := hidden;
  result := result p; currentSubmissionNumber := currentSubmissionNumber p;
  requested := requested p; location_number := location_number p;
  opened := opened p |}.

Definition renderTimeline (timeline : list TimelineStep) : list TimelineRow :=
  map (fun step =>
         {| data_complete := isComplete step;
            data_current := isCurrent step;
            check_icon := isComplete step;
            row_label := step_label step |}) timeline.

Definition renderGradingResults (results : option GradingResults)
           (g : GradingView) : GradingView :=
  match results with
  | None =>
      {| grading_hidden := true; gradingOriginal := gradingOriginal g;
         gradingFinal := gradingFinal g;
         gradingAdjustedCount := gradingAdjustedCount g;
         gradingAdjustment := gradingAdjustment g;
         gradingAdjustmentRow_hidden := gradingAdjustmentRow_hidden g |}
  | Some results =>
      {| grading_hidden := false;
         gradingOriginal := originalTotal results;
         gradingFinal := adjustedTotal results;
         gradingAdjustedCount :=
           if hasAdjustments results then adjustedItemCount results
           else gradingAdjustedCount g;
         gradingAdjustment :=
           if hasAdjustments results
           then adjustedTotal results - originalTotal results
           else gradingAdjustment g;
         gradingAdjustmentRow_hidden := negb (hasAdjustments results) |}
  end.

Definition renderResults (submission : Submission)
           (timeline : list TimelineStep) (items : list Track.Item)
           (gradingResults : option GradingResults) (p : Page) : Page :=
  let r := result p in
  let showBonus :=
    match bonusAmount submission with
    | Some b => JS.nonzero b && (b >? 0)
    | None => false
    end in
  {| input_value := input_value p; input_disabled := input_disabled p;
     button_disabled := button_disabled p;
     submitText_hidden := submitText_hidden p;
     submitLoading_hidden := submitLoading_hidden p;
     error_hidden := true; errorMessage := errorMessage p;
     results_hidden := false;
     result :=
       {| resultNumber := submissionNumber submission;
          resultStatusBadge := status submission;
          resultStatus := statusLabel submission;
          resultDescription := statusDescription submission;
          timelineRows := renderTimeline timeline;
          resultItemCount := itemCount submission;
          resultQuotedTotal := quotedTotal submission;
          resultPayoutType := formatPayoutType (payoutType submission);
          resultBonus :=
            if showBonus then default 0 (bonusAmount submission)
            else resultBonus r;
          bonusCard_hidden := negb showBonus;
          grading := renderGradingResults gradingResults (grading r);
          itemsList := (Track.renderItems items).1;
          itemsCount := (Track.renderItems items).2 |};
     currentSubmissionNumber := Some (submissionNumber submission);
     requested := requested p; location_number := location_number p;
     opened := opened p |}.

Section WithRuntime.
Variable toUpperCase : string -> string.

Definition handleSubmit (response : Response) (p : Page) : Page :=
  let number := toUpperCase (JS.trim (input_value p)) in
  if negb (JS.nonempty number) then
    showError "Please enter a submission number" p
  else
    let p := set_results_hidden true (hideError (setLoading true p)) in
    let p :=
      {| input_value := input_value p; input_disabled := input_disabled p;
         button_disabled := button_disabled p;
         submitText_hidden := submitText_hidden p;
         submitLoading_hidden := submitLoading_hidden p;
         error_hidden := error_hidden p; errorMessage := errorMessage p;
         results_hidden := results_hidden p; result := result p;
         currentSubmissionNumber := currentSubmissionNumber p;
         requested := requested p ++ [number];
         location_number := location_number p; opened := opened p |} in
    let p :=
      match fetchTrackingInfo response with
      | Fetched (NotFound error) =>
          showError
            (match error with
             | Some e => JS.or_else e "Submission not found"
             | None => "Submission not found"
             end) p
      | Fetched (Found submission timeline items gradingResults) =>
          let p := renderResults submission timeline items gradingResults p in
          {| input_value := input_value p; input_disabled := input_disabled p;
             button_disabled := button_disabled p;
             submitText_hidden := submitText_hidden p;
             submitLoading_hidden := submitLoading_hidden p;
             error_hidden := error_hidden p; errorMessage := errorMessage p;
             results_hidden := results_hidden p; result := result p;
             currentSubmissionNumber := currentSubmissionNumber p;
             requested := requested p;
             location_number := Some number; opened := opened p |}
      | Threw message =>
          showError (JS.or_else message "An error occurred. Please try again.")
                    p
      end in
    setLoading false p.

(** [init], after the listeners are set: a number in the address bar is put
    in the input and submitted. *)
Definition init (urlNumber : option string) (response : Response) (p : Page)
  : Page :=
  match urlNumber with
  | Some number =>
      if JS.nonempty number then
        handleSubmit response
          {| input_value := number; input_disabled := input_disabled p;
             button_disabled := button_disabled p;
             submitText_hidden := submitText_hidden p;
             submitLoading_hidden := submitLoading_hidden p;
             error_hidden := error_hidden p; errorMessage := errorMessage p;
             results_hidden := results_hidden p; result := result p;
             currentSubmissionNumber := currentSubmissionNumber p;
             requested := requested p;
             location_number := location_number p; opened := opened p |}
      else p
  | None => p
  end.

End WithRuntime.

Definition handlePrintPackingSlip (p : Page) : Page :=
  match currentSubmissionNumber p with
  | Some number =>
      if JS.nonempty number then
        {| input_value := input_value p; input_disabled := input_disabled p;
           button_disabled := button_disabled p;
           submitText_hidden := submitText_hidden p;
           submitLoading_hidden := submitLoading_hidden p;
           error_hidden := error_hidden p; errorMessage := errorMessage p;
           results_hidden := results_hidden p; result := result p;
           currentSubmissionNumber := currentSubmissionNumber p;
           requested := requested p;
           location_number := location_number p;
           opened := opened p ++ [apiBase +:+ packingSlip +:+ "/" +:+ number] |}
      else p
  | None => p
  end.

(** The page as it is served, before any lookup. *)
Definition initial (typed : string) : Page := {|
  input_value := typed; input_disabled := false; button_disabled := false;
  submitText_hidden := false; submitLoading_hidden := true;
  error_hidden := true; errorMessage := EmptyString; results_hidden := true;
  result :=
    {| resultNumber := EmptyString; resultStatusBadge := EmptyString;
       resultStatus := EmptyString; resultDescription := EmptyString;
       timelineRows := []; resultItemCount := 0; resultQuotedTotal := 0;
       resultPayoutType := EmptyString; resultBonus := 0;
       bonusCard_hidden := true;
       grading := {| grading_hidden := true; gradingOriginal := 0;
                     gradingFinal := 0; gradingAdjustedCount := 0;
                     gradingAdjustment := 0;
                     gradingAdjustmentRow_hidden := true |};
       itemsList := []; itemsCount := 0 |};
  currentSubmissionNumber := None; requested := []; location_number := None;
  opened := [] |}.

(** Upper case of the letters a to z; the other characters are kept. *)
Definition asciiUpper (s : string) : string :=
  let up (c : ascii) : ascii :=
    let n := N_of_ascii c in
    if ((97 <=? n) && (n <=? 122))%N then ascii_of_N (n - 32) else c in
  (fix go (s : string) : string :=
     match s with
     | EmptyString => EmptyString
     | String c s' => String (up c) (go s')
     end) s.

End TrackPage.

(** ** Observations used in the statements *)

Section Observations.
Context `{JSON}.

(** The storage holds the cart in memory, under the current version. *)
Definition stored (st : State) : Prop :=
  localStorage st !! "tradeInCart" = Some (JSON_stringify (cart st))
  /\ localStorage st !! "tradeInCartVersion" = Some (String_ CART_VERSION).

(** The cart panel shows the cart in memory. *)
Definition shown (st : State) : Prop :=
  rows (cartPanel st) = map renderRow (cart st)
  /\ badge (cartPanel st) = Spec.itemCount (cart st)
  /\ itemCount_text (cartPanel st) = Spec.itemCount (cart st)
  /\ quotedTotal_text (cartPanel st) = Spec.subtotal (cart st)
  /\ empty_hidden (cartPanel st) = true
  /\ summary_hidden (cartPanel st) = false
  /\ clear_hidden (cartPanel st) = false.

End Observations.

(** A step that does not look at the storage: it commutes with a change
    of the storage. *)
Definition storage_blind (after : State -> State) : Prop :=
  forall ls s, after (set_localStorage ls s) = set_localStorage ls (after s).

(** The number a lookup of the tracking page asks for. *)
Definition lookupNumber (toUpperCase : string -> string) (p : TrackPage.Page)
  : string :=
  toUpperCase (JS.trim (TrackPage.input_value p)).

(** The amount of one cart line. *)
Definition lineTotal (item : Item.t) : Z :=
  Item.quantity item * Item.pricePerItem item.

(** The two documented shapes of a card: the search API names the fields
    [id], [cardName], [setName], [variant], and puts the market price in
    [bestPriceGbp] and the condition prices directly in [prices]; the browse
    API names them [cardId], [name], [setCode], [variantType], and puts both
    prices under [prices]. *)
Definition searchShape (id name set number variant rarity image : option string)
           (marketPrice : Z) (listed : Catalog.ConditionPrices)
  : Catalog.RawCard := {|
  Catalog.cardId := None; Catalog.id := id;
  Catalog.name := None; Catalog.cardName := name;
  Catalog.setCode := None; Catalog.setName := set;
  Catalog.cardNumber := number;
  Catalog.variantType := None; Catalog.variant := variant;
  Catalog.rarity := rarity; Catalog.imageUrl := image;
  Catalog.bestPriceGbp := Some marketPrice;
  Catalog.prices :=
    Some {| Catalog.flat := listed; Catalog.market := None;
            Catalog.tradein := None |} |}.

Definition browseShape (id name set number variant rarity image : option string)
           (marketPrice : Z) (listed : Catalog.ConditionPrices)
  : Catalog.RawCard := {|
  Catalog.cardId := id; Catalog.id := None;
  Catalog.name := name; Catalog.cardName := None;
  Catalog.setCode := set; Catalog.setName := None;
  Catalog.cardNumber := number;
  Catalog.variantType := variant; Catalog.variant := None;
  Catalog.rarity := rarity; Catalog.imageUrl := image;
  Catalog.bestPriceGbp := None;
  Catalog.prices :=
    Some {| Catalog.flat :=
              {| Catalog.NM := None; Catalog.LP := None; Catalog.MP := None;
                 Catalog.HP := None; Catalog.DMG := None |};
            Catalog.market := Some marketPrice;
            Catalog.tradein := Some listed |} |}.

(** The entry of a per-condition price object for a condition code. *)
Definition entryOf (p : Catalog.ConditionPrices) (c : Spec.ConditionCode)
  : option Z :=
  match c with
  | Spec.NM => Catalog.NM p
  | Spec.LP => Catalog.LP p
  | Spec.MP => Catalog.MP p
  | Spec.HP => Catalog.HP p
  | Spec.DMG => Catalog.DMG p
  end.

(** The price a response lists for a condition, as the normalization reads
    it: from the object whose near-mint entry is a number, [prices] first,
    [prices.tradein] second. *)
Definition listedIn (card : Catalog.RawCard) (c : Spec.ConditionCode)
  : option Z :=
  p ← Catalog.prices card;
  if bool_decide (is_Some (Catalog.NM (Catalog.flat p)))
  then entryOf (Catalog.flat p) c
  else t ← Catalog.tradein p;
       if bool_decide (is_Some (Catalog.NM t)) then entryOf t c else None.

(** The market price of a response: [bestPriceGbp], else [prices.market],
    else 0. *)
Definition marketOf (card : Catalog.RawCard) : Z :=
  match Catalog.bestPriceGbp card with
  | Some b => b
  | None => default 0 (Catalog.prices card ≫= Catalog.market)
  end.

(** * Properties *)

(** ** Arrays *)

Section Arrays.
Context {A : Type}.
Implicit Types (p : A -> bool) (l : list A).

Lemma findIndex_range p l : -1 <= JS.findIndex p l < Z.of_nat (length l).
Proof.
  induction l as [|x l IH]; simpl; [lia|].
  destruct (p x); [lia|].
  destruct (JS.findIndex p l <? 0) eqn:E; lia.
Qed.

Lemma findIndex_none p l :
  JS.findIndex p l < 0 <-> Forall (fun x => p x = false) l.
Proof.
  induction l as [|x l IH]; simpl.
  - split; [constructor | lia].
  - destruct (p x) eqn:Hx.
    + split; [lia|]. intros HF. inversion HF; congruence.
    + pose proof (findIndex_range p l).
      destruct (JS.findIndex p l <? 0) eqn:E.
      * apply Z.ltb_lt in E. split; [|lia].
        intros _. constructor; [done | by apply IH].
      * apply Z.ltb_ge in E. split; [lia|].
        intros HF. inversion HF as [|? ? _ Hl]; subst. apply IH in Hl. lia.
Qed.

Lemma findIndex_some p l :
  0 <= JS.findIndex p l ->
  exists x, l !! Z.to_nat (JS.findIndex p l) = Some x /\ p x = true.
Proof.
  induction l as [|x l IH]; simpl; [lia|].
  destruct (p x) eqn:Hx; [eauto|].
  destruct (JS.findIndex p l <? 0) eqn:E; [lia|].
  apply Z.ltb_ge in E. intros _.
  destruct (IH E) as (y & Hy & Hp). exists y. split; [|done].
  replace (Z.to_nat (JS.findIndex p l + 1)) with (S (Z.to_nat (JS.findIndex p l)))
    by lia.
  done.
Qed.

Lemma at_index_None l (index : Z) :
  JS.at_index l index = None <-> index < 0 \/ Z.of_nat (length l) <= index.
Proof.
  unfold JS.at_index. destruct (index <? 0) eqn:E.
  - apply Z.ltb_lt in E. split; auto.
  - apply Z.ltb_ge in E. rewrite lookup_ge_None. lia.
Qed.

End Arrays.

(** [reduce] with [+] is the sum. *)
Lemma fold_left_sum (f : Item.t -> Z) (c : list Item.t) (acc : Z) :
  fold_left (fun sum item => sum + f item) c acc = acc + Spec.sumOf f c.
Proof.
  revert acc. induction c as [|item c IH]; intros acc; simpl; [lia|].
  rewrite IH. lia.
Qed.

(** ** Numbers and strings *)

Example literal_070_bits :
  JS.literal 70 100 = S754_finite false 6305039478318694 (-53).
Proof. vm_compute. reflexivity. Qed.

(** The product is rounded before the floor is taken: 90 times 0.70 is
    62.99999999999999 in binary64. *)
Example floor_of_rounded_product :
  JS.Math_floor (JS.mul (JS.of_Z 90) (JS.literal 70 100)) = 62
  /\ JS.Math_floor (JS.mul (JS.of_Z 6800) (JS.literal 70 100)) = 4760.
Proof. vm_compute. done. Qed.

Example trim_example : JS.trim "  07700 900123 " = "07700 900123".
Proof. reflexivity. Qed.

Example splice1_examples :
  JS.splice1 [10; 20; 30] 1 = [10; 30]
  /\ JS.splice1 [10; 20; 30] (-1) = [10; 20]
  /\ JS.splice1 [10; 20; 30] 3 = [10; 20; 30]
  /\ JS.splice1 [10; 20; 30] (-7) = [20; 30].
Proof. vm_compute. done. Qed.

Example findIndex_examples :
  JS.findIndex (Z.eqb 20) [10; 20; 30; 20] = 1
  /\ JS.findIndex (Z.eqb 40) [10; 20; 30] = -1.
Proof. vm_compute. done. Qed.

(** ** What each step leaves alone *)

Section Frame.
Context `{JSON}.
Implicit Types st : State.

Lemma cart_renderCart st : cart (renderCart st) = cart st.
Proof. unfold renderCart. by destruct (bool_decide _). Qed.

Lemma localStorage_renderCart st :
  localStorage (renderCart st) = localStorage st.
Proof. unfold renderCart. by destruct (bool_decide _). Qed.

Lemma CONFIG_renderCart st : CONFIG (renderCart st) = CONFIG st.
Proof. unfold renderCart. by destruct (bool_decide _). Qed.

Lemma posted_renderCart st : posted (renderCart st) = posted st.
Proof. unfold renderCart. by destruct (bool_decide _). Qed.

Lemma submitView_renderCart st : submitView (renderCart st) = submitView st.
Proof. unfold renderCart. by destruct (bool_decide _). Qed.

Lemma cart_updateFormSections st : cart (updateFormSections st) = cart st.
Proof. reflexivity. Qed.

Lemma localStorage_updateFormSections st :
  localStorage (updateFormSections st) = localStorage st.
Proof. reflexivity. Qed.

Lemma cart_saveCart st : cart (saveCart st) = cart st.
Proof. reflexivity. Qed.


(** After [saveCart(); renderCart(); updateFormSections()]. *)
Lemma cart_after_save st :
  cart (updateFormSections (renderCart (saveCart st))) = cart st.
Proof. by rewrite cart_updateFormSections, cart_renderCart. Qed.

Lemma localStorage_after_save st :
  localStorage (updateFormSections (renderCart (saveCart st)))
  = <["tradeInCartVersion" := String_ CART_VERSION]>
      (<["tradeInCart" := JSON_stringify (cart st)]> (localStorage st)).
Proof.
  by rewrite localStorage_updateFormSections, localStorage_renderCart.
Qed.

Lemma CONFIG_after_save st :
  CONFIG (updateFormSections (renderCart (saveCart st))) = CONFIG st.
Proof.
  change (CONFIG (renderCart (saveCart st)) = CONFIG st).
  by rewrite CONFIG_renderCart.
Qed.

End Frame.

(** ** Totals *)

Lemma getCartTotals_itemCount st :
  itemCount (getCartTotals st) = Spec.itemCount (cart st).
Proof. unfold getCartTotals; cbn [itemCount]. by rewrite fold_left_sum. Qed.

Lemma sumOf_ext (f g : Item.t -> Z) c :
  (forall item, f item = g item) -> Spec.sumOf f c = Spec.sumOf g c.
Proof. intros Hfg. induction c as [|item c IH]; simpl; [done|]. by rewrite Hfg, IH. Qed.

Lemma getCartTotals_subtotal st :
  subtotal (getCartTotals st) = Spec.subtotal (cart st).
Proof.
  unfold getCartTotals; cbn [subtotal].
  rewrite (fold_left_sum (fun item => Item.pricePerItem item * Item.quantity item)).
  unfold Spec.subtotal. rewrite Z.add_0_l. apply sumOf_ext. intros; lia.
Qed.


(** ** Price resolution *)

Lemma find_default_condition (c : Spec.ConditionCode) :
  find (fun d => bool_decide (code d = Spec.codeOf c)) DEFAULT_conditions
  = Some {| code := Spec.codeOf c;
            label := match c with
                     | Spec.NM => "Near Mint"
                     | Spec.LP => "Lightly Played"
                     | Spec.MP => "Moderately Played"
                     | Spec.HP => "Heavily Played"
                     | Spec.DMG => "Damaged"
                     end;
            multiplier := Spec.multiplierOf c |}.
Proof. destruct c; reflexivity. Qed.

Lemma floor_zero_times_multiplier (c : Spec.ConditionCode) :
  JS.Math_floor (JS.mul (JS.of_Z 0) (Spec.multiplierOf c)) = 0.
Proof. destruct c; vm_compute; reflexivity. Qed.

Lemma resolvePrice_listed cfg card condition listed :
  Card.prices card ≫= (fun prices => prices !! condition) = Some listed ->
  resolvePrice cfg card condition = listed.
Proof. intros Hl. unfold resolvePrice. by rewrite Hl. Qed.

Lemma newItem_price cfg card (c : Spec.ConditionCode) quantity :
  conditions cfg = DEFAULT_conditions ->
  Item.pricePerItem (newItem cfg card (Spec.codeOf c) quantity)
  = match Card.prices card ≫= (fun prices => prices !! Spec.codeOf c) with
    | Some listed => listed
    | None =>
        JS.Math_floor
          (JS.mul (JS.of_Z (Card.bestPriceGbp card)) (Spec.multiplierOf c))
    end.
Proof.
  intros Hcfg.
  cbn [newItem Item.pricePerItem]. unfold resolvePrice.
  destruct (Card.prices card ≫= _) as [listed|]; [done|].
  rewrite Hcfg, find_default_condition. cbn [multiplier].
  unfold JS.nonzero. destruct (Card.bestPriceGbp card =? 0) eqn:E; cbn [negb].
  - apply Z.eqb_eq in E. rewrite E.
    symmetry. apply floor_zero_times_multiplier.
  - reflexivity.
Qed.

(** The earlier variant agrees on listed prices; its fallback starts from
    the near-mint price and divides the 0.70 back out. *)
Lemma legacy_price_listed cfg (card : Legacy.Card) condition listed :
  Legacy.conditionPrices card ≫= (fun prices => prices !! condition)
  = Some listed ->
  Legacy.resolvePrice cfg card condition = Some listed.
Proof. intros Hl. unfold Legacy.resolvePrice. by rewrite Hl. Qed.

Example legacy_price_fallback :
  let card := {| Legacy.cardId := Some "OP03-OP01-051-sp";
                 Legacy.name := Some "Monkey D. Luffy";
                 Legacy.setCode := "OP03"; Legacy.cardNumber := "051";
                 Legacy.variantType := "sp";
                 Legacy.fullCardNumber := "OP03-051";
                 Legacy.rarity := "SR"; Legacy.imageUrl := None;
                 Legacy.tradeinPriceGbp := 4760;
                 Legacy.conditionPrices := None |} in
  Legacy.resolvePrice DEFAULT_CONFIG card "LP" = Some 3740
  /\ Legacy.resolvePrice DEFAULT_CONFIG card "PSA10" = None.
Proof. vm_compute. done. Qed.

(** ** Tracking *)

(** C9.  For every item of a tracked submission the displayed price is the
    final price when there is one and the quoted price otherwise, the
    amount shown is that price times the quantity, and the adjustment line
    is rendered exactly when there is a final price that differs from the
    quoted one. *)
Theorem tracked_item_display (item : Track.Item) :
  Track.displayPrice item
  = default (Track.quotedPrice item) (Track.finalPrice item)
  /\ Track.row_amount (Track.renderItem item)
     = Track.displayPrice item * Track.quantity item
  /\ (is_Some (Track.row_adjusted (Track.renderItem item))
      <-> exists final,
            Track.finalPrice item = Some final
            /\ final <> Track.quotedPrice item)
  /\ forall items, (Track.renderItems items).1 = map Track.renderItem items.
Proof.
  split; [|split; [|split]].
  - unfold Track.displayPrice. by destruct (Track.finalPrice item).
  - reflexivity.
  - cbn [Track.renderItem Track.row_adjusted]. unfold Track.hasAdjustment.
    destruct (Track.finalPrice item) as [final|].
    + destruct (final =? Track.quotedPrice item) eqn:E; cbn [negb].
      * apply Z.eqb_eq in E. split.
        -- intros [? ?]; discriminate.
        -- intros (f & Hf & Hne). congruence.
      * apply Z.eqb_neq in E. split; [|eauto].
        intros _. exists final. done.
    + split.
      * intros [? ?]; discriminate.
      * intros (f & Hf & _); discriminate.
  - reflexivity.
Qed.

(** ** Quantity changes *)

Section Quantity.
Context `{JSON}.

Lemma updateCartQuantity_cart (st : State) (index delta : Z) item :
  JS.at_index (cart st) index = Some item ->
  cart (updateCartQuantity index delta st)
  = alter (Item.set_quantity (fun q => Z.max 1 (q + delta)))
          (Z.to_nat index) (cart st).
Proof.
  intros Hi. unfold updateCartQuantity. rewrite Hi. apply cart_after_save.
Qed.

(** What the quantity buttons do keep: the entry stays, with a quantity of
    at least one, and no entry is added or removed. *)
Lemma updateCartQuantity_lower_bound (st : State) (index delta : Z) item :
  JS.at_index (cart st) index = Some item ->
  let c := cart (updateCartQuantity index delta st) in
  length c = length (cart st)
  /\ exists item',
       JS.at_index c index = Some item'
       /\ Item.quantity item' = Z.max 1 (Item.quantity item + delta)
       /\ 1 <= Item.quantity item'
       /\ Item.key item' = Item.key item
       /\ Item.pricePerItem item' = Item.pricePerItem item.
Proof.
  intros Hi c. subst c. rewrite (updateCartQuantity_cart _ _ _ _ Hi).
  split; [apply length_alter|].
  unfold JS.at_index in *. destruct (index <? 0); [discriminate|].
  eexists. split.
  - rewrite list_lookup_alter_eq, Hi. reflexivity.
  - cbn. repeat split; lia.
Qed.

(** C10.  For an index that is not the index of a cart item,
    [updateCartQuantity] returns at once: the cart, the stored copy, the
    page and hence the totals are what they were, for every delta. *)
Theorem updateCartQuantity_out_of_range (st : State) (index delta : Z) :
  index < 0 \/ Z.of_nat (length (cart st)) <= index ->
  let st' := updateCartQuantity index delta st in
  st' = st
  /\ cart st' = cart st
  /\ localStorage st' = localStorage st
  /\ getCartTotals st' = getCartTotals st.
Proof.
  intros Hr st'. subst st'.
  apply at_index_None in Hr. unfold updateCartQuantity. rewrite Hr. done.
Qed.

End Quantity.

Lemma updateCartQuantity_out_of_range_witness :
  let st := Sample.state [Sample.item 4760 2] ∅ in
  (1 < 0 \/ Z.of_nat (length (cart st)) <= 1)
  /\ updateCartQuantity (H := RefJSON.codec) 1 5 st = st.
Proof.
  intros st.
  assert (Hr : 1 < 0 \/ Z.of_nat (length (cart st)) <= 1) by (right; simpl; lia).
  split; [exact Hr|].
  exact (proj1 (updateCartQuantity_out_of_range (H := RefJSON.codec) st 1 5 Hr)).
Defined.

(** C2, evaluated.  The lower bound holds (from 1, a delta of -5 leaves 1)
    but there is no upper bound: from 99 one more press of the plus button
    gives 100, and from 1 a delta of 1000 gives 1001. *)
Theorem updateCartQuantity_exceeds_99 :
  let run q delta :=
    map Item.quantity
        (cart (updateCartQuantity (H := RefJSON.codec) 0 delta
                                  (Sample.state [Sample.item 4760 q] ∅))) in
  run 1 (-5) = [1] /\ run 99 1 = [100] /\ run 1 1000 = [1001].
Proof. vm_compute. done. Qed.

(** ** Eligibility *)

Lemma hasItems_true (st : State) :
  cart st <> [] -> bool_decide (0 < length (cart st))%nat = true.
Proof.
  intros Hne. apply bool_decide_eq_true. destruct (cart st); [done|simpl; lia].
Qed.

Lemma geb_le (a b : Z) : (a >=? b) = true <-> b <= a.
Proof. rewrite Z.geb_le. lia. Qed.

(** C1, as the code has it.  Once the form sections are updated, the
    shopper can submit exactly when the subtotal reaches the minimum value
    (500 by default, taken positive); neither the item count nor the
    quantities take part.  While the cart has items, the notice is shown
    exactly when the minimum is not met, and then carries the shortfall,
    minimum minus subtotal: a subtotal of 480 is refused with a shortfall of
    20, a subtotal of 500 is accepted. *)
Theorem eligibility_is_the_minimum :
  (forall st : State,
     0 < minimumValue (CONFIG st) ->
     canSubmit (updateFormSections st) = true
     <-> minimumValue (CONFIG st) <= Spec.subtotal (cart st))
  /\ (forall st : State,
        cart st <> [] ->
        let f := formSections (updateFormSections st) in
        let short := minimumValue (CONFIG st) - Spec.subtotal (cart st) in
        (minimumNotice_hidden f = false <-> 0 < short)
        /\ (0 < short -> minimumNotice_remaining f = short))
  /\ minimumValue DEFAULT_CONFIG = 500
  /\ (let st := updateFormSections (Sample.state [Sample.item 480 1] ∅) in
      canSubmit st = false
      /\ minimumNotice_hidden (formSections st) = false
      /\ minimumNotice_remaining (formSections st) = 20)
  /\ (let st := updateFormSections (Sample.state [Sample.item 500 1] ∅) in
      canSubmit st = true /\ minimumNotice_hidden (formSections st) = true).
Proof.
  split; [|split; [|split; [reflexivity | split; vm_compute; done]]].
  - intros st Hmin. unfold canSubmit, updateFormSections.
    cbn [formSections set_formSections submit_hidden submitButton_disabled].
    destruct (cart st) as [|item c] eqn:Hc.
    + rewrite bool_decide_false by (simpl; lia). cbn. split; [done | lia].
    + rewrite bool_decide_true by (simpl; lia).
      rewrite getCartTotals_subtotal, Hc, !negb_involutive. cbn [andb].
      apply geb_le.
  - intros st Hne f short. subst f short.
    unfold updateFormSections.
    cbn [formSections set_formSections minimumNotice_hidden
         minimumNotice_remaining].
    rewrite (hasItems_true st Hne), getCartTotals_subtotal.
    destruct (Spec.subtotal (cart st) >=? minimumValue (CONFIG st)) eqn:E;
      cbn [negb andb].
    + apply geb_le in E. split; [split|]; try done; lia.
    + assert (minimumValue (CONFIG st) > Spec.subtotal (cart st)).
      { destruct (Z.geb_spec (Spec.subtotal (cart st))
                             (minimumValue (CONFIG st)));
          [discriminate | lia]. }
      split; [split|]; try done; lia.
Qed.

Lemma eligibility_is_the_minimum_witness :
  let st := Sample.state [Sample.item 480 1] ∅ in
  0 < minimumValue (CONFIG st)
  /\ (canSubmit (updateFormSections st) = true
      <-> minimumValue (CONFIG st) <= Spec.subtotal (cart st))
  /\ cart st <> []
  /\ (minimumNotice_hidden (formSections (updateFormSections st)) = false
      <-> 0 < minimumValue (CONFIG st) - Spec.subtotal (cart st)).
Proof.
  intros st.
  assert (Hmin : 0 < minimumValue (CONFIG st)) by (vm_compute; reflexivity).
  assert (Hne : cart st <> []) by discriminate.
  split; [exact Hmin|].
  split; [exact (proj1 eligibility_is_the_minimum st Hmin)|].
  split; [exact Hne|].
  exact (proj1 (proj1 (proj2 eligibility_is_the_minimum) st Hne)).
Defined.

(** Adding 99 and then 2 of the same card in the same condition gives one
    entry of quantity 101. *)
Example merged_quantity_exceeds_99 :
  map Item.quantity
      (cart (addToCart (H := RefJSON.codec) Sample.luffy "NM" 2
               (addToCart (H := RefJSON.codec) Sample.luffy "NM" 99
                          (Sample.state [] ∅))))
  = [101].
Proof. vm_compute. reflexivity. Qed.

(** C1, as the specification words it, does not hold: that cart meets the
    minimum, so the shopper can submit, with more than 100 items and more
    than 99 of one card. *)
Lemma eligibility_ignores_the_limits :
  let st := addToCart (H := RefJSON.codec) Sample.luffy "NM" 2
              (addToCart (H := RefJSON.codec) Sample.luffy "NM" 99
                         (Sample.state [] ∅)) in
  ~ (canSubmit st = true
     <-> Spec.eligible (minimumValue (CONFIG st)) (cart st) = true).
Proof. vm_compute. intros [Hc _]. by specialize (Hc eq_refl). Qed.

(** ** Submission *)

Section Submission.
Context `{JSON}.
Implicit Types st : State.

Lemma cart_clearCart st : cart (clearCart st) = [].
Proof. unfold clearCart. by rewrite cart_after_save. Qed.

Lemma localStorage_clearCart st :
  localStorage (clearCart st)
  = <["tradeInCartVersion" := String_ CART_VERSION]>
      (<["tradeInCart" := JSON_stringify []]> (localStorage st)).
Proof. unfold clearCart. by rewrite localStorage_after_save. Qed.

Lemma submitView_clearCart st : submitView (clearCart st) = submitView st.
Proof.
  unfold clearCart.
  change (submitView (renderCart (saveCart (set_cart [] st))) = submitView st).
  by rewrite submitView_renderCart.
Qed.

Lemma posted_clearCart st : posted (clearCart st) = posted st.
Proof.
  unfold clearCart.
  change (posted (renderCart (saveCart (set_cart [] st))) = posted st).
  by rewrite posted_renderCart.
Qed.

Lemma CONFIG_clearCart st : CONFIG (clearCart st) = CONFIG st.
Proof. unfold clearCart. by rewrite CONFIG_after_save. Qed.

Lemma payoutType_read (form : Form.t) :
  default "STORE_CREDIT"
          (if JS.truthy (Form.payoutType form) then Form.payoutType form
           else None)
  = Spec.payoutOf form.
Proof.
  unfold Spec.payoutOf, JS.truthy, JS.nonempty.
  destruct (Form.payoutType form) as [p|]; [|done].
  by destruct (bool_decide (p = EmptyString)).
Qed.

Lemma handleSubmit_no_email form outcome st :
  JS.nonempty (Form.email form) = false ->
  handleSubmit form outcome st
  = showError "Please enter your email address" (hideError st).
Proof. intros He. unfold handleSubmit. by rewrite He. Qed.

Lemma handleSubmit_rejected form message st :
  let st' := handleSubmit form (Rejected message) st in
  cart st' = cart st /\ localStorage st' = localStorage st.
Proof.
  unfold handleSubmit.
  destruct (JS.nonempty (Form.email form)); cbn [negb]; done.
Qed.

Lemma handleSubmit_resolved form number st :
  JS.nonempty (Form.email form) = true ->
  let st' := handleSubmit form (Resolved number) st in
  cart st' = []
  /\ localStorage st'
     = delete "tradeInCart"
         (<["tradeInCartVersion" := String_ CART_VERSION]> (localStorage st))
  /\ success (submitView st')
     = {| success_hidden := false;
          submissionNumber_text := number;
          packingSlip_href :=
            apiBase (CONFIG st) +:+ "/packing-slip/" +:+ number;
          shipping_href :=
            apiBase (CONFIG st) +:+ "/shipping-instructions/" +:+ number;
          tracking_href := "/pages/trade-in-track?number=" +:+ number;
          successEmail_text := successEmail_text (success (submitView st));
          successItems_text := successItems_text (success (submitView st));
          successTotal_text := successTotal_text (success (submitView st));
          successPayout_text := successPayout_text (success (submitView st)) |}
  /\ posted st' = posted st ++ [bodyOf form (cart st)].
Proof.
  intros He. unfold handleSubmit. rewrite He, payoutType_read. cbn [negb].
  cbn [cart localStorage submitView posted set_localStorage].
  rewrite cart_clearCart, localStorage_clearCart, submitView_clearCart,
    posted_clearCart.
  repeat split.
  cbn [localStorage showLinks hideLoading set_submitView set_posted showLoading
       set_formSections hideError].
  apply map_eq. intros k.
  destruct (decide (k = "tradeInCart")) as [->|Hk].
  - by rewrite !lookup_delete_eq.
  - rewrite !lookup_delete_ne by done.
    destruct (decide (k = "tradeInCartVersion")) as [->|Hv].
    + by rewrite !lookup_insert_eq.
    + rewrite !lookup_insert_ne by done. done.
Qed.

(** C8.  A rejected submission, like one stopped by validation, leaves the
    cart and its stored copy exactly as they were.  A successful one empties
    the cart, removes the stored cart, and sets the packing-slip, shipping
    and tracking links from the submission number of the response. *)
Theorem submission_is_atomic (form : Form.t) (st : State) :
  (forall message,
     let st' := handleSubmit form (Rejected message) st in
     cart st' = cart st /\ localStorage st' = localStorage st)
  /\ (Form.email form = EmptyString ->
      forall outcome,
        let st' := handleSubmit form outcome st in
        cart st' = cart st /\ localStorage st' = localStorage st
        /\ posted st' = posted st)
  /\ (Form.email form <> EmptyString ->
      forall number,
        let st' := handleSubmit form (Resolved number) st in
        let links := success (submitView st') in
        cart st' = []
        /\ localStorage st' !! "tradeInCart" = None
        /\ localStorage st' !! "tradeInCartVersion"
           = Some (String_ CART_VERSION)
        /\ packingSlip_href links
           = apiBase (CONFIG st) +:+ "/packing-slip/" +:+ number
        /\ shipping_href links
           = apiBase (CONFIG st) +:+ "/shipping-instructions/" +:+ number
        /\ tracking_href links = "/pages/trade-in-track?number=" +:+ number
        /\ submissionNumber_text links = number).
Proof.
  split; [|split].
  - intros message. apply handleSubmit_rejected.
  - intros He outcome st'. subst st'.
    rewrite handleSubmit_no_email; [done|].
    unfold JS.nonempty. rewrite He. done.
  - intros He number st' links. subst links st'.
    assert (Hn : JS.nonempty (Form.email form) = true).
    { unfold JS.nonempty. by rewrite bool_decide_false. }
    destruct (handleSubmit_resolved form number st Hn) as (Hc & Hl & Hs & _).
    rewrite Hc, Hl, Hs. cbn.
    repeat split.
    + apply lookup_delete_eq.
    + rewrite lookup_delete_ne by done. apply lookup_insert_eq.
Qed.

End Submission.

Lemma submission_is_atomic_witness :
  let st := Sample.state [Sample.item 4760 2] ∅ in
  let st' := handleSubmit (H := RefJSON.codec) Sample.form
                          (Resolved "TI-2024-ABC123") st in
  Form.email Sample.form <> EmptyString
  /\ cart st' = []
  /\ localStorage st' !! "tradeInCart" = None
  /\ tracking_href (success (submitView st'))
     = "/pages/trade-in-track?number=TI-2024-ABC123".
Proof.
  intros st st'.
  assert (He : Form.email Sample.form <> EmptyString) by discriminate.
  pose proof (proj2 (proj2 (submission_is_atomic (H := RefJSON.codec)
                              Sample.form st)) He "TI-2024-ABC123") as Hs.
  split; [exact He|].
  split; [exact (proj1 Hs)|].
  split; [exact (proj1 (proj2 Hs))|].
  exact (proj1 (proj2 (proj2 (proj2 (proj2 (proj2 Hs)))))).
Defined.

(** ** One entry per card and condition *)

Section Uniqueness.
Context `{JSON}.
Implicit Types (st : State) (c : list Item.t).

Lemma key_set_quantity f item :
  Item.key (Item.set_quantity f item) = Item.key item.
Proof. reflexivity. Qed.

Lemma keys_alter f i c :
  Item.key <$> alter (Item.set_quantity f) i c = Item.key <$> c.
Proof.
  revert i. induction c as [|item c IH]; intros [|i]; simpl; try done.
  f_equal. apply IH.
Qed.

Lemma sameEntry_key card condition item :
  sameEntry card condition item = true
  <-> Item.key item = (Card.cardId card, condition).
Proof.
  unfold sameEntry, Item.key. rewrite andb_true_iff, !bool_decide_eq_true.
  split; [intros [-> ->]; done | intros [= -> ->]; done].
Qed.

Lemma sameEntry_false_key card condition item :
  sameEntry card condition item = false
  <-> Item.key item <> (Card.cardId card, condition).
Proof.
  rewrite <- sameEntry_key. destruct (sameEntry card condition item); split;
    congruence.
Qed.

Lemma cart_addToCart card condition quantity st :
  cart (addToCart card condition quantity st)
  = if JS.findIndex (sameEntry card condition) (cart st) >=? 0
    then alter (Item.set_quantity (fun q => q + quantity))
               (Z.to_nat (JS.findIndex (sameEntry card condition) (cart st)))
               (cart st)
    else cart st ++ [newItem (CONFIG st) card condition quantity].
Proof.
  unfold addToCart.
  change (cart (showToast ?m ?t ?s)) with (cart s).
  by rewrite cart_after_save.
Qed.

Lemma CONFIG_addToCart card condition quantity st :
  CONFIG (addToCart card condition quantity st) = CONFIG st.
Proof.
  unfold addToCart.
  change (CONFIG (showToast ?m ?t ?s)) with (CONFIG s).
  by rewrite CONFIG_after_save.
Qed.

(** Adding a pair that is not in the cart appends one entry. *)
Lemma addToCart_new card condition quantity st :
  Forall (fun item => sameEntry card condition item = false) (cart st) ->
  cart (addToCart card condition quantity st)
  = cart st ++ [newItem (CONFIG st) card condition quantity].
Proof.
  intros Hnew. rewrite cart_addToCart.
  apply findIndex_none in Hnew.
  destruct (Z.geb_spec (JS.findIndex (sameEntry card condition) (cart st)) 0);
    [lia | done].
Qed.

(** With distinct keys, the entry [findIndex] returns is the entry of the
    pair. *)
Lemma findIndex_unique card condition c i item :
  NoDup (Item.key <$> c) ->
  c !! i = Some item ->
  Item.key item = (Card.cardId card, condition) ->
  JS.findIndex (sameEntry card condition) c = Z.of_nat i.
Proof.
  intros Hnd Hi Hk.
  pose proof (findIndex_range (sameEntry card condition) c) as Hr.
  destruct (Z.ltb_spec (JS.findIndex (sameEntry card condition) c) 0) as [Hlt|Hge].
  - apply findIndex_none in Hlt.
    rewrite Forall_forall in Hlt.
    assert (Hin : item ∈ c) by (eapply list_elem_of_lookup_2; eauto).
    apply Hlt in Hin. apply sameEntry_false_key in Hin. done.
  - destruct (findIndex_some _ _ Hge) as (item' & Hj & Hs).
    apply sameEntry_key in Hs.
    assert (Z.to_nat (JS.findIndex (sameEntry card condition) c) = i); [|lia].
    eapply NoDup_lookup; [exact Hnd | |].
    + rewrite list_lookup_fmap, Hj. simpl. by rewrite Hs.
    + rewrite list_lookup_fmap, Hi. simpl. by rewrite Hk.
Qed.

(** Adding a pair that is in the cart adds to the quantity of its entry. *)
Lemma addToCart_existing card condition quantity st i item :
  NoDup (Item.key <$> cart st) ->
  cart st !! i = Some item ->
  Item.key item = (Card.cardId card, condition) ->
  cart (addToCart card condition quantity st)
  = <[i := Item.set_quantity (fun q => q + quantity) item]> (cart st).
Proof.
  intros Hnd Hi Hk. rewrite cart_addToCart.
  rewrite (findIndex_unique card condition (cart st) i item Hnd Hi Hk).
  destruct (Z.geb_spec (Z.of_nat i) 0); [|lia].
  rewrite Nat2Z.id.
  apply list_eq. intros j.
  destruct (decide (i = j)) as [<-|Hne].
  - rewrite list_lookup_alter_eq, Hi.
    rewrite list_lookup_insert_eq; [done|].
    eapply lookup_lt_Some; eauto.
  - by rewrite list_lookup_alter_ne, list_lookup_insert_ne.
Qed.

Lemma keys_addToCart card condition quantity st :
  NoDup (Item.key <$> cart st) ->
  NoDup (Item.key <$> cart (addToCart card condition quantity st)).
Proof.
  intros Hnd. rewrite cart_addToCart.
  destruct (Z.geb_spec (JS.findIndex (sameEntry card condition) (cart st)) 0)
    as [Hge|Hlt].
  - by rewrite keys_alter.
  - apply findIndex_none in Hlt.
    rewrite fmap_app. apply NoDup_app. split; [done|]. split.
    + intros k Hk Hin. simpl in Hin.
      apply list_elem_of_singleton in Hin. subst k.
      apply list_elem_of_fmap in Hk as (item & Hitem & Hin).
      rewrite Forall_forall in Hlt.
      apply Hlt, sameEntry_false_key in Hin.
      apply Hin. symmetry. exact Hitem.
    + simpl. apply NoDup_singleton.
Qed.

Lemma keys_splice1 c index :
  NoDup (Item.key <$> c) -> NoDup (Item.key <$> JS.splice1 c index).
Proof.
  intros Hnd. unfold JS.splice1. rewrite list_fmap_delete.
  eapply sublist_NoDup; [done | apply sublist_delete].
Qed.

Lemma cart_handleSubmit form outcome st :
  cart (handleSubmit form outcome st) = cart st
  \/ cart (handleSubmit form outcome st) = [].
Proof.
  destruct outcome as [number|message].
  - destruct (JS.nonempty (Form.email form)) eqn:He.
    + right. apply (handleSubmit_resolved form number st He).
    + left. by rewrite handleSubmit_no_email.
  - left. apply handleSubmit_rejected.
Qed.

Lemma reachable_keys st : reachable st -> NoDup (Item.key <$> cart st).
Proof.
  induction 1 as [st He | card condition quantity st _ IH | index st _ IH
                 | index delta st _ IH | st _ IH | form outcome st _ IH].
  - rewrite He. constructor.
  - by apply keys_addToCart.
  - unfold removeFromCart. rewrite cart_after_save. by apply keys_splice1.
  - unfold updateCartQuantity.
    destruct (JS.at_index (cart st) index); [|done].
    rewrite cart_after_save. cbn [cart set_cart]. by rewrite keys_alter.
  - rewrite cart_clearCart. constructor.
  - destruct (cart_handleSubmit form outcome st) as [-> | ->];
      [done | constructor].
Qed.

(** C4.  In every cart the operations lead to, no two entries have the same
    card and condition.  Adding a pair that is not in the cart with quantity
    [a], then adding the same pair with quantity [b] (with whatever prices
    the card carries by then), leaves one entry for the pair, of quantity
    [a + b], at the price resolved by the first add.  Adding a pair that is
    in the cart changes only the quantity of its entry. *)
Theorem cart_entries_are_unique :
  (forall st, reachable st -> NoDup (Item.key <$> cart st))
  /\ (forall st card card' condition a b,
        reachable st ->
        Card.cardId card' = Card.cardId card ->
        Forall (fun item => sameEntry card condition item = false) (cart st) ->
        let st' := addToCart card' condition b (addToCart card condition a st) in
        cart st' = cart st ++ [newItem (CONFIG st) card condition (a + b)]
        /\ reachable st')
  /\ (forall st card condition b i item,
        reachable st ->
        cart st !! i = Some item ->
        Item.key item = (Card.cardId card, condition) ->
        cart (addToCart card condition b st)
        = <[i := Item.set_quantity (fun q => q + b) item]> (cart st)).
Proof.
  split; [exact reachable_keys | split].
  - intros st card card' condition a b Hr Hid Hnew st'. subst st'.
    split; [|by do 2 apply reach_addToCart].
    pose proof (addToCart_new card condition a st Hnew) as Hfirst.
    rewrite (addToCart_existing card' condition b _ (length (cart st))
               (newItem (CONFIG st) card condition a)).
    + rewrite Hfirst. rewrite insert_app_r_alt by lia.
      by rewrite Nat.sub_diag.
    + apply reachable_keys. by apply reach_addToCart.
    + rewrite Hfirst. by rewrite lookup_app_r, Nat.sub_diag by lia.
    + unfold Item.key. cbn. by rewrite Hid.
  - intros st card condition b i item Hr Hi Hk.
    apply addToCart_existing; [by apply reachable_keys | done | done].
Qed.

End Uniqueness.

Lemma cart_entries_are_unique_witness :
  let st := Sample.state [] ∅ in
  let st' := addToCart (H := RefJSON.codec) Sample.luffy "NM" 3
               (addToCart (H := RefJSON.codec) Sample.luffy "NM" 2 st) in
  reachable (H := RefJSON.codec) st
  /\ cart st' = [newItem DEFAULT_CONFIG Sample.luffy "NM" (2 + 3)]
  /\ NoDup (Item.key <$> cart st').
Proof.
  intros st st'.
  assert (Hr : reachable (H := RefJSON.codec) st) by (by apply reach_empty).
  assert (Hnew : Forall (fun item => sameEntry Sample.luffy "NM" item = false)
                         (cart st)) by constructor.
  destruct (proj1 (proj2 (cart_entries_are_unique (H := RefJSON.codec)))
              st Sample.luffy Sample.luffy "NM" 2 3 Hr eq_refl Hnew)
    as [Hc Hr'].
  split; [exact Hr|]. split; [exact Hc|].
  exact (proj1 (cart_entries_are_unique (H := RefJSON.codec)) st' Hr').
Defined.

(** ** The price of an added item *)

Section Price.
Context `{JSON}.

(** C3, as the code has it.  With the fixed multiplier table, for every
    card and each of the five condition codes, adding the card under a
    condition it is not yet in the cart with appends an item whose price is
    the per-condition price of the card when it is present, and otherwise
    the floor of the binary64 product of the market price and the
    multiplier of the condition, as the script computes it.  When the
    per-condition price is present it is the price of the specification and
    is taken as it is, whatever the multipliers and the market price. *)
Theorem price_resolution (st : State) (card : Card.t)
        (c : Spec.ConditionCode) (quantity : Z) :
  conditions (CONFIG st) = DEFAULT_conditions ->
  Forall (fun item => sameEntry card (Spec.codeOf c) item = false) (cart st) ->
  (exists item,
     cart (addToCart card (Spec.codeOf c) quantity st) = cart st ++ [item]
     /\ Item.pricePerItem item
        = match Card.prices card ≫= (fun prices => prices !! Spec.codeOf c)
          with
          | Some listed => listed
          | None =>
              JS.Math_floor
                (JS.mul (JS.of_Z (Card.bestPriceGbp card))
                        (Spec.multiplierOf c))
          end)
  /\ (forall listed,
        Card.prices card ≫= (fun prices => prices !! Spec.codeOf c)
        = Some listed ->
        Spec.priceOf card c = listed
        /\ forall cfg' card',
             Card.prices card' = Card.prices card ->
             resolvePrice cfg' card' (Spec.codeOf c) = listed).
Proof.
  intros Hcfg Hnew. split.
  - eexists. split; [by apply addToCart_new|]. by apply newItem_price.
  - intros listed Hl. split.
    + unfold Spec.priceOf. by rewrite Hl.
    + intros cfg' card' Hp. apply resolvePrice_listed. by rewrite Hp.
Qed.

End Price.

Lemma price_resolution_witness :
  let st := Sample.state [Sample.item 4760 2] ∅ in
  conditions (CONFIG st) = DEFAULT_conditions
  /\ Forall (fun item => sameEntry Sample.unpriced "NM" item = false) (cart st)
  /\ exists item,
       cart (addToCart (H := RefJSON.codec) Sample.unpriced "NM" 1 st)
       = cart st ++ [item]
       /\ Item.pricePerItem item
          = JS.Math_floor (JS.mul (JS.of_Z 90) (Spec.multiplierOf Spec.NM)).
Proof.
  intros st.
  assert (Hnew : Forall (fun item => sameEntry Sample.unpriced "NM" item = false)
                        (cart st)) by (repeat constructor).
  split; [reflexivity|]. split; [exact Hnew|].
  exact (proj1 (price_resolution (H := RefJSON.codec) st Sample.unpriced
                                 Spec.NM 1 eq_refl Hnew)).
Defined.

(** For a market price of 90 and no listed price, the specification gives
    63 in near-mint condition (90 times 0.70 is 63), the script gives 62;
    for a market price of 6800 both give 4760. *)
Example fallback_at_90_and_6800 :
  Spec.priceOf Sample.unpriced Spec.NM = 63
  /\ resolvePrice DEFAULT_CONFIG Sample.unpriced "NM" = 62
  /\ (6800 * Spec.percentOf Spec.NM) / 100 = 4760
  /\ JS.Math_floor (JS.mul (JS.of_Z 6800) (Spec.multiplierOf Spec.NM)) = 4760.
Proof. vm_compute. done. Qed.

(** C3, as the specification words it, does not hold: added to an empty
    cart in near-mint condition, that card does not get the price of the
    specification. *)
Lemma fallback_is_not_the_exact_floor :
  let st := Sample.state [] ∅ in
  ~ (forall item,
       cart (addToCart (H := RefJSON.codec) Sample.unpriced "NM" 1 st)
       = cart st ++ [item] ->
       Item.pricePerItem item = Spec.priceOf Sample.unpriced Spec.NM).
Proof.
  intros st Hall.
  specialize (Hall (newItem DEFAULT_CONFIG Sample.unpriced "NM" 1) eq_refl).
  vm_compute in Hall. discriminate.
Qed.

(** ** Persistence *)

Section Persistence.
Context `{JSON}.
Implicit Types st : State.

Lemma filter_isValid (c : list Item.t) :
  Forall (fun item => isValid item = true) c -> List.filter isValid c = c.
Proof.
  induction 1 as [|item c Hv _ IH]; simpl; [done|]. by rewrite Hv, IH.
Qed.




(** Items without a card id, a name or a condition are dropped on load,
    and the cart that remains is saved again. *)
Lemma loadCart_drops_invalid st text parsedCart :
  localStorage st !! "tradeInCartVersion" = Some (String_ CART_VERSION) ->
  localStorage st !! "tradeInCart" = Some text ->
  text <> EmptyString ->
  JSON_parse text = Some parsedCart ->
  Exists (fun item => isValid item = false) parsedCart ->
  loadCart st = saveCart (set_cart (List.filter isValid parsedCart) st).
Proof.
  intros Hv Ht Hne Hp Hbad. unfold loadCart.
  rewrite bool_decide_false by (intros Hn; by apply Hn).
  rewrite Ht. unfold JS.nonempty. rewrite bool_decide_false by done.
  cbn [negb]. rewrite Hp. cbn [cart set_cart].
  rewrite bool_decide_true; [done|].
  assert (length (List.filter isValid parsedCart) < length parsedCart)%nat;
    [|lia].
  clear -Hbad. induction Hbad as [item c Hi | item c _ IH]; simpl.
  - rewrite Hi. pose proof (List.filter_length_le isValid c). lia.
  - destruct (isValid item); simpl; lia.
Qed.

End Persistence.


(** ** Validation of the bank-transfer form *)

Section Validation.
Context `{JSON}.
Implicit Types (st : State) (form : Form.t).

Lemma digits_exactly_nonempty n s :
  JS.digits_exactly (S n) s = true -> JS.nonempty s = true.
Proof.
  unfold JS.digits_exactly, JS.nonempty.
  destruct s; [|done]. rewrite bool_decide_false; [done|]. simpl. lia.
Qed.

(** The presence test before each pattern test is implied by the pattern. *)
Lemma pattern_test n s :
  negb (JS.nonempty s) || negb (JS.digits_exactly (S n) s)
  = negb (JS.digits_exactly (S n) s).
Proof.
  destruct (JS.digits_exactly (S n) s) eqn:E; [|by rewrite orb_true_r].
  by rewrite (digits_exactly_nonempty n s E).
Qed.

Lemma firstFailure_unfold form :
  Spec.firstFailure form
  = if negb (JS.nonempty (Form.email form)) then Some Spec.EmailPresent
    else if negb (JS.nonempty (JS.trim (Form.phone form)))
    then Some Spec.PhonePresent
    else if negb (JS.nonempty (Form.contactChannel form))
    then Some Spec.ChannelSelected
    else if bool_decide (Spec.payoutOf form = "BANK") then
      if negb (JS.nonempty (JS.trim (Form.bankAccountName form)))
      then Some Spec.HolderNamePresent
      else if negb (JS.digits_exactly 6 (Spec.normalizedSortCode form))
      then Some Spec.SortCodeSixDigits
      else if negb (JS.digits_exactly 8 (Spec.normalizedAccountNumber form))
      then Some Spec.AccountNumberEightDigits
      else None
    else None.
Proof.
  unfold Spec.firstFailure, Spec.checks.
  destruct (bool_decide (Spec.payoutOf form = "BANK")); cbn [app find Spec.passes];
    repeat match goal with
           | |- context [negb ?b] => destruct b; cbn [negb]
           end; reflexivity.
Qed.

Lemma posted_after_outcome body outcome email payoutType st :
  posted
    (match outcome with
     | Resolved submissionNumber =>
         let totals := getCartTotals (set_posted (posted st ++ [body]) st) in
         let st1 := showLinks submissionNumber
                      (hideLoading (set_posted (posted st ++ [body]) st)) in
         let st2 := BankForm.showSummary email payoutType totals st1 in
         let st3 := clearCart st2 in
         set_localStorage (delete "tradeInCart" (localStorage st3)) st3
     | Rejected message =>
         let st1 := hideLoading (set_posted (posted st ++ [body]) st) in
         let st2 :=
           set_submitView (set_formContent_shown true (submitView st1)) st1 in
         let st3 := updateFormSections st2 in
         showError
           (JS.or_else message "Submission failed. Please try again.") st3
     end)
  = posted st ++ [body].
Proof.
  destruct outcome; [|reflexivity].
  cbn [posted set_localStorage]. by rewrite posted_clearCart.
Qed.

(** C7.  The bank-transfer form is validated in the order: email, phone,
    contact channel and, for a bank payout, holder name, six-digit sort
    code, eight-digit account number.  The first check that fails decides
    the message, nothing is posted and the cart is left alone.  When all
    pass, one body is posted; it carries the sort code with hyphens and
    white space removed ("12-34-56" is sent as "123456"), and it carries
    bank fields exactly when the payout is a bank transfer. *)
Theorem bank_form_validation (form : Form.t) (outcome : Outcome) (st : State) :
  let st' := BankForm.handleSubmit form outcome st in
  match Spec.firstFailure form with
  | Some failed =>
      posted st' = posted st
      /\ cart st' = cart st
      /\ localStorage st' = localStorage st
      /\ errorBanner (submitView st')
         = {| banner_hidden := false;
              banner_message := Spec.messageOf failed |}
  | None =>
      posted st' = posted st ++ [bankBodyOf form (cart st)]
      /\ (Spec.payoutOf form = "BANK" ->
          JS.nonempty (JS.trim (Form.bankAccountName form)) = true
          /\ JS.digits_exactly 6 (Spec.normalizedSortCode form) = true
          /\ JS.digits_exactly 8 (Spec.normalizedAccountNumber form) = true
          /\ Payload.bankSortCode (bankBodyOf form (cart st))
             = Some (Spec.normalizedSortCode form))
      /\ (Spec.payoutOf form <> "BANK" ->
          Payload.bankAccountName (bankBodyOf form (cart st)) = None
          /\ Payload.bankSortCode (bankBodyOf form (cart st)) = None
          /\ Payload.bankAccountNumber (bankBodyOf form (cart st)) = None)
  end
  /\ Spec.normalizedSortCode Sample.form = "123456".
Proof.
  intros st'. split; [|reflexivity]. subst st'.
  rewrite firstFailure_unfold. unfold BankForm.handleSubmit.
  rewrite payoutType_read, !pattern_test.
  change (JS.remove_chars BankForm.is_separator (Form.bankSortCode form))
    with (Spec.normalizedSortCode form).
  change (JS.remove_chars JS.is_space (Form.bankAccountNumber form))
    with (Spec.normalizedAccountNumber form).
  destruct (JS.nonempty (Form.email form)); cbn [negb]; [|done].
  destruct (JS.nonempty (JS.trim (Form.phone form))); cbn [negb]; [|done].
  destruct (JS.nonempty (Form.contactChannel form)); cbn [negb]; [|done].
  destruct (bool_decide (Spec.payoutOf form = "BANK")) eqn:Hbank;
    cbn [andb].
  - apply bool_decide_eq_true in Hbank.
    destruct (JS.nonempty (JS.trim (Form.bankAccountName form)));
      cbn [negb]; [|done].
    destruct (JS.digits_exactly 6 (Spec.normalizedSortCode form)) eqn:Hsort;
      cbn [negb]; [|done].
    destruct (JS.digits_exactly 8 (Spec.normalizedAccountNumber form));
      cbn [negb]; [|done].
    split; [|split; [|done]].
    + etransitivity; [apply posted_after_outcome|].
      unfold bankBodyOf. rewrite bool_decide_true by done. reflexivity.
    + intros _. unfold bankBodyOf. cbn [Payload.bankSortCode].
      by rewrite bool_decide_true.
  - apply bool_decide_eq_false in Hbank.
    split; [|split; [done|]].
    + etransitivity; [apply posted_after_outcome|].
      unfold bankBodyOf. rewrite bool_decide_false by done. reflexivity.
    + intros _. unfold bankBodyOf.
      cbn [Payload.bankAccountName Payload.bankSortCode
           Payload.bankAccountNumber].
      by rewrite bool_decide_false.
Qed.

End Validation.

Lemma bank_form_validation_witness :
  let st := Sample.state [Sample.item 4760 2] ∅ in
  let st' := BankForm.handleSubmit (H := RefJSON.codec) Sample.form
               (Rejected "Service unavailable") st in
  Spec.payoutOf Sample.form = "BANK"
  /\ posted st' = [bankBodyOf Sample.form (cart st)]
  /\ Payload.bankSortCode (bankBodyOf Sample.form (cart st)) = Some "123456".
Proof.
  intros st st'.
  pose proof (proj1 (bank_form_validation (H := RefJSON.codec) Sample.form
                       (Rejected "Service unavailable") st)) as Hv.
  destruct Hv as (Hposted & Hbank & _).
  assert (Hp : Spec.payoutOf Sample.form = "BANK") by reflexivity.
  split; [exact Hp|]. split; [exact Hposted|].
  exact (proj2 (proj2 (proj2 (Hbank Hp)))).
Defined.

(** * Further properties of the cart *)

Lemma delete_past_end {A} (l : list A) (i : nat) :
  (length l <= i)%nat -> delete i l = l.
Proof.
  revert i. induction l as [|x l IH]; intros [|i] Hi; simpl in *;
    try done; try lia.
  f_equal. apply IH. lia.
Qed.

Section CartSums.
Implicit Types (f : Item.t -> Z) (c : list Item.t).

Lemma sumOf_app f c1 c2 :
  Spec.sumOf f (c1 ++ c2) = Spec.sumOf f c1 + Spec.sumOf f c2.
Proof. induction c1 as [|x c1 IH]; simpl; lia. Qed.

Lemma sumOf_delete f c i item :
  c !! i = Some item ->
  Spec.sumOf f (delete i c) = Spec.sumOf f c - f item.
Proof.
  revert i. induction c as [|x c IH]; intros [|i] Hi; simpl in *; try done.
  - injection Hi as ->. lia.
  - pose proof (IH i Hi) as IHi. unfold delete in *. lia.
Qed.

Lemma sumOf_alter f (g : Item.t -> Item.t) c i item :
  c !! i = Some item ->
  Spec.sumOf f (alter g i c) = Spec.sumOf f c - f item + f (g item).
Proof.
  revert i. induction c as [|x c IH]; intros [|i] Hi; simpl in *; try done.
  - injection Hi as ->. lia.
  - pose proof (IH i Hi) as IHi. unfold alter in *. lia.
Qed.

Lemma sumOf_insert f c i item item' :
  c !! i = Some item ->
  Spec.sumOf f (<[i := item']> c) = Spec.sumOf f c - f item + f item'.
Proof.
  revert i. induction c as [|x c IH]; intros [|i] Hi; simpl in *; try done.
  - injection Hi as ->. lia.
  - pose proof (IH i Hi) as IHi. unfold insert in *. lia.
Qed.

End CartSums.

Section CartEffects.
Context `{JSON}.
Implicit Types st : State.

Lemma totals_of_cart st st' :
  cart st' = cart st ->
  itemCount (getCartTotals st') = itemCount (getCartTotals st)
  /\ subtotal (getCartTotals st') = subtotal (getCartTotals st).
Proof.
  intros Hc. by rewrite !getCartTotals_itemCount, !getCartTotals_subtotal, Hc.
Qed.

Lemma cart_removeFromCart index st :
  cart (removeFromCart index st) = JS.splice1 (cart st) index.
Proof. unfold removeFromCart. by rewrite cart_after_save. Qed.

(** X1.  [removeFromCart] with the index of an entry removes that entry and
    no other, keeps the order of the rest, and lowers the item count and the
    subtotal by the quantity and the amount of the removed line.  An index
    at or past the end removes nothing; a negative index counts from the
    end, and below minus the length it removes the first entry. *)
Theorem removeFromCart_effect (st : State) (index : Z) :
  let c := cart st in
  let st' := removeFromCart index st in
  let n := Z.of_nat (length c) in
  (forall item,
     0 <= index -> c !! Z.to_nat index = Some item ->
     cart st' = delete (Z.to_nat index) c
     /\ length (cart st') = (length c - 1)%nat
     /\ itemCount (getCartTotals st')
        = itemCount (getCartTotals st) - Item.quantity item
     /\ subtotal (getCartTotals st')
        = subtotal (getCartTotals st) - lineTotal item)
  /\ (n <= index -> cart st' = c)
  /\ (- n <= index < 0 -> cart st' = delete (Z.to_nat (n + index)) c)
  /\ (index < - n -> cart st' = delete 0%nat c).
Proof.
  intros c st' n. subst st'.
  rewrite cart_removeFromCart. unfold JS.splice1. fold c. fold n.
  repeat split.
  - destruct (Z.ltb_spec index 0); [lia|].
    apply lookup_lt_Some in H1.
    replace (Z.min index n) with index by (subst n; lia). done.
  - destruct (Z.ltb_spec index 0); [lia|].
    pose proof (lookup_lt_Some _ _ _ H1) as Hlt.
    replace (Z.min index n) with index by (subst n; lia).
    rewrite length_delete; [lia|]. eauto.
  - rewrite !getCartTotals_itemCount, cart_removeFromCart.
    unfold JS.splice1. fold c. fold n.
    destruct (Z.ltb_spec index 0); [lia|].
    pose proof (lookup_lt_Some _ _ _ H1) as Hlt.
    replace (Z.min index n) with index by (subst n; lia).
    unfold Spec.itemCount. by rewrite (sumOf_delete _ _ _ item).
  - rewrite !getCartTotals_subtotal, cart_removeFromCart.
    unfold JS.splice1. fold c. fold n.
    destruct (Z.ltb_spec index 0); [lia|].
    pose proof (lookup_lt_Some _ _ _ H1) as Hlt.
    replace (Z.min index n) with index by (subst n; lia).
    unfold Spec.subtotal. by rewrite (sumOf_delete _ _ _ item).
  - intros Hge. destruct (Z.ltb_spec index 0); [lia|].
    replace (Z.min index n) with n by lia.
    subst n. rewrite Nat2Z.id. by apply delete_past_end.
  - intros [Hlo Hhi]. destruct (Z.ltb_spec index 0); [|lia].
    by replace (Z.max (n + index) 0) with (n + index) by lia.
  - intros Hlt. destruct (Z.ltb_spec index 0); [|lia].
    by replace (Z.max (n + index) 0) with 0 by lia.
Qed.

Lemma alter_as_insert {A} (g : A -> A) (l : list A) (i : nat) (x : A) :
  l !! i = Some x -> alter g i l = <[i := g x]> l.
Proof.
  revert i. induction l as [|y l IH]; intros [|i] Hi; simpl in *; try done.
  - by injection Hi as ->.
  - f_equal. by apply IH.
Qed.

Lemma at_index_Some {A} (l : list A) (index : Z) (x : A) :
  JS.at_index l index = Some x <-> 0 <= index /\ l !! Z.to_nat index = Some x.
Proof.
  unfold JS.at_index. destruct (Z.ltb_spec index 0).
  - split; [done | lia].
  - split; [done | by intros [_ ?]].
Qed.

(** X2.  [updateCartQuantity] on an existing entry replaces its quantity by
    the larger of 1 and quantity plus delta and touches nothing else; the
    item count moves by the change of quantity and the subtotal by that
    change times the price of the entry.  The minus button on an entry of
    quantity 1 leaves the cart as it is. *)
Theorem updateCartQuantity_effect (st : State) (index delta : Z)
        (item : Item.t) :
  JS.at_index (cart st) index = Some item ->
  let st' := updateCartQuantity index delta st in
  let change := Z.max 1 (Item.quantity item + delta) - Item.quantity item in
  cart st'
  = <[Z.to_nat index :=
        Item.set_quantity (fun q => Z.max 1 (q + delta)) item]> (cart st)
  /\ itemCount (getCartTotals st') = itemCount (getCartTotals st) + change
  /\ subtotal (getCartTotals st')
     = subtotal (getCartTotals st) + Item.pricePerItem item * change
  /\ (delta = -1 -> Item.quantity item = 1 -> cart st' = cart st).
Proof.
  intros Hi st' change. subst st' change.
  pose proof (updateCartQuantity_cart st index delta item Hi) as Hc.
  apply at_index_Some in Hi as [Hpos Hi].
  rewrite (alter_as_insert _ _ _ _ Hi) in Hc.
  split; [exact Hc|].
  rewrite !getCartTotals_itemCount, !getCartTotals_subtotal, Hc.
  unfold Spec.itemCount, Spec.subtotal.
  rewrite !(sumOf_insert _ _ _ item) by done. cbn.
  repeat split; try lia.
  intros -> Hq. destruct item; cbn in *; subst.
  by apply list_insert_id.
Qed.

(** X3.  [addToCart] raises the item count by the quantity added.  For a
    pair that is not yet in the cart the subtotal grows by that quantity at
    the price resolved from the card; for a pair that is in the cart it
    grows by that quantity at the price the entry already has, whatever the
    card says now. *)
Theorem addToCart_totals (st : State) (card : Card.t) (condition : string)
        (quantity : Z) :
  let st' := addToCart card condition quantity st in
  (Forall (fun item => sameEntry card condition item = false) (cart st) ->
   itemCount (getCartTotals st') = itemCount (getCartTotals st) + quantity
   /\ subtotal (getCartTotals st')
      = subtotal (getCartTotals st)
        + quantity * resolvePrice (CONFIG st) card condition)
  /\ (forall i item,
        reachable st ->
        cart st !! i = Some item ->
        Item.key item = (Card.cardId card, condition) ->
        itemCount (getCartTotals st') = itemCount (getCartTotals st) + quantity
        /\ subtotal (getCartTotals st')
           = subtotal (getCartTotals st)
             + quantity * Item.pricePerItem item).
Proof.
  intros st'. subst st'. split.
  - intros Hnew.
    rewrite !getCartTotals_itemCount, !getCartTotals_subtotal.
    rewrite (addToCart_new card condition quantity st Hnew).
    unfold Spec.itemCount, Spec.subtotal. rewrite !sumOf_app. cbn. lia.
  - intros i item Hr Hi Hk.
    rewrite !getCartTotals_itemCount, !getCartTotals_subtotal.
    rewrite (addToCart_existing card condition quantity st i item
               (reachable_keys st Hr) Hi Hk).
    unfold Spec.itemCount, Spec.subtotal.
    rewrite !(sumOf_insert _ _ _ item) by done. cbn. lia.
Qed.

Lemma handleSubmit_cart_cases form outcome st :
  (cart (handleSubmit form outcome st) = cart st
   /\ localStorage (handleSubmit form outcome st) = localStorage st
   /\ cartPanel (handleSubmit form outcome st) = cartPanel st)
  \/ cart (handleSubmit form outcome st) = [].
Proof.
  destruct (JS.nonempty (Form.email form)) eqn:He.
  - destruct outcome as [number|message].
    + right. apply (handleSubmit_resolved form number st He).
    + left. unfold handleSubmit. rewrite He. cbn [negb]. done.
  - left. rewrite handleSubmit_no_email by done. done.
Qed.

Lemma shown_after_save st :
  cart st <> [] -> shown (updateFormSections (renderCart (saveCart st))).
Proof.
  intros Hne. unfold shown.
  change (cartPanel (updateFormSections ?s)) with (cartPanel s).
  rewrite cart_after_save.
  unfold renderCart. change (cart (saveCart st)) with (cart st).
  rewrite bool_decide_false by (destruct (cart st); simpl; [done | lia]).
  cbn [cartPanel set_cartPanel rows badge itemCount_text quotedTotal_text
       empty_hidden summary_hidden clear_hidden].
  rewrite getCartTotals_itemCount, getCartTotals_subtotal.
  change (cart (saveCart st)) with (cart st). done.
Qed.

Lemma reachable_shown st : reachable st -> cart st <> [] -> shown st.
Proof.
  induction 1 as [st He | card condition quantity st _ IH | index st _ IH
                 | index delta st _ IH | st _ IH | form outcome st _ IH];
    intros Hne.
  - done.
  - rewrite cart_addToCart in Hne. unfold addToCart.
    change (shown (updateFormSections (renderCart (saveCart
      (set_cart (if JS.findIndex (sameEntry card condition) (cart st) >=? 0
                 then alter (Item.set_quantity (fun q => q + quantity))
                        (Z.to_nat (JS.findIndex (sameEntry card condition)
                                                (cart st))) (cart st)
                 else cart st ++ [newItem (CONFIG st) card condition quantity])
         st))))).
    by apply shown_after_save.
  - rewrite cart_removeFromCart in Hne. by apply shown_after_save.
  - unfold updateCartQuantity in *.
    destruct (JS.at_index (cart st) index); [|auto].
    apply shown_after_save. by rewrite cart_after_save in Hne.
  - by rewrite cart_clearCart in Hne.
  - destruct (handleSubmit_cart_cases form outcome st) as [(Hc & _ & Hp)|Hc];
      [|done].
    unfold shown. rewrite Hc, Hp. apply IH. by rewrite <- Hc.
Qed.

(** X5.  For every non-empty cart the operations lead to, the cart panel
    shows that cart: one row per entry, in order, with its quantity and line
    amount, the badge and the item counter at the sum of the quantities, the
    quoted total at the subtotal, and the summary and the clear button
    visible. *)
Theorem cart_panel_shows_the_cart (st : State) :
  reachable st ->
  cart st <> [] ->
  shown st
  /\ length (rows (cartPanel st)) = length (cart st)
  /\ forall i item,
       cart st !! i = Some item ->
       exists row,
         rows (cartPanel st) !! i = Some row
         /\ row_quantity row = Item.quantity item
         /\ row_price row = Item.pricePerItem item * Item.quantity item.
Proof.
  intros Hr Hne. pose proof (reachable_shown st Hr Hne) as Hs.
  split; [done|]. destruct Hs as (Hrows & _). rewrite Hrows.
  split; [apply length_map|].
  intros i item Hi. exists (renderRow item). split; [|done].
  change (map renderRow (cart st)) with (renderRow <$> cart st).
  by rewrite list_lookup_fmap, Hi.
Qed.

Lemma Forall_filter_isValid (c : list Item.t) :
  Forall (fun item => isValid item = true) (List.filter isValid c).
Proof.
  induction c as [|item c IH]; simpl; [constructor|].
  destruct (isValid item) eqn:E; [by constructor | done].
Qed.

(** X7.  The price of an entry is the one taken when it was added: neither
    a reload of the settings, nor a change of quantity, nor adding to the
    cart afterwards (the same pair or another, after a reload of the
    settings or not) changes the card, the condition or the unit price of an
    entry that is in the cart.  A settings request that fails or is refused
    changes nothing at all. *)
Theorem prices_are_snapshots (st : State) (i : nat) (item : Item.t) :
  cart st !! i = Some item ->
  (forall response, cart (Settings.loadConfig response st) = cart st)
  /\ Settings.loadConfig Settings.Failed st = st
  /\ Settings.loadConfig Settings.NotOk st = st
  /\ (forall index delta,
        exists item',
          cart (updateCartQuantity index delta st) !! i = Some item'
          /\ Item.key item' = Item.key item
          /\ Item.pricePerItem item' = Item.pricePerItem item)
  /\ (forall response card condition quantity,
        exists item',
          cart (addToCart card condition quantity
                          (Settings.loadConfig response st)) !! i
          = Some item'
          /\ Item.key item' = Item.key item
          /\ Item.pricePerItem item' = Item.pricePerItem item).
Proof.
  intros Hi.
  assert (Hload : forall response,
             cart (Settings.loadConfig response st) = cart st)
    by (intros [| |data]; reflexivity).
  split; [exact Hload|]. split; [done|]. split; [done|]. split.
  - intros index delta. unfold updateCartQuantity.
    destruct (JS.at_index (cart st) index) as [x|] eqn:Hx; [|eauto].
    rewrite cart_after_save. cbn [cart set_cart].
    destruct (decide (Z.to_nat index = i)) as [<-|Hne].
    + rewrite list_lookup_alter_eq, Hi. cbn. eauto.
    + rewrite list_lookup_alter_ne by done. eauto.
  - intros response card condition quantity.
    rewrite cart_addToCart, Hload.
    destruct (JS.findIndex (sameEntry card condition) (cart st) >=? 0).
    + destruct (decide (Z.to_nat (JS.findIndex (sameEntry card condition)
                                               (cart st)) = i)) as [<-|Hne].
      * rewrite list_lookup_alter_eq, Hi. cbn. eauto.
      * rewrite list_lookup_alter_ne by done. eauto.
    + rewrite lookup_app_l by (eapply lookup_lt_Some; eauto). eauto.
Qed.

End CartEffects.

Lemma removeFromCart_effect_witness :
  let st := Sample.state [Sample.item 4760 2; Sample.item 3740 1] ∅ in
  cart (removeFromCart (H := RefJSON.codec) 0 st) = [Sample.item 3740 1]
  /\ itemCount (getCartTotals (removeFromCart (H := RefJSON.codec) 0 st))
     = itemCount (getCartTotals st) - 2.
Proof.
  intros st.
  destruct (proj1 (removeFromCart_effect (H := RefJSON.codec) st 0)
              (Sample.item 4760 2) ltac:(lia) eq_refl)
    as (Hc & _ & Hn & _).
  split; [exact Hc | exact Hn].
Defined.

Lemma updateCartQuantity_effect_witness :
  let st := Sample.state [Sample.item 4760 2; Sample.item 3740 1] ∅ in
  cart (updateCartQuantity (H := RefJSON.codec) 1 3 st)
  = [Sample.item 4760 2; Sample.item 3740 4].
Proof.
  intros st.
  exact (proj1 (updateCartQuantity_effect (H := RefJSON.codec) st 1 3
                  (Sample.item 3740 1) eq_refl)).
Defined.

Lemma addToCart_totals_witness :
  let st := Sample.state [] ∅ in
  itemCount (getCartTotals (addToCart (H := RefJSON.codec)
                              Sample.luffy "NM" 2 st))
  = itemCount (getCartTotals st) + 2.
Proof.
  intros st.
  exact (proj1 (proj1 (addToCart_totals (H := RefJSON.codec) st
                         Sample.luffy "NM" 2)
                      (Forall_nil_2 _))).
Defined.

Lemma cart_panel_shows_the_cart_witness :
  let st := addToCart (H := RefJSON.codec) Sample.luffy "NM" 2
              (Sample.state [] ∅) in
  reachable (H := RefJSON.codec) st
  /\ cart st <> []
  /\ shown st.
Proof.
  intros st.
  assert (Hr : reachable (H := RefJSON.codec) st)
    by (apply reach_addToCart, reach_empty; reflexivity).
  assert (Hne : cart st <> []) by (vm_compute; discriminate).
  split; [exact Hr|]. split; [exact Hne|].
  exact (proj1 (cart_panel_shows_the_cart (H := RefJSON.codec) st Hr Hne)).
Defined.

Lemma prices_are_snapshots_witness :
  let st := Sample.state [Sample.item 4760 2] ∅ in
  cart st !! 0%nat = Some (Sample.item 4760 2)
  /\ exists item',
       cart (updateCartQuantity (H := RefJSON.codec) 0 5 st) !! 0%nat
       = Some item'
       /\ Item.key item' = Item.key (Sample.item 4760 2)
       /\ Item.pricePerItem item' = 4760.
Proof.
  intros st. split; [reflexivity|].
  exact (proj1 (proj2 (proj2 (proj2
           (prices_are_snapshots (H := RefJSON.codec) st 0
              (Sample.item 4760 2) eq_refl)))) 0 5).
Defined.

(** * Catalogue data, listings and the condition modal *)

Lemma priceObject_lookup (p : Catalog.ConditionPrices) (c : Spec.ConditionCode) :
  Catalog.priceObject p !! Spec.codeOf c = entryOf p c.
Proof.
  destruct p as [[?|] [?|] [?|] [?|] [?|]], c; vm_compute; reflexivity.
Qed.

Lemma normalize_bestPriceGbp card source :
  Card.bestPriceGbp (Catalog.normalizeCardData card source) = marketOf card.
Proof.
  unfold marketOf. cbn.
  destruct (Catalog.bestPriceGbp card); [done|].
  by destruct (Catalog.prices card ≫= Catalog.market).
Qed.

Lemma normalize_prices card source (c : Spec.ConditionCode) :
  Card.prices (Catalog.normalizeCardData card source)
  ≫= (fun prices => prices !! Spec.codeOf c)
  = listedIn card c.
Proof.
  unfold listedIn. cbn.
  destruct (Catalog.prices card) as [p|]; [|done]. cbn.
  case_bool_decide; cbn; [apply priceObject_lookup|].
  destruct (Catalog.tradein p) as [t|]; [|done]. cbn.
  case_bool_decide; cbn; [apply priceObject_lookup | done].
Qed.

(** X8.  The two documented response shapes of a card with an identifier and
    a name normalize to the same card: the field aliases, the place of the
    market price and the place of the condition prices make no
    difference. *)
Theorem normalize_shapes_agree
        (id name set number variant rarity image : option string)
        (marketPrice : Z) (listed : Catalog.ConditionPrices) :
  JS.truthy id = true ->
  JS.truthy name = true ->
  Catalog.normalizeCardData
    (searchShape id name set number variant rarity image marketPrice listed)
    "search"
  = Catalog.normalizeCardData
      (browseShape id name set number variant rarity image marketPrice listed)
      "browse".
Proof.
  intros Hid Hname.
  unfold Catalog.normalizeCardData, searchShape, browseShape, JS.or_opt.
  cbn -[Catalog.priceObject].
  rewrite Hid, Hname.
  assert (Hor : forall o : option string,
             default EmptyString o
             = default EmptyString (if JS.truthy o then o else None)).
  { intros [s|]; [|done]. unfold JS.truthy, JS.nonempty.
    case_bool_decide; by subst. }
  rewrite <- !Hor.
  destruct (bool_decide (is_Some (Catalog.NM listed))); reflexivity.
Qed.

Lemma normalize_shapes_agree_witness :
  let listed := {| Catalog.NM := Some 4760; Catalog.LP := Some 3740;
                   Catalog.MP := None; Catalog.HP := None;
                   Catalog.DMG := None |} in
  Catalog.normalizeCardData
    (searchShape (Some "OP03-051") (Some "Monkey D. Luffy") (Some "OP03")
                 (Some "051") None None None 6800 listed) "search"
  = Catalog.normalizeCardData
      (browseShape (Some "OP03-051") (Some "Monkey D. Luffy") (Some "OP03")
                   (Some "051") None None None 6800 listed) "browse".
Proof.
  intros listed.
  exact (normalize_shapes_agree (Some "OP03-051") (Some "Monkey D. Luffy")
           (Some "OP03") (Some "051") None None None 6800 listed
           eq_refl eq_refl).
Defined.

(** X9.  From a response to the cart, with the default multipliers: the
    price of an added card is the entry of its condition in the price object
    of the response whose near-mint entry is a number ([prices] before
    [prices.tradein]), and otherwise the floor of the market price times the
    multiplier.  In particular a price object without a numeric near-mint
    entry is not used for any condition. *)
Theorem response_price (cfg : Config) (card : Catalog.RawCard)
        (source : string) (c : Spec.ConditionCode) (quantity : Z) :
  conditions cfg = DEFAULT_conditions ->
  Item.pricePerItem
    (newItem cfg (Catalog.normalizeCardData card source) (Spec.codeOf c)
             quantity)
  = match listedIn card c with
    | Some listed => listed
    | None =>
        JS.Math_floor (JS.mul (JS.of_Z (marketOf card)) (Spec.multiplierOf c))
    end
  /\ ((forall p, Catalog.prices card = Some p ->
         Catalog.NM (Catalog.flat p) = None
         /\ (forall t, Catalog.tradein p = Some t -> Catalog.NM t = None)) ->
      listedIn card c = None).
Proof.
  intros Hcfg. split.
  - rewrite (newItem_price cfg _ c quantity Hcfg).
    by rewrite normalize_prices, normalize_bestPriceGbp.
  - intros Hno. unfold listedIn.
    destruct (Catalog.prices card) as [p|]; [|done]. cbn.
    destruct (Hno p eq_refl) as [Hflat Htradein].
    rewrite Hflat. rewrite bool_decide_false by (intros [? ?]; done).
    destruct (Catalog.tradein p) as [t|]; [|done]. cbn.
    rewrite (Htradein t eq_refl).
    by rewrite bool_decide_false by (intros [? ?]; done).
Qed.

Lemma response_price_witness :
  let listed := {| Catalog.NM := Some 4760; Catalog.LP := Some 3740;
                   Catalog.MP := None; Catalog.HP := None;
                   Catalog.DMG := None |} in
  let card := browseShape (Some "OP03-051") (Some "Monkey D. Luffy")
                (Some "OP03") (Some "051") None None None 6800 listed in
  Item.pricePerItem
    (newItem DEFAULT_CONFIG (Catalog.normalizeCardData card "browse")
             (Spec.codeOf Spec.LP) 1)
  = match listedIn card Spec.LP with
    | Some listed => listed
    | None =>
        JS.Math_floor (JS.mul (JS.of_Z (marketOf card))
                              (Spec.multiplierOf Spec.LP))
    end.
Proof.
  intros listed card.
  exact (proj1 (response_price DEFAULT_CONFIG card "browse" Spec.LP 1 eq_refl)).
Defined.

Lemma listingPrice_default cfg card :
  conditions cfg = DEFAULT_conditions ->
  Card.prices card ≫= (fun prices => prices !! "NM") <> Some 0 ->
  Catalog.listingPrice cfg card = Some (resolvePrice cfg card "NM").
Proof.
  intros Hcfg Hnm. unfold Catalog.listingPrice, resolvePrice. rewrite Hcfg.
  destruct (Card.prices card ≫= _) as [nm|].
  - unfold JS.nonzero. destruct (Z.eqb_spec nm 0); [congruence | done].
  - pose proof (find_default_condition Spec.NM) as Hf.
    cbn [Spec.codeOf] in Hf. rewrite Hf.
    unfold DEFAULT_conditions. cbn [multiplier Spec.multiplierOf].
    unfold JS.nonzero. destruct (Z.eqb_spec (Card.bestPriceGbp card) 0) as [->|];
      cbn [negb]; [|done].
    vm_compute. reflexivity.
Qed.

Section Listing.
Context `{JSON}.

(** X10.  With the default conditions, the price a cell of the browse grid
    shows is the price its quick-add button puts in the cart: for a card
    that is not in the cart in near-mint condition, quick add appends one
    near-mint entry of quantity 1 at the price of the cell.  This needs the
    listed near-mint price, if any, not to be 0. *)
Theorem grid_price_is_quick_add_price (st : State) (cards : list Card.t)
        (grid : Catalog.Grid) (i : nat) (card : Card.t) :
  conditions (CONFIG st) = DEFAULT_conditions ->
  Catalog.renderBrowseGrid (CONFIG st) cards = Some grid ->
  cards !! i = Some card ->
  Card.prices card ≫= (fun prices => prices !! "NM") <> Some 0 ->
  Forall (fun item => sameEntry card "NM" item = false) (cart st) ->
  exists cells cell item,
    grid = Catalog.GridCards cells cards
    /\ cells !! i = Some cell
    /\ cart (Catalog.quickAdd grid (Z.of_nat i) st) = cart st ++ [item]
    /\ Item.quantity item = 1
    /\ Item.condition item = "NM"
    /\ Item.pricePerItem item = Catalog.cell_price cell.
Proof.
  intros Hcfg Hgrid Hi Hnm Hnew. unfold Catalog.renderBrowseGrid in Hgrid.
  rewrite bool_decide_false in Hgrid
    by (apply lookup_lt_Some in Hi; lia).
  destruct (mapM (Catalog.gridCell (CONFIG st)) cards) as [cells|] eqn:Hm;
    [|done].
  cbn in Hgrid. injection Hgrid as <-.
  apply mapM_Some in Hm.
  destruct (Forall2_lookup_l _ _ _ _ _ Hm Hi) as (cell & Hcell & Hc).
  unfold Catalog.gridCell in Hc.
  rewrite (listingPrice_default _ _ Hcfg Hnm) in Hc. cbn in Hc.
  injection Hc as <-.
  exists cells. eexists. eexists. split; [done|]. split; [exact Hcell|].
  unfold Catalog.quickAdd, JS.at_index.
  destruct (Z.ltb_spec (Z.of_nat i) 0); [lia|].
  rewrite Nat2Z.id, Hi.
  split; [by apply addToCart_new|]. done.
Qed.

End Listing.

Lemma grid_price_is_quick_add_price_witness :
  let st := Sample.state [] ∅ in
  let grid := default Catalog.GridEmpty
                (Catalog.renderBrowseGrid DEFAULT_CONFIG [Sample.luffy]) in
  exists cells cell item,
    grid = Catalog.GridCards cells [Sample.luffy]
    /\ cells !! 0%nat = Some cell
    /\ cart (Catalog.quickAdd (H := RefJSON.codec) grid 0 st)
       = cart st ++ [item]
    /\ Item.quantity item = 1
    /\ Item.condition item = "NM"
    /\ Item.pricePerItem item = Catalog.cell_price cell.
Proof.
  intros st grid.
  refine (grid_price_is_quick_add_price (H := RefJSON.codec) st
            [Sample.luffy] grid 0 Sample.luffy eq_refl _ eq_refl _
            (Forall_nil_2 _)).
  - vm_compute. reflexivity.
  - vm_compute. discriminate.
Defined.

Lemma find_by_code (l : list Condition) (cond : Condition) :
  NoDup (code <$> l) ->
  cond ∈ l ->
  find (fun c => bool_decide (code c = code cond)) l = Some cond.
Proof.
  induction l as [|x l IH]; intros Hnd Hin; [by apply elem_of_nil in Hin|].
  cbn in Hnd. apply NoDup_cons in Hnd as [Hx Hnd].
  apply elem_of_cons in Hin as [->|Hin]; cbn.
  - by rewrite bool_decide_true.
  - rewrite bool_decide_false; [by apply IH|].
    intros Heq. apply Hx. rewrite Heq. by apply list_elem_of_fmap_2.
Qed.

Lemma floor_zero_times_finite (m : JS.number) :
  JS.is_finite m = true -> JS.Math_floor (JS.mul (JS.of_Z 0) m) = 0.
Proof. destruct m; try discriminate; reflexivity. Qed.

Lemma optionPrice_resolvePrice cfg card cond :
  NoDup (code <$> conditions cfg) ->
  cond ∈ conditions cfg ->
  JS.is_finite (multiplier cond) = true ->
  Modal.optionPrice card cond = resolvePrice cfg card (code cond).
Proof.
  intros Hnd Hin Hfin. unfold Modal.optionPrice, resolvePrice.
  destruct (Card.prices card ≫= _); [done|].
  rewrite (find_by_code _ _ Hnd Hin).
  unfold JS.nonzero. destruct (Z.eqb_spec (Card.bestPriceGbp card) 0) as [->|];
    cbn [negb]; [|done].
  by apply floor_zero_times_finite.
Qed.

Lemma find_imap_index {A B} (f : nat -> A -> B) (p : B -> bool)
      (l : list A) (k : nat) (x : A) :
  (forall i y, p (f i y) = bool_decide (i = k)) ->
  l !! k = Some x ->
  find p (imap f l) = Some (f k x).
Proof.
  revert f k. induction l as [|y l IH]; intros f k Hp Hk; [done|].
  cbn. rewrite Hp. destruct k as [|k]; cbn in *.
  - by injection Hk as ->.
  - apply (IH (f ∘ S) k); [|done].
    intros i z. cbn. rewrite Hp. apply bool_decide_ext. lia.
Qed.

Lemma updateModalPrice_frame cfg v :
  Modal.selectedCard (Modal.updateModalPrice cfg v) = Modal.selectedCard v
  /\ Modal.options (Modal.updateModalPrice cfg v) = Modal.options v
  /\ Modal.quantity_value (Modal.updateModalPrice cfg v)
     = Modal.quantity_value v.
Proof.
  unfold Modal.updateModalPrice.
  destruct (Modal.selectedCard v) eqn:Hc, (Modal.selectedCode v) eqn:Hs;
    cbn; by rewrite ?Hc.
Qed.

Lemma updateModalPrice_price cfg v card conditionCode :
  Modal.selectedCard v = Some card ->
  Modal.selectedCode v = Some conditionCode ->
  Modal.price_text (Modal.updateModalPrice cfg v)
  = Modal.modalPrice cfg card conditionCode (Modal.quantity_value v).
Proof. intros Hc Hs. unfold Modal.updateModalPrice. by rewrite Hc, Hs. Qed.

Lemma selectedCode_updateModalPrice cfg v :
  Modal.selectedCode (Modal.updateModalPrice cfg v) = Modal.selectedCode v.
Proof.
  unfold Modal.selectedCode.
  by rewrite (proj1 (proj2 (updateModalPrice_frame cfg v))).
Qed.

Lemma openConditionModal_frame cfg card v :
  Modal.selectedCard (Modal.openConditionModal cfg card v) = Some card
  /\ Modal.options (Modal.openConditionModal cfg card v)
     = Modal.conditionOptions cfg card
  /\ Modal.quantity_value (Modal.openConditionModal cfg card v) = "1"
  /\ Modal.modal_hidden (Modal.openConditionModal cfg card v) = false.
Proof.
  unfold Modal.openConditionModal.
  cbn [Modal.selectedCard Modal.options Modal.quantity_value
       Modal.modal_hidden].
  match goal with
  | |- context [Modal.updateModalPrice cfg ?w] =>
      destruct (updateModalPrice_frame cfg w) as (-> & -> & ->)
  end. done.
Qed.

Section ModalAdd.
Context `{JSON}.

(** X11.  The condition modal quotes what the cart will hold.  When the
    configured condition codes are distinct and their multipliers finite,
    every condition button shows the price [addToCart] resolves for its
    code; after opening the modal and choosing a button, the total shown is
    that price (for the initial quantity 1), and the add button adds that
    card in that condition with quantity 1 and closes the modal. *)
Theorem modal_price_is_cart_price (st : State) (card : Card.t)
        (v : Modal.View) (k : nat) (cond : Condition) :
  let cfg := CONFIG st in
  let v' := Modal.selectCondition cfg k (Modal.openConditionModal cfg card v) in
  conditions cfg !! k = Some cond ->
  NoDup (code <$> conditions cfg) ->
  Forall (fun c => JS.is_finite (multiplier c) = true) (conditions cfg) ->
  (forall j o,
     Modal.options v' !! j = Some o ->
     Modal.opt_price o = resolvePrice cfg card (Modal.opt_code o))
  /\ Modal.selectedCode v' = Some (code cond)
  /\ Modal.price_text v' = Some (resolvePrice cfg card (code cond) * 1)
  /\ Modal.modalAdd v' st
     = Some (Modal.closeModal v', addToCart card (code cond) 1 st).
Proof.
  intros cfg v' Hk Hnd Hfin.
  destruct (openConditionModal_frame cfg card v) as (Hcard0 & Hopts0 & Hq0 & _).
  assert (Hin : cond ∈ conditions cfg)
    by (eapply list_elem_of_lookup_2; eauto).
  assert (Hprice : forall c, c ∈ conditions cfg ->
             Modal.optionPrice card c = resolvePrice cfg card (code c)).
  { intros c Hc. apply optionPrice_resolvePrice; [done | done |].
    rewrite Forall_forall in Hfin. by apply Hfin. }
  set (w := {| Modal.selectedCard :=
                 Modal.selectedCard (Modal.openConditionModal cfg card v);
               Modal.modal_hidden :=
                 Modal.modal_hidden (Modal.openConditionModal cfg card v);
               Modal.image_src :=
                 Modal.image_src (Modal.openConditionModal cfg card v);
               Modal.name_text :=
                 Modal.name_text (Modal.openConditionModal cfg card v);
               Modal.set_text :=
                 Modal.set_text (Modal.openConditionModal cfg card v);
               Modal.quantity_value :=
                 Modal.quantity_value (Modal.openConditionModal cfg card v);
               Modal.options :=
                 imap (fun i o =>
                         {| Modal.opt_code := Modal.opt_code o;
                            Modal.opt_name := Modal.opt_name o;
                            Modal.opt_price := Modal.opt_price o;
                            Modal.opt_selected := bool_decide (i = k) |})
                      (Modal.options (Modal.openConditionModal cfg card v));
               Modal.price_text :=
                 Modal.price_text (Modal.openConditionModal cfg card v) |}).
  assert (Hv' : v' = Modal.updateModalPrice cfg w) by reflexivity.
  assert (Hkth : Modal.conditionOptions cfg card !! k
            = Some {| Modal.opt_code := code cond; Modal.opt_name := label cond;
                      Modal.opt_price := Modal.optionPrice card cond;
                      Modal.opt_selected := bool_decide (k = 0%nat) |}).
  { unfold Modal.conditionOptions. by rewrite list_lookup_imap, Hk. }
  assert (Hselw : Modal.selectedCode w = Some (code cond)).
  { unfold Modal.selectedCode. cbn [w Modal.options]. rewrite Hopts0.
    erewrite find_imap_index; [| |exact Hkth]; [done|]. intros i y. done. }
  assert (Hcardw : Modal.selectedCard w = Some card) by exact Hcard0.
  assert (Hqw : Modal.quantity_value w = "1") by exact Hq0.
  destruct (updateModalPrice_frame cfg w) as (Hc' & Ho' & Hq').
  rewrite <- Hv' in Hc', Ho', Hq'.
  assert (Hsel : Modal.selectedCode v' = Some (code cond))
    by (rewrite Hv', selectedCode_updateModalPrice; exact Hselw).
  split; [|split; [exact Hsel|split]].
  - intros j o. rewrite Ho'. cbn [w Modal.options].
    rewrite Hopts0, list_lookup_imap.
    unfold Modal.conditionOptions. rewrite list_lookup_imap.
    destruct (conditions cfg !! j) as [c|] eqn:Hj; [|done].
    cbn. intros [= <-]. cbn. apply Hprice.
    eapply list_elem_of_lookup_2; eauto.
  - rewrite Hv', (updateModalPrice_price cfg w card (code cond) Hcardw Hselw).
    rewrite Hqw. unfold Modal.modalPrice.
    change (Modal.quantityOf "1") with (Some 1). cbn [mbind option_bind].
    pose proof (Hprice cond Hin) as Hp. unfold Modal.optionPrice in Hp.
    destruct (Card.prices card ≫= _) as [listed|] eqn:Hl; cbn.
    + by rewrite Hp.
    + rewrite (find_by_code _ _ Hnd Hin). cbn. by rewrite Hp.
  - unfold Modal.modalAdd. rewrite Hsel, Hc', Hcardw, Hq', Hqw. done.
Qed.

End ModalAdd.

Lemma modal_price_is_cart_price_witness :
  let st := Sample.state [] ∅ in
  let v := {| Modal.selectedCard := None; Modal.modal_hidden := true;
              Modal.image_src := None; Modal.name_text := None;
              Modal.set_text := EmptyString; Modal.quantity_value := "1";
              Modal.options := []; Modal.price_text := None |} in
  let v' := Modal.selectCondition DEFAULT_CONFIG 1
              (Modal.openConditionModal DEFAULT_CONFIG Sample.luffy v) in
  Modal.price_text v' = Some (resolvePrice DEFAULT_CONFIG Sample.luffy "LP" * 1)
  /\ Modal.modalAdd (H := RefJSON.codec) v' st
     = Some (Modal.closeModal v',
             addToCart (H := RefJSON.codec) Sample.luffy "LP" 1 st).
Proof.
  intros st v v'.
  assert (Hnd : NoDup (code <$> conditions (CONFIG st))).
  { apply (bool_decide_eq_true_1 _). vm_compute. reflexivity. }
  assert (Hfin : Forall (fun c => JS.is_finite (multiplier c) = true)
                        (conditions (CONFIG st))).
  { apply (bool_decide_eq_true_1 _). vm_compute. reflexivity. }
  exact (proj2 (proj2 (modal_price_is_cart_price (H := RefJSON.codec) st
                         Sample.luffy v 1
                         {| code := "LP"; label := "Lightly Played";
                            multiplier := JS.literal 55 100 |}
                         eq_refl Hnd Hfin))).
Defined.

Lemma parseInt_String_1_99 (n : Z) :
  1 <= n <= 99 -> JS.parseInt (String_ n) = Some n.
Proof.
  intros Hn.
  assert (Hall : forallb (fun m => bool_decide (JS.parseInt (String_ m) = Some m))
                         (seqZ 1 99) = true) by (vm_compute; reflexivity).
  rewrite forallb_forall in Hall.
  eapply bool_decide_eq_true_1, Hall.
  apply list_elem_of_In, elem_of_seqZ. lia.
Qed.

(** X12.  The quantity of the modal stays between 1 and 99: whatever text
    the input holds, the change handler assigns a number between 1 and 99
    (1 when the text is not a number or is 0); and from a quantity between 1
    and 99 the minus and plus buttons assign the neighbour quantity within
    the same bounds, which the add button then reads back as it is. *)
Theorem modal_quantity_bounds :
  (forall value, 1 <= Modal.qtyChange value <= 99)
  /\ (forall value,
        JS.parseInt value = None \/ JS.parseInt value = Some 0 ->
        Modal.qtyChange value = 1)
  /\ (forall n,
        1 <= n <= 99 ->
        Modal.qtyChange (String_ n) = n
        /\ Modal.qtyDecrease (String_ n) = Some (Z.max 1 (n - 1))
        /\ Modal.qtyIncrease (String_ n) = Some (Z.min 99 (n + 1))
        /\ 1 <= Z.max 1 (n - 1) <= 99
        /\ 1 <= Z.min 99 (n + 1) <= 99
        /\ Modal.quantityOf (String_ n) = Some n).
Proof.
  split; [|split].
  - intros value. unfold Modal.qtyChange. lia.
  - intros value [Hv|Hv]; unfold Modal.qtyChange; rewrite Hv; done.
  - intros n Hn. pose proof (parseInt_String_1_99 n Hn) as Hp.
    unfold Modal.qtyChange, Modal.qtyDecrease, Modal.qtyIncrease,
      Modal.quantityOf. rewrite Hp. cbn.
    unfold JS.nonzero. destruct (Z.eqb_spec n 0); [lia|]. cbn.
    repeat split; try lia.
    unfold JS.or_else.
    assert (Hne : JS.nonempty (String_ n) = true).
    { unfold JS.nonempty. rewrite bool_decide_false; [done|].
      intros He. rewrite He in Hp. done. }
    by rewrite Hne.
Qed.

Lemma modal_quantity_bounds_witness :
  Modal.qtyChange (String_ 99) = 99
  /\ Modal.qtyIncrease (String_ 99) = Some (Z.min 99 (99 + 1)).
Proof.
  destruct (proj2 (proj2 modal_quantity_bounds) 99 ltac:(lia))
    as (Hc & _ & Hi & _).
  split; [exact Hc | exact Hi].
Defined.

(** ** The pagination bar *)

Section Pages.
Context (cur total : Z).

Lemma pages_shown (l : list Z) (pages : list Catalog.PageItem) :
  Forall (fun i => Catalog.pageShown cur total i = true) l ->
  fold_left (Catalog.pagesStep cur total) l pages
  = pages ++ (Catalog.PageNumber <$> l).
Proof.
  revert pages. induction l as [|i l IH]; intros pages Hl; simpl.
  - by rewrite app_nil_r.
  - inversion Hl as [|? ? Hi Hl']; subst.
    unfold Catalog.pagesStep at 2. rewrite Hi, IH by done.
    by rewrite <- app_assoc.
Qed.

Lemma pages_hidden_after_ellipsis (l : list Z) (pages : list Catalog.PageItem) :
  Forall (fun i => Catalog.pageShown cur total i = false) l ->
  fold_left (Catalog.pagesStep cur total) l (pages ++ [Catalog.Ellipsis])
  = pages ++ [Catalog.Ellipsis].
Proof.
  induction l as [|i l IH]; intros Hl; simpl; [done|].
  inversion Hl as [|? ? Hi Hl']; subst.
  unfold Catalog.pagesStep at 2. rewrite Hi, last_snoc.
  rewrite bool_decide_false by (intros Hne; by apply Hne). by apply IH.
Qed.

Lemma pages_hidden (l : list Z) (pages : list Catalog.PageItem) :
  Forall (fun i => Catalog.pageShown cur total i = false) l ->
  (l <> [] -> last pages <> Some Catalog.Ellipsis) ->
  fold_left (Catalog.pagesStep cur total) l pages
  = pages ++ (if bool_decide (l = []) then [] else [Catalog.Ellipsis]).
Proof.
  intros Hl Hlast. destruct l as [|i l]; simpl.
  - by rewrite app_nil_r.
  - inversion Hl as [|? ? Hi Hl']; subst.
    unfold Catalog.pagesStep at 2.
    rewrite Hi, bool_decide_true by (by apply Hlast).
    by apply pages_hidden_after_ellipsis.
Qed.

Lemma last_numbers (pages : list Catalog.PageItem) (l : list Z) :
  l <> [] -> last (pages ++ (Catalog.PageNumber <$> l)) <> Some Catalog.Ellipsis.
Proof.
  destruct l as [|i l _] using rev_ind; [done|]. intros _.
  rewrite fmap_app, app_assoc. simpl. by rewrite last_snoc.
Qed.

End Pages.

Lemma Forall_seqZ (P : Z -> Prop) (m n : Z) :
  (forall i, m <= i < m + n -> P i) -> Forall P (seqZ m n).
Proof. intros H. apply Forall_forall. intros i Hi. apply H, elem_of_seqZ, Hi. Qed.

Lemma pageList_closed (cur total : Z) :
  2 <= total -> 1 <= cur <= total ->
  Catalog.pageList cur total
  = [Catalog.PageNumber 1]
    ++ (if 3 <? cur then [Catalog.Ellipsis] else [])
    ++ (Catalog.PageNumber
          <$> seqZ (Z.max 2 (cur - 1))
                   (Z.min (total - 1) (cur + 1) - Z.max 2 (cur - 1) + 1))
    ++ (if cur + 2 <? total then [Catalog.Ellipsis] else [])
    ++ [Catalog.PageNumber total].
Proof.
  intros Ht Hc. unfold Catalog.pageList.
  set (lo := Z.max 2 (cur - 1)). set (hi := Z.min (total - 1) (cur + 1)).
  assert (Hsplit : seqZ 1 total
    = seqZ 1 1 ++ seqZ 2 (lo - 2) ++ seqZ lo (hi - lo + 1)
      ++ seqZ (hi + 1) (total - 1 - hi) ++ seqZ total 1).
  { replace total with (1 + ((lo - 2) + ((hi - lo + 1) + ((total - 1 - hi) + 1))))
      at 1 by lia.
    rewrite seqZ_app by lia. f_equal.
    replace (1 + 1) with 2 by lia.
    rewrite seqZ_app by lia. f_equal.
    replace (2 + (lo - 2)) with lo by lia.
    rewrite seqZ_app by lia. f_equal.
    replace (lo + (hi - lo + 1)) with (hi + 1) by lia.
    rewrite seqZ_app by lia. f_equal.
    f_equal. lia. }
  rewrite Hsplit, !fold_left_app.
  rewrite (pages_shown cur total (seqZ 1 1)).
  2:{ apply Forall_seqZ. intros i Hi. unfold Catalog.pageShown.
      replace i with 1 by lia. done. }
  rewrite (pages_hidden cur total (seqZ 2 (lo - 2))).
  2:{ apply Forall_seqZ. intros i Hi. unfold Catalog.pageShown.
      apply orb_false_iff; split; [apply orb_false_iff; split|]; lia. }
  2:{ done. }
  rewrite (pages_shown cur total (seqZ lo (hi - lo + 1))).
  2:{ apply Forall_seqZ. intros i Hi. unfold Catalog.pageShown.
      apply orb_true_iff; right. lia. }
  rewrite (pages_hidden cur total (seqZ (hi + 1) (total - 1 - hi))).
  2:{ apply Forall_seqZ. intros i Hi. unfold Catalog.pageShown.
      apply orb_false_iff; split; [apply orb_false_iff; split|]; lia. }
  2:{ intros Hne. apply last_numbers. intros He. apply Hne.
      assert (Hlen : length (seqZ lo (hi - lo + 1)) = 0%nat) by (by rewrite He).
      rewrite length_seqZ in Hlen.
      assert (Hz : total - 1 - hi <= 0) by lia.
      apply length_zero_iff_nil. rewrite length_seqZ. lia. }
  rewrite (pages_shown cur total (seqZ total 1)).
  2:{ apply Forall_seqZ. intros i Hi. unfold Catalog.pageShown.
      replace i with total by lia. rewrite Z.eqb_refl. by rewrite orb_true_r. }
  assert (H1 : bool_decide (seqZ 2 (lo - 2) = []) = negb (3 <? cur)).
  { destruct (Z.ltb_spec 3 cur); simpl.
    - apply bool_decide_false. intros He.
      assert (Hlen : length (seqZ 2 (lo - 2)) = 0%nat) by (by rewrite He).
      rewrite length_seqZ in Hlen. lia.
    - apply bool_decide_true, length_zero_iff_nil. rewrite length_seqZ. lia. }
  assert (H2 : bool_decide (seqZ (hi + 1) (total - 1 - hi) = [])
               = negb (cur + 2 <? total)).
  { destruct (Z.ltb_spec (cur + 2) total); simpl.
    - apply bool_decide_false. intros He.
      assert (Hlen : length (seqZ (hi + 1) (total - 1 - hi)) = 0%nat)
        by (by rewrite He).
      rewrite length_seqZ in Hlen. lia.
    - apply bool_decide_true, length_zero_iff_nil. rewrite length_seqZ. lia. }
  rewrite H1, H2. simpl.
  destruct (3 <? cur), (cur + 2 <? total); simpl;
    rewrite <- ?app_assoc; simpl; done.
Qed.

Lemma pageList_numbers (cur total p : Z) :
  2 <= total -> 1 <= cur <= total ->
  Catalog.PageNumber p ∈ Catalog.pageList cur total ->
  1 <= p <= total /\ (p = 1 \/ p = total \/ cur - 1 <= p <= cur + 1).
Proof.
  intros Ht Hc. rewrite pageList_closed by done.
  rewrite !elem_of_app, !list_elem_of_singleton, list_elem_of_fmap.
  intros [Hp|[Hp|[(i & Hp & Hi)|[Hp|Hp]]]].
  - inversion Hp; lia.
  - destruct (3 <? cur); [apply list_elem_of_singleton in Hp; done|].
    by apply elem_of_nil in Hp.
  - inversion Hp; subst. apply elem_of_seqZ in Hi. lia.
  - destruct (cur + 2 <? total); [apply list_elem_of_singleton in Hp; done|].
    by apply elem_of_nil in Hp.
  - inversion Hp; lia.
Qed.

(** X13.  The pagination bar of two or more pages lists the first page, the
    pages next to the current one, and the last page, in increasing order,
    with one ellipsis for each run of pages left out: one before the window
    when the current page is beyond 3, one after it when the current page is
    more than two before the last.  So the bar has at most seven entries,
    and the current page is among them. *)
Theorem pagination_shape (cur total : Z) :
  2 <= total -> 1 <= cur <= total ->
  Catalog.pageList cur total
  = [Catalog.PageNumber 1]
    ++ (if 3 <? cur then [Catalog.Ellipsis] else [])
    ++ (Catalog.PageNumber
          <$> seqZ (Z.max 2 (cur - 1))
                   (Z.min (total - 1) (cur + 1) - Z.max 2 (cur - 1) + 1))
    ++ (if cur + 2 <? total then [Catalog.Ellipsis] else [])
    ++ [Catalog.PageNumber total]
  /\ (length (Catalog.pageList cur total) <= 7)%nat
  /\ Catalog.PageNumber cur ∈ Catalog.pageList cur total.
Proof.
  intros Ht Hc. pose proof (pageList_closed cur total Ht Hc) as Hl.
  split; [done|]. rewrite Hl. split.
  - rewrite !length_app, length_fmap, length_seqZ. simpl.
    destruct (3 <? cur), (cur + 2 <? total); simpl; lia.
  - rewrite !elem_of_app, !list_elem_of_singleton, list_elem_of_fmap.
    destruct (decide (cur = 1)) as [->|H1]; [by left|].
    destruct (decide (cur = total)) as [->|H2]; [by do 4 right|].
    right; right; left. exists cur. split; [done|].
    apply elem_of_seqZ. lia.
Qed.

Lemma pagination_shape_witness :
  Catalog.pageList 5 10
  = [Catalog.PageNumber 1; Catalog.Ellipsis; Catalog.PageNumber 4;
     Catalog.PageNumber 5; Catalog.PageNumber 6; Catalog.Ellipsis;
     Catalog.PageNumber 10].
Proof.
  exact (proj1 (pagination_shape 5 10 ltac:(lia) ltac:(lia))).
Defined.

(** X14.  Every control of a rendered pagination bar that is not disabled
    leads to a page that exists: a click on it makes that page the current
    one, and the page is between 1 and the number of pages; the control
    marked active is the one of the current page.  A click on a disabled
    control or on an ellipsis changes nothing.  Whatever is clicked, a
    current page between 1 and the number of pages stays so. *)
Theorem pagination_clicks (container : Catalog.Pagination) (cur total : Z)
        (btn : Catalog.PageButton) :
  2 <= total -> 1 <= cur <= total ->
  btn ∈ Catalog.buttons (Catalog.renderPagination container cur total) ->
  let b := {| Catalog.currentPage := cur; Catalog.totalPages := total |} in
  (forall p,
     Catalog.data_page btn = Some p -> Catalog.disabled btn = false ->
     1 <= p <= total
     /\ Catalog.clickPage btn b
        = {| Catalog.currentPage := p; Catalog.totalPages := total |})
  /\ (Catalog.data_page btn = None \/ Catalog.disabled btn = true ->
      Catalog.clickPage btn b = b)
  /\ (Catalog.active btn = true -> Catalog.data_page btn = Some cur)
  /\ (forall (any : Catalog.PageButton) (s : Catalog.Browse),
        1 <= Catalog.currentPage s <= Catalog.totalPages s ->
        1 <= Catalog.currentPage (Catalog.clickPage any s)
          <= Catalog.totalPages (Catalog.clickPage any s)).
Proof.
  intros Ht Hc Hin b.
  assert (Hrange : forall p, Catalog.data_page btn = Some p ->
                     Catalog.disabled btn = false -> 1 <= p <= total).
  { intros p Hp Hd. unfold Catalog.renderPagination in Hin.
    destruct (Z.leb_spec total 1); [lia|]. cbn [Catalog.buttons] in Hin.
    rewrite !elem_of_app, !list_elem_of_singleton, list_elem_of_fmap in Hin.
    destruct Hin as [->|[(q & -> & Hq)| ->]]; cbn in *.
    - injection Hp as <-. lia.
    - destruct q as [q|]; [|done]. cbn in Hp. injection Hp as <-.
      by apply (pageList_numbers cur total q).
    - injection Hp as <-. lia. }
  split; [|split; [|split]].
  - intros p Hp Hd. split; [by apply Hrange|].
    pose proof (Hrange p Hp Hd) as Hr.
    unfold Catalog.clickPage. rewrite Hp, Hd. cbn.
    destruct (Z.geb_spec p 1); [|lia]. destruct (Z.leb_spec p total); [|lia].
    done.
  - intros [Hn|Hd]; unfold Catalog.clickPage.
    + by rewrite Hn.
    + rewrite Hd. by destruct (Catalog.data_page btn).
  - intros Ha. unfold Catalog.renderPagination in Hin.
    destruct (Z.leb_spec total 1); [lia|]. cbn [Catalog.buttons] in Hin.
    rewrite !elem_of_app, !list_elem_of_singleton, list_elem_of_fmap in Hin.
    destruct Hin as [->|[(q & -> & Hq)| ->]]; cbn in *; try done.
    destruct q as [q|]; [|done]. cbn in *.
    by apply bool_decide_eq_true_1 in Ha as ->.
  - intros any s Hs. unfold Catalog.clickPage.
    destruct (Catalog.data_page any) as [page|]; [|done].
    destruct (Catalog.disabled any); cbn; [done|].
    destruct (Z.geb_spec page 1); cbn; [|done].
    destruct (Z.leb_spec page (Catalog.totalPages s)); cbn; [lia|done].
Qed.

Lemma pagination_clicks_witness :
  Catalog.clickPage
    {| Catalog.data_page := Some 6; Catalog.disabled := false;
       Catalog.active := false |}
    {| Catalog.currentPage := 5; Catalog.totalPages := 10 |}
  = {| Catalog.currentPage := 6; Catalog.totalPages := 10 |}.
Proof.
  refine (proj2 (proj1 (pagination_clicks
            {| Catalog.pagination_hidden := true; Catalog.buttons := [] |}
            5 10
            {| Catalog.data_page := Some 6; Catalog.disabled := false;
               Catalog.active := false |}
            ltac:(lia) ltac:(lia) _) 6 eq_refl eq_refl)).
  vm_compute. apply list_elem_of_In. vm_compute. tauto.
Defined.

(** ** The request cache *)

Section CacheProps.
Context {Data : Type} (truthy : Data -> bool).

Lemma getCached_setCache (key : string) (d : Data) (t now : Z)
      (cache : gmap string (Cache.Entry Data)) :
  Cache.getCached key now (Cache.setCache key d t cache)
  = if now >? t + Cache.cacheMaxAge then (None, delete key cache)
    else (Some d, Cache.setCache key d t cache).
Proof.
  unfold Cache.getCached, Cache.setCache. rewrite lookup_insert_eq. cbn.
  destruct (now >? t + Cache.cacheMaxAge); [|done].
  by rewrite delete_insert_eq.
Qed.

Lemma getCached_other (key k : string) (d : Data) (t now : Z)
      (cache : gmap string (Cache.Entry Data)) :
  k <> key ->
  (Cache.getCached k now (Cache.setCache key d t cache)).1
  = (Cache.getCached k now cache).1.
Proof.
  intros Hk. unfold Cache.getCached, Cache.setCache.
  rewrite lookup_insert_ne by done.
  destruct (cache !! k) as [e|]; [|done]. by destruct (now >? Cache.expires e).
Qed.

(** X15.  An entry of the cache is served for five minutes and no longer:
    up to 300000 ms after it was stored a lookup gives its body and leaves
    the cache as it is; any later lookup gives nothing and removes the
    entry.  Storing under one key does not change what a lookup of another
    key gives, and nothing is found in a cleared cache. *)
Theorem cache_entry_lifetime (key : string) (d : Data) (t now : Z)
        (cache : gmap string (Cache.Entry Data)) :
  (now <= t + 300000 ->
   Cache.getCached key now (Cache.setCache key d t cache)
   = (Some d, Cache.setCache key d t cache))
  /\ (t + 300000 < now ->
      Cache.getCached key now (Cache.setCache key d t cache)
      = (None, delete key cache))
  /\ (forall k, k <> key ->
        (Cache.getCached k now (Cache.setCache key d t cache)).1
        = (Cache.getCached k now cache).1)
  /\ Cache.getCached key now (Cache.clearCache cache) = (None, ∅).
Proof.
  change 300000 with Cache.cacheMaxAge.
  split; [|split; [|split]].
  - intros Hn. rewrite getCached_setCache.
    destruct (Z.gtb_spec now (t + Cache.cacheMaxAge)); [lia|done].
  - intros Hn. rewrite getCached_setCache.
    destruct (Z.gtb_spec now (t + Cache.cacheMaxAge)); [done|lia].
  - intros k Hk. by apply getCached_other.
  - unfold Cache.getCached, Cache.clearCache. by rewrite lookup_empty.
Qed.

Lemma getCached_requested_case (url : string) (skipCache : bool) (now : Z)
      (response : Cache.Response Data) (later : Z) (n : Cache.Net Data) :
  let r := Cache.fetchWithCache truthy url skipCache now response later n in
  (exists body,
     (Cache.getCached url now (Cache.cache n)).1 = Some body
     /\ truthy body = true /\ skipCache = false
     /\ r = (Cache.Returned body,
             {| Cache.cache := (Cache.getCached url now (Cache.cache n)).2;
                Cache.requested := Cache.requested n |}))
  \/ (Cache.requested r.2 = Cache.requested n ++ [url]
      /\ match response with
         | Cache.Ok body =>
             r.1 = Cache.Returned body
             /\ Cache.cache r.2
                = Cache.setCache url body later
                    (Cache.getCached url now (Cache.cache n)).2
         | _ =>
             (exists message, r.1 = Cache.Thrown message)
             /\ Cache.cache r.2 = (Cache.getCached url now (Cache.cache n)).2
         end).
Proof.
  intros r. subst r. unfold Cache.fetchWithCache.
  destruct (Cache.getCached url now (Cache.cache n)) as [[body|] c] eqn:Hg;
    cbn [fst snd].
  - destruct (truthy body) eqn:Ht, skipCache; cbn [andb negb];
      try (right; destruct response; cbn; eauto; fail).
    left. exists body. done.
  - right. destruct response; cbn; eauto.
Qed.

Lemma getCached_keeps (key : string) (now : Z)
      (cache : gmap string (Cache.Entry Data)) (k : string)
      (e : Cache.Entry Data) :
  (Cache.getCached key now cache).2 !! k = Some e -> cache !! k = Some e.
Proof.
  unfold Cache.getCached. destruct (cache !! key) as [entry|]; [|done].
  destruct (now >? Cache.expires entry); cbn; [|done].
  intros He. by apply lookup_delete_Some in He as [_ He].
Qed.

Lemma not_own_extension {A} (l : list A) (x : A) : l <> l ++ [x].
Proof.
  intros He. apply (f_equal length) in He. rewrite length_app in He.
  simpl in He. lia.
Qed.

(** X16.  A body that a request brought is served from the cache afterwards:
    when a call of [fetchWithCache] has made its request and the response
    had a truthy body, a call for the same URL without [skipCache], up to
    five minutes after the body was stored, returns that body, makes no
    request and leaves the cache as it is.  Past the five minutes, or when
    the body is falsy (the JSON [null], [0], [false] or the empty string),
    the next call makes the request again. *)
Theorem fetched_body_is_reused (url : string) (skipCache : bool) (now : Z)
        (body : Data) (later : Z) (n : Cache.Net Data)
        (now2 : Z) (response2 : Cache.Response Data) (later2 : Z) :
  let n1 :=
    (Cache.fetchWithCache truthy url skipCache now (Cache.Ok body) later n).2 in
  let second := Cache.fetchWithCache truthy url false now2 response2 later2 n1 in
  Cache.requested n1 = Cache.requested n ++ [url] ->
  (truthy body = true -> now2 <= later + 300000 ->
   second = (Cache.Returned body, n1))
  /\ (truthy body = false \/ later + 300000 < now2 ->
      Cache.requested second.2 = Cache.requested n1 ++ [url]).
Proof.
  intros n1 second Hreq.
  destruct (getCached_requested_case url skipCache now (Cache.Ok body) later n)
    as [(b & _ & _ & _ & Hr)|[_ [_ Hc]]].
  { exfalso. subst n1. rewrite Hr in Hreq. cbn in Hreq.
    by apply not_own_extension in Hreq. }
  fold n1 in Hc.
  pose proof (getCached_setCache url body later now2
                (Cache.getCached url now (Cache.cache n)).2) as Hg.
  rewrite <- Hc in Hg. change 300000 with Cache.cacheMaxAge.
  subst second. unfold Cache.fetchWithCache. rewrite Hg. split.
  - intros Ht Hn.
    destruct (Z.gtb_spec now2 (later + Cache.cacheMaxAge)); [lia|].
    rewrite Ht. cbn. by destruct n1.
  - intros Hcase.
    destruct (Z.gtb_spec now2 (later + Cache.cacheMaxAge)).
    + by destruct response2.
    + destruct Hcase as [Ht|Hn]; [|lia]. rewrite Ht. cbn.
      by destruct response2.
Qed.

(** X17.  A call of [fetchWithCache] that throws has made its request, the
    response was not a body, and the cache has gained nothing: every entry
    it holds afterwards was there before.  With [skipCache] the request is
    made whatever the cache holds, and no call makes more than one
    request. *)
Theorem failed_request_stores_nothing (url : string) (skipCache : bool)
        (now : Z) (response : Cache.Response Data) (later : Z)
        (n : Cache.Net Data) :
  let r := Cache.fetchWithCache truthy url skipCache now response later n in
  (forall message,
     r.1 = Cache.Thrown message ->
     Cache.requested r.2 = Cache.requested n ++ [url]
     /\ (forall body, response <> Cache.Ok body)
     /\ (forall k e, Cache.cache r.2 !! k = Some e ->
                     Cache.cache n !! k = Some e))
  /\ (skipCache = true -> Cache.requested r.2 = Cache.requested n ++ [url])
  /\ (Cache.requested r.2 = Cache.requested n
      \/ Cache.requested r.2 = Cache.requested n ++ [url]).
Proof.
  intros r.
  destruct (getCached_requested_case url skipCache now response later n)
    as [(b & _ & _ & Hs & Hr)|[Hreq Hc]]; fold r in Hr || fold r in Hreq, Hc.
  - rewrite Hr. cbn. split; [done|]. split; [by rewrite Hs|by left].
  - split; [|split; [done|by right]].
    intros message Hm. split; [done|].
    destruct response; destruct Hc as [Hres Hc];
      try (split; [done|]; intros k e; rewrite Hc; apply getCached_keeps).
    rewrite Hm in Hres. done.
Qed.

End CacheProps.

Lemma cache_entry_lifetime_witness :
  Cache.getCached "/apps/trade-in/sets" 1300000
    (Cache.setCache "/apps/trade-in/sets" 7 1000000 ∅)
  = (Some 7, Cache.setCache "/apps/trade-in/sets" 7 1000000 ∅).
Proof.
  apply (proj1 (cache_entry_lifetime "/apps/trade-in/sets" 7 1000000 1300000 ∅)).
  lia.
Defined.

Lemma fetched_body_is_reused_witness :
  let n1 :=
    (Cache.fetchWithCache Cache.truthyNumber "/apps/trade-in/sets" false 1000000
       (Cache.Ok 7) 1000200 {| Cache.cache := ∅; Cache.requested := [] |}).2 in
  Cache.fetchWithCache Cache.truthyNumber "/apps/trade-in/sets" false 1300000
    (Cache.NotOk 500) 1300100 n1
  = (Cache.Returned 7, n1).
Proof.
  refine (proj1 (fetched_body_is_reused Cache.truthyNumber "/apps/trade-in/sets" false
                   1000000 7 1000200
                   {| Cache.cache := ∅; Cache.requested := [] |}
                   1300000 (Cache.NotOk 500) 1300100 _) _ _);
    [vm_compute; reflexivity|reflexivity|lia].
Defined.

Lemma failed_request_stores_nothing_witness :
  Cache.requested
    (Cache.fetchWithCache Cache.truthyNumber "/apps/trade-in/sets" false 1000000
       (Cache.NotOk 500) 1000200
       {| Cache.cache := ∅; Cache.requested := [] |}).2
  = ["/apps/trade-in/sets"].
Proof.
  refine (proj1 (proj1 (failed_request_stores_nothing Cache.truthyNumber
                   "/apps/trade-in/sets" false 1000000 (Cache.NotOk 500)
                   1000200 {| Cache.cache := ∅; Cache.requested := [] |})
                   "HTTP 500" _)).
  vm_compute. reflexivity.
Defined.

(** ** The tracking page *)

Section TrackPageProps.
Variable toUpperCase : string -> string.

(** X18.  A lookup with a blank number asks the server nothing and shows the
    error.  Any other lookup asks for the trimmed, upper-cased number once,
    and when it is over the form is enabled again and the loading text is
    hidden, whatever the response.  In both cases exactly one of the error
    and the results is visible afterwards, and the results are visible only
    when the response is a found submission. *)
Theorem lookup_outcome (response : TrackPage.Response) (p : TrackPage.Page) :
  let p' := TrackPage.handleSubmit toUpperCase response p in
  (lookupNumber toUpperCase p = EmptyString ->
   TrackPage.requested p' = TrackPage.requested p
   /\ TrackPage.errorMessage p' = "Please enter a submission number"
   /\ TrackPage.location_number p' = TrackPage.location_number p)
  /\ (lookupNumber toUpperCase p <> EmptyString ->
      TrackPage.requested p' = TrackPage.requested p ++ [lookupNumber toUpperCase p]
      /\ TrackPage.input_disabled p' = false
      /\ TrackPage.button_disabled p' = false
      /\ TrackPage.submitText_hidden p' = false
      /\ TrackPage.submitLoading_hidden p' = true)
  /\ TrackPage.error_hidden p' = negb (TrackPage.results_hidden p')
  /\ (TrackPage.results_hidden p' = false ->
      lookupNumber toUpperCase p <> EmptyString
      /\ exists submission timeline items grading,
           response
           = TrackPage.Body (TrackPage.Found submission timeline items grading)
           /\ TrackPage.location_number p' = Some (lookupNumber toUpperCase p)).
Proof.
  intros p'. subst p'. unfold lookupNumber, TrackPage.handleSubmit, JS.nonempty.
  case_bool_decide as Hn; cbn [negb].
  - split; [done|]. split; [done|]. split; [done|]. cbn. done.
  - split; [done|]. split.
    + intros _. destruct response as [m|m|[e|s t i g]]; cbn; done.
    + destruct response as [m|m|[e|s t i g]]; cbn; (split; [done|]);
        try done.
      intros _. split; [done|]. by exists s, t, i, g.
Qed.

(** X19.  The packing slip is the one of the last submission found.  A
    lookup that finds a submission records the number the response carries;
    a lookup that finds none (blank number, failed request, submission not
    found) keeps the number recorded before, although the results are
    hidden.  The print button opens nothing while no number is recorded,
    and otherwise opens the packing slip of the recorded number. *)
Theorem packing_slip_of_last_found (response : TrackPage.Response)
        (p : TrackPage.Page) :
  let p' := TrackPage.handleSubmit toUpperCase response p in
  (forall submission timeline items grading,
     lookupNumber toUpperCase p <> EmptyString ->
     response
     = TrackPage.Body (TrackPage.Found submission timeline items grading) ->
     TrackPage.currentSubmissionNumber p'
     = Some (TrackPage.submissionNumber submission))
  /\ (TrackPage.results_hidden p' = true ->
      TrackPage.currentSubmissionNumber p'
      = TrackPage.currentSubmissionNumber p)
  /\ TrackPage.opened p' = TrackPage.opened p
  /\ (TrackPage.currentSubmissionNumber p = None ->
      TrackPage.handlePrintPackingSlip p = p)
  /\ (forall number,
        TrackPage.currentSubmissionNumber p = Some number ->
        number <> EmptyString ->
        TrackPage.opened (TrackPage.handlePrintPackingSlip p)
        = TrackPage.opened p ++ ["/apps/trade-in/packing-slip/" +:+ number]).
Proof.
  intros p'. subst p'. unfold lookupNumber.
  split; [|split; [|split; [|split]]].
  - intros s t i g Hn ->. unfold TrackPage.handleSubmit, JS.nonempty.
    rewrite bool_decide_false by done. done.
  - unfold TrackPage.handleSubmit, JS.nonempty.
    case_bool_decide as Hn; cbn [negb]; [done|].
    destruct response as [m|m|[e|s t i g]]; cbn; done.
  - unfold TrackPage.handleSubmit, JS.nonempty.
    case_bool_decide as Hn; cbn [negb]; [done|].
    destruct response as [m|m|[e|s t i g]]; cbn; done.
  - intros Hc. unfold TrackPage.handlePrintPackingSlip. by rewrite Hc.
  - intros number Hc Hn. unfold TrackPage.handlePrintPackingSlip, JS.nonempty.
    rewrite Hc, bool_decide_false by done. done.
Qed.

End TrackPageProps.

Lemma lookup_outcome_witness :
  let p := TrackPage.initial " ti-2024-0042 " in
  let p' := TrackPage.handleSubmit TrackPage.asciiUpper
              (TrackPage.Body (TrackPage.NotFound None)) p in
  lookupNumber TrackPage.asciiUpper p <> EmptyString
  /\ TrackPage.requested p' = ["TI-2024-0042"]
  /\ TrackPage.input_disabled p' = false.
Proof.
  intros p p'.
  assert (Hn : lookupNumber TrackPage.asciiUpper p <> EmptyString)
    by (vm_compute; discriminate).
  destruct (proj1 (proj2 (lookup_outcome TrackPage.asciiUpper
                            (TrackPage.Body (TrackPage.NotFound None)) p)) Hn)
    as (Hr & Hd & _).
  split; [exact Hn|]. split; [exact Hr | exact Hd].
Defined.

Lemma packing_slip_of_last_found_witness :
  let submission :=
    {| TrackPage.submissionNumber := "TI-2024-0042";
       TrackPage.status := "RECEIVED"; TrackPage.statusLabel := "Received";
       TrackPage.statusDescription := "We have your cards";
       TrackPage.itemCount := 3; TrackPage.quotedTotal := 9520;
       TrackPage.payoutType := "BANK"; TrackPage.bonusAmount := None |} in
  let p := TrackPage.initial "ti-2024-0042" in
  let p' := TrackPage.handleSubmit TrackPage.asciiUpper
              (TrackPage.Body (TrackPage.Found submission [] [] None)) p in
  TrackPage.currentSubmissionNumber p' = Some "TI-2024-0042"
  /\ TrackPage.handlePrintPackingSlip p = p
  /\ TrackPage.opened (TrackPage.handlePrintPackingSlip p')
     = TrackPage.opened p'
       ++ ["/apps/trade-in/packing-slip/" +:+ "TI-2024-0042"].
Proof.
  intros submission p p'.
  assert (Hc : TrackPage.currentSubmissionNumber p' = Some "TI-2024-0042").
  { refine (proj1 (packing_slip_of_last_found TrackPage.asciiUpper
                     (TrackPage.Body (TrackPage.Found submission [] [] None)) p)
                  submission [] [] None _ eq_refl).
    vm_compute. discriminate. }
  split; [exact Hc|]. split.
  - exact (proj1 (proj2 (proj2 (proj2
             (packing_slip_of_last_found TrackPage.asciiUpper
                (TrackPage.Body (TrackPage.NotFound None)) p)))) eq_refl).
  - refine (proj2 (proj2 (proj2 (proj2
              (packing_slip_of_last_found TrackPage.asciiUpper
                 (TrackPage.Body (TrackPage.NotFound None)) p'))))
              "TI-2024-0042" Hc _).
    discriminate.
Defined.

Lemma quantities_fold (items : list Track.Item) (acc : Z) :
  fold_left (fun sum item => sum + Track.quantity item) items acc
  = acc + foldr Z.add 0 (Track.quantity <$> items).
Proof.
  revert acc. induction items as [|item items IH]; intros acc; csimpl; [lia|].
  rewrite IH. lia.
Qed.

(** X20.  The item counter of a tracked submission is the sum of the
    quantities its rows show, so the counter of two lists put together is
    the sum of their counters; there is one row for each item.  On the page
    the counter next to the item list comes from the items, while the item
    count of the summary is the one the response states. *)
Theorem tracked_items_counter (items more : list Track.Item) :
  (Track.renderItems items).2
  = foldr Z.add 0 (Track.row_quantity <$> (Track.renderItems items).1)
  /\ (Track.renderItems (items ++ more)).2
     = (Track.renderItems items).2 + (Track.renderItems more).2
  /\ length (Track.renderItems items).1 = length items
  /\ forall submission timeline grading p,
       let r := TrackPage.result (TrackPage.renderResults
                                    submission timeline items grading p) in
       TrackPage.itemsCount r
       = foldr Z.add 0 (Track.quantity <$> items)
       /\ TrackPage.resultItemCount r = TrackPage.itemCount submission.
Proof.
  unfold Track.renderItems. cbn [fst snd].
  rewrite !quantities_fold, !Z.add_0_l. split; [|split; [|split]].
  - f_equal. rewrite <- list_fmap_compose. done.
  - rewrite fmap_app, foldr_app.
    generalize (Track.quantity <$> more) as l2.
    induction (Track.quantity <$> items) as [|q l1 IH]; intros l2; simpl;
      [lia|]. rewrite IH. lia.
  - by rewrite length_map.
  - intros submission timeline grading p. cbn.
    by rewrite quantities_fold, Z.add_0_l.
Qed.

(** ** The trade-in rows of the shop cart *)

Lemma collectUpdates_fold (rows : list (option string)) (acc : gmap string Z)
      (k : string) :
  fold_left (fun updates itemKey =>
               match itemKey with
               | Some k => if JS.nonempty k then <[k := 0]> updates else updates
               | None => updates
               end) rows acc !! k
  = if bool_decide (k <> EmptyString /\ Some k ∈ rows) then Some 0
    else acc !! k.
Proof.
  revert acc. induction rows as [|row rows IH]; intros acc; simpl.
  - rewrite bool_decide_false; [done|]. intros [_ Hin]. by apply elem_of_nil in Hin.
  - rewrite IH. clear IH.
    destruct (decide (k <> EmptyString /\ Some k ∈ rows)) as [Hk|Hk].
    + rewrite !bool_decide_true; [done| |done].
      destruct Hk; split; [done|]. by apply elem_of_cons; right.
    + rewrite (bool_decide_false _ Hk).
      destruct row as [k'|].
      * unfold JS.nonempty.
        destruct (decide (k' = EmptyString)) as [Hk'|Hk'];
          [rewrite (bool_decide_true (k' = EmptyString)) by done
          |rewrite (bool_decide_false (k' = EmptyString)) by done];
          cbn [negb].
        -- subst k'. rewrite bool_decide_false; [done|].
           intros [Hne Hin]. apply elem_of_cons in Hin as [Heq|Hin].
           ++ by injection Heq.
           ++ by apply Hk.
        -- destruct (decide (k = k')) as [->|Hne].
           ++ rewrite lookup_insert_eq, bool_decide_true; [done|].
              split; [done|]. by apply elem_of_cons; left.
           ++ rewrite lookup_insert_ne by done.
              rewrite bool_decide_false; [done|].
              intros [Hne' Hin]. apply elem_of_cons in Hin as [Heq|Hin].
              ** by injection Heq.
              ** by apply Hk.
      * rewrite bool_decide_false; [done|].
        intros [Hne Hin]. apply elem_of_cons in Hin as [Heq|Hin]; [done|].
        by apply Hk.
Qed.

Lemma collectUpdates_lookup (rows : list (option string)) (k : string) :
  ThemeCart.collectUpdates rows !! k
  = if bool_decide (k <> EmptyString /\ Some k ∈ rows) then Some 0 else None.
Proof.
  unfold ThemeCart.collectUpdates. rewrite collectUpdates_fold.
  by rewrite lookup_empty.
Qed.

(** X21.  Clearing the trade-in rows of the shop cart does nothing unless
    it is confirmed.  Confirmed, it posts one update that sets to 0 exactly
    the rows that carry a non-empty item id, and nothing else; when no row
    carries one it posts nothing and alerts instead.  After the post the
    page is reloaded exactly when the body of the response reads as JSON,
    whatever the status: an error status with a JSON body reloads the page
    and alerts nothing, and the alert is shown only when the request is
    rejected or the body does not read. *)
Theorem clearAllTradeIns_effects (confirmed : bool)
        (rows : list (option string)) (response : ThemeCart.Response) :
  let effects := ThemeCart.clearAllTradeIns confirmed rows response in
  (confirmed = false -> effects = [])
  /\ (confirmed = true ->
      (forall k, Some k ∈ rows -> k = EmptyString) ->
      effects = [ThemeCart.Alert "No trade-in items found to remove."])
  /\ (confirmed = true ->
      forall k, Some k ∈ rows -> k <> EmptyString ->
      exists updates,
        effects
        = [ThemeCart.PostUpdate updates;
           match response with
           | ThemeCart.Answered _ true => ThemeCart.Reload
           | _ => ThemeCart.Alert
                    "There was an error removing the items from your cart."
           end]
        /\ (forall k' n,
              updates !! k' = Some n
              <-> n = 0 /\ k' <> EmptyString /\ Some k' ∈ rows))
  /\ (ThemeCart.Reload ∈ effects
      <-> confirmed = true
          /\ (exists k, Some k ∈ rows /\ k <> EmptyString)
          /\ exists ok, response = ThemeCart.Answered ok true).
Proof.
  intros effects. subst effects. unfold ThemeCart.clearAllTradeIns.
  assert (Hempty : (forall k, Some k ∈ rows -> k = EmptyString) ->
                   size (ThemeCart.collectUpdates rows) = 0%nat).
  { intros Hrows. apply map_size_empty_iff, map_eq. intros k.
    rewrite collectUpdates_lookup, lookup_empty.
    rewrite bool_decide_false; [done|]. intros [Hne Hin]. by apply Hne, Hrows. }
  assert (Hsome : forall k, Some k ∈ rows -> k <> EmptyString ->
                  size (ThemeCart.collectUpdates rows) <> 0%nat).
  { intros k Hin Hne Hs. apply map_size_empty_iff in Hs.
    pose proof (collectUpdates_lookup rows k) as Hl.
    rewrite Hs, lookup_empty, bool_decide_true in Hl by done. done. }
  split; [|split; [|split]].
  - by intros ->.
  - intros -> Hrows. cbn [negb]. by rewrite bool_decide_true by auto.
  - intros -> k Hin Hne. cbn [negb].
    rewrite bool_decide_false by eauto.
    eexists. split.
    + by destruct response as [|ok [|]].
    + intros k' n. rewrite collectUpdates_lookup.
      case_bool_decide as Hk'.
      * split; [by intros [= <-]|by intros [-> _]].
      * split; [done|]. intros [_ Hk'']. by destruct Hk'.
  - split.
    + destruct confirmed; cbn [negb];
        [|by intros Hin; apply elem_of_nil in Hin].
      case_bool_decide as Hs.
      * intros Hin. apply list_elem_of_singleton in Hin. done.
      * intros Hin. split; [done|]. split.
        -- assert (Hm : ThemeCart.collectUpdates rows <> ∅)
             by (intros He; by apply Hs, map_size_empty_iff).
           apply map_choose in Hm as (k & n & Hk). exists k.
           rewrite collectUpdates_lookup in Hk.
           case_bool_decide as Hk'; [|done]. by destruct Hk'.
        -- apply elem_of_cons in Hin as [Hin|Hin]; [done|].
           apply list_elem_of_singleton in Hin.
           destruct response as [|ok [|]]; try done. by exists ok.
    + intros (-> & (k & Hin & Hne) & ok & ->). cbn [negb].
      rewrite bool_decide_false by eauto. cbn.
      apply elem_of_cons; right. by apply list_elem_of_singleton.
Qed.

Lemma clearAllTradeIns_effects_witness :
  let rows := [Some "40001:abc"; None; Some "40002:def"] in
  (exists updates,
     ThemeCart.clearAllTradeIns true rows (ThemeCart.Answered false true)
     = [ThemeCart.PostUpdate updates; ThemeCart.Reload]
     /\ (forall k' n,
           updates !! k' = Some n
           <-> n = 0 /\ k' <> EmptyString /\ Some k' ∈ rows))
  /\ ThemeCart.Reload
     ∈ ThemeCart.clearAllTradeIns true rows (ThemeCart.Answered false true).
Proof.
  intros rows.
  assert (Hin : Some "40001:abc" ∈ rows) by (apply elem_of_cons; by left).
  assert (Hne : "40001:abc" <> EmptyString) by discriminate.
  split.
  - exact (proj1 (proj2 (proj2 (clearAllTradeIns_effects true rows
                                  (ThemeCart.Answered false true))))
                 eq_refl "40001:abc" Hin Hne).
  - apply (proj2 (proj2 (proj2 (proj2 (clearAllTradeIns_effects true rows
                                         (ThemeCart.Answered false true)))))).
    split; [reflexivity|]. split; [by exists "40001:abc"|by exists false].
Defined.

(** ** Settings from the server *)

Lemma canSubmit_updateFormSections (st : State) :
  0 < minimumValue (CONFIG st) ->
  canSubmit (updateFormSections st) = true
  <-> minimumValue (CONFIG st) <= Spec.subtotal (cart st).
Proof.
  intros Hmin. unfold canSubmit, updateFormSections.
  cbn [formSections set_formSections submit_hidden submitButton_disabled].
  rewrite getCartTotals_subtotal.
  destruct (cart st) as [|item c] eqn:Hc.
  - rewrite bool_decide_false by (simpl; lia). cbn. split; [done | lia].
  - rewrite bool_decide_true by (simpl; lia).
    rewrite !negb_involutive. cbn [andb negb]. rewrite <- Hc. apply geb_le.
Qed.

Lemma canSubmit_frame (st st' : State) :
  formSections st' = formSections st -> canSubmit st' = canSubmit st.
Proof. unfold canSubmit. by intros ->. Qed.

Section SettingsProps.
Context `{JSON}.

Lemma CONFIG_loadCart st : CONFIG (loadCart st) = CONFIG st.
Proof.
  unfold loadCart. case_bool_decide; [done|].
  destruct (localStorage st !! "tradeInCart") as [text|]; [|done].
  destruct (JS.nonempty text); [|done].
  destruct (JSON_parse text); [|done].
  by case_bool_decide.
Qed.

Lemma CONFIG_updateFormSections st : CONFIG (updateFormSections st) = CONFIG st.
Proof. done. Qed.

Lemma loadConfig_frame response st :
  cart (Settings.loadConfig response st) = cart st
  /\ localStorage (Settings.loadConfig response st) = localStorage st
  /\ cartPanel (Settings.loadConfig response st) = cartPanel st
  /\ formSections (Settings.loadConfig response st) = formSections st.
Proof. by destruct response. Qed.

(** X22.  The settings of the server arrive after the form has been set up.
    Handling the response changes the configuration only: the cart, the
    storage, the cart panel and the form sections stay as they are, so right
    after the page has loaded the shopper can submit exactly when the saved
    cart reaches the built-in minimum of 500, whatever minimum the server
    sent.  The minimum of the server (taken positive) is the one in force
    from the next update of the form sections on. *)
Theorem settings_arrive_after_the_form (response : Settings.Response)
        (st : State) :
  (cart (Settings.loadConfig response st) = cart st
   /\ localStorage (Settings.loadConfig response st) = localStorage st
   /\ cartPanel (Settings.loadConfig response st) = cartPanel st
   /\ formSections (Settings.loadConfig response st) = formSections st)
  /\ (CONFIG st = DEFAULT_CONFIG ->
      canSubmit (Settings.init response st) = true
      <-> 500 <= Spec.subtotal (cart (loadCart st)))
  /\ (forall data m,
        response = Settings.Ok data ->
        Settings.minimumValue data = Some m -> 0 < m ->
        canSubmit (updateFormSections (Settings.init response st)) = true
        <-> m <= Spec.subtotal (cart (loadCart st))).
Proof.
  split; [apply loadConfig_frame|]. split.
  - intros Hcfg. unfold Settings.init.
    rewrite (canSubmit_frame _ (Settings.loadConfig response _))
      by apply loadConfig_frame.
    rewrite canSubmit_updateFormSections;
      rewrite CONFIG_renderCart, CONFIG_loadCart, Hcfg; [|done].
    by rewrite cart_renderCart.
  - intros data m -> Hm Hpos.
    assert (Hmin : minimumValue (CONFIG (Settings.init (Settings.Ok data) st))
                   = m).
    { unfold Settings.init, Settings.loadConfig. cbn. by rewrite Hm. }
    rewrite canSubmit_updateFormSections; rewrite Hmin; [|done].
    unfold Settings.init.
    rewrite (proj1 (loadConfig_frame _ _)), cart_updateFormSections.
    by rewrite cart_renderCart.
Qed.

End SettingsProps.

Lemma settings_arrive_after_the_form_witness :
  let st := Sample.state [] (<["tradeInCartVersion" := "2"]>
                             (<["tradeInCart" :=
                                  JSON_stringify (JSON := RefJSON.codec)
                                    [Sample.item 450 1]]> ∅)) in
  let data := {| Settings.minimumValue := Some 400;
                 Settings.storeCreditBonus := None;
                 Settings.freeShippingThreshold := None;
                 Settings.conditions := None |} in
  (canSubmit (Settings.init (H := RefJSON.codec) (Settings.Ok data) st) = true
   <-> 500 <= Spec.subtotal (cart (loadCart (H := RefJSON.codec) st)))
  /\ (canSubmit (updateFormSections
                   (Settings.init (H := RefJSON.codec) (Settings.Ok data) st))
      = true
      <-> 400 <= Spec.subtotal (cart (loadCart (H := RefJSON.codec) st))).
Proof.
  intros st data. split.
  - exact (proj1 (proj2 (settings_arrive_after_the_form (H := RefJSON.codec)
                           (Settings.Ok data) st)) eq_refl).
  - exact (proj2 (proj2 (settings_arrive_after_the_form (H := RefJSON.codec)
                           (Settings.Ok data) st))
                 data 400 eq_refl eq_refl ltac:(lia)).
Defined.

(** ** The cart and a storage that can refuse *)

Section QuotaProps.
Context `{JSON}.
Implicit Types (st s : State) (q : Quota.t).

Lemma set_localStorage_same s : set_localStorage (localStorage s) s = s.
Proof. by destruct s. Qed.

Lemma renderCart_blind : storage_blind renderCart.
Proof.
  intros ls s. unfold renderCart. cbn [cart set_localStorage].
  by destruct (bool_decide _).
Qed.

Lemma updateFormSections_blind : storage_blind updateFormSections.
Proof. by intros ls s. Qed.

Lemma showToast_blind m t : storage_blind (showToast m t).
Proof. by intros ls s. Qed.

Lemma blind_compose (f g : State -> State) :
  storage_blind f -> storage_blind g -> storage_blind (fun s => f (g s)).
Proof. intros Hf Hg ls s. by rewrite Hg, Hf. Qed.

Lemma finish_blind : storage_blind (fun s => updateFormSections (renderCart s)).
Proof. apply blind_compose; [apply updateFormSections_blind | apply renderCart_blind]. Qed.

Lemma blind_localStorage after s :
  storage_blind after -> localStorage (after s) = localStorage s.
Proof.
  intros Hb. pose proof (Hb (localStorage s) s) as He.
  rewrite set_localStorage_same in He. by rewrite He.
Qed.

(** [saveCart] writes to the storage and to nothing else. *)
Lemma saveCart_storage q s :
  Quota.saveCart q s = set_localStorage (localStorage (Quota.saveCart q s)) s.
Proof.
  unfold Quota.saveCart, Quota.setItem.
  destruct (q "tradeInCart" _); [|by rewrite set_localStorage_same].
  by destruct (q "tradeInCartVersion" _).
Qed.

Lemma saveCart_accepted q s :
  q "tradeInCart" (JSON_stringify (cart s)) = true ->
  q "tradeInCartVersion" (String_ CART_VERSION) = true ->
  Quota.saveCart q s = saveCart s.
Proof. intros Hc Hv. unfold Quota.saveCart, Quota.setItem. by rewrite Hc, Hv. Qed.

Lemma saveCart_refused q s :
  q "tradeInCart" (JSON_stringify (cart s)) = false ->
  Quota.saveCart q s = s.
Proof. intros Hc. unfold Quota.saveCart, Quota.setItem. by rewrite Hc. Qed.

Lemma saveCart_version_refused q s :
  q "tradeInCart" (JSON_stringify (cart s)) = true ->
  q "tradeInCartVersion" (String_ CART_VERSION) = false ->
  Quota.saveCart q s
  = set_localStorage
      (<["tradeInCart" := JSON_stringify (cart s)]> (localStorage s)) s.
Proof. intros Hc Hv. unfold Quota.saveCart, Quota.setItem. by rewrite Hc, Hv. Qed.

Lemma stored_saveCart s : stored (saveCart s).
Proof.
  unfold stored. cbn. split.
  - rewrite lookup_insert_ne by done. apply lookup_insert_eq.
  - apply lookup_insert_eq.
Qed.

(** What [saveCart] followed by steps that do not look at the storage
    leaves, for each answer of the storage. *)
Lemma saved_then_finished q (after : State -> State) s :
  storage_blind after ->
  (forall x, cart (after x) = cart x) ->
  let st' := after (Quota.saveCart q s) in
  let text := JSON_stringify (cart st') in
  st' = set_localStorage (localStorage st')
                         (after (Quota.saveCart Quota.unlimited s))
  /\ (q "tradeInCart" text = true ->
      q "tradeInCartVersion" (String_ CART_VERSION) = true -> stored st')
  /\ (q "tradeInCart" text = false -> localStorage st' = localStorage s)
  /\ (q "tradeInCart" text = true ->
      q "tradeInCartVersion" (String_ CART_VERSION) = false ->
      localStorage st' = <["tradeInCart" := text]> (localStorage s)).
Proof.
  intros Hb Hcart st' text.
  assert (Hc' : cart st' = cart s).
  { subst st'. rewrite Hcart. by rewrite saveCart_storage. }
  assert (Hls : localStorage st' = localStorage (Quota.saveCart q s))
    by (by apply blind_localStorage).
  subst text. rewrite Hc'. split; [|split; [|split]].
  - subst st'. rewrite (saveCart_storage q s) at 1.
    rewrite (saveCart_storage Quota.unlimited s), !Hb.
    by rewrite Hls.
  - intros Hc Hv. unfold stored. rewrite Hls, Hc'.
    rewrite saveCart_accepted by done.
    pose proof (stored_saveCart s) as Hs. unfold stored in Hs. apply Hs.
  - intros Hc. by rewrite Hls, saveCart_refused.
  - intros Hc Hv. by rewrite Hls, saveCart_version_refused.
Qed.

(** On a storage that accepts every write the functions are those of
    module [App]. *)
Lemma unlimited_quota :
  (forall st, Quota.saveCart Quota.unlimited st = saveCart st)
  /\ (forall st, Quota.loadCart Quota.unlimited st = loadCart st)
  /\ (forall st, Quota.clearCart Quota.unlimited st = clearCart st)
  /\ (forall card condition quantity st,
        Quota.addToCart Quota.unlimited card condition quantity st
        = addToCart card condition quantity st)
  /\ (forall index st,
        Quota.removeFromCart Quota.unlimited index st
        = removeFromCart index st)
  /\ (forall index delta st,
        Quota.updateCartQuantity Quota.unlimited index delta st
        = updateCartQuantity index delta st).
Proof. repeat split. Qed.

Lemma Quota_loadCart_same_version q st text c :
  localStorage st !! "tradeInCartVersion" = Some (String_ CART_VERSION) ->
  localStorage st !! "tradeInCart" = Some text ->
  text <> EmptyString ->
  JSON_parse text = Some c ->
  Forall (fun item => isValid item = true) c ->
  Quota.loadCart q st = set_cart c st.
Proof.
  intros Hv Ht Hne Hp Hc. unfold Quota.loadCart.
  rewrite bool_decide_false by (intros Hn; by apply Hn).
  rewrite Ht. unfold JS.nonempty. rewrite bool_decide_false by done.
  cbn [negb]. rewrite Hp, (filter_isValid c Hc).
  cbn [cart set_cart]. by rewrite bool_decide_false by (intros Hn; by apply Hn).
Qed.

(** X4.  What an action on the cart leaves in storage depends on what the
    storage accepts; what it leaves in memory and on the page does not.
    The state after an action differs from the one an accepting storage
    gives in the storage only.  When the action saves and both writes are
    accepted, the storage holds the cart: the stored text is its
    serialization and the stored version is the current one, whatever the
    storage held before.  When the write of the cart is refused, the
    storage stays as it was while the cart in memory has changed; when only
    the write of the version is refused, the text of the cart is stored and
    the version stays.  A page opened on a storage that holds the cart
    starts from the same cart, when the items have their required fields
    and the codec reads back the text it wrote. *)
Theorem accepted_write_stores_the_cart (q : Quota.t) (m : Quota.Mutation)
        (st : State) :
  let st' := Quota.perform q m st in
  let text := JSON_stringify (cart st') in
  st' = set_localStorage (localStorage st')
                         (Quota.perform Quota.unlimited m st)
  /\ (Quota.saves m st = true ->
      q "tradeInCart" text = true ->
      q "tradeInCartVersion" (String_ CART_VERSION) = true ->
      stored st')
  /\ (q "tradeInCart" text = false -> localStorage st' = localStorage st)
  /\ (Quota.saves m st = true ->
      q "tradeInCart" text = true ->
      q "tradeInCartVersion" (String_ CART_VERSION) = false ->
      localStorage st' = <["tradeInCart" := text]> (localStorage st))
  /\ (stored st' ->
      forall q' fresh,
        localStorage fresh = localStorage st' ->
        JSON_parse text = Some (cart st') ->
        text <> EmptyString ->
        Forall (fun item => isValid item = true) (cart st') ->
        cart (Quota.loadCart q' fresh) = cart st').
Proof.
  intros st' text.
  assert (Hmain :
    st' = set_localStorage (localStorage st')
                           (Quota.perform Quota.unlimited m st)
    /\ (Quota.saves m st = true ->
        q "tradeInCart" text = true ->
        q "tradeInCartVersion" (String_ CART_VERSION) = true ->
        stored st')
    /\ (q "tradeInCart" text = false -> localStorage st' = localStorage st)
    /\ (Quota.saves m st = true ->
        q "tradeInCart" text = true ->
        q "tradeInCartVersion" (String_ CART_VERSION) = false ->
        localStorage st' = <["tradeInCart" := text]> (localStorage st))).
  { subst text st'. destruct m as [card condition quantity|index|index delta|];
      cbn [Quota.perform Quota.saves].
    - unfold Quota.addToCart.
      set (s := set_cart _ st).
      set (after := fun x : State =>
             showToast ("Added " +:+ default "undefined" (Card.name card)
                        +:+ " to trade-in") "success"
                       (updateFormSections (renderCart x))).
      destruct (saved_then_finished q after s) as (H1 & H2 & H3 & H4).
      { apply (blind_compose (showToast _ _)); [apply showToast_blind|].
        apply finish_blind. }
      { intros x. subst after. cbn. apply cart_renderCart. }
      split; [exact H1|]. split; [intros _; exact H2|].
      split; [exact H3 | intros _; exact H4].
    - unfold Quota.removeFromCart.
      set (s := set_cart _ st).
      destruct (saved_then_finished q
                  (fun x => updateFormSections (renderCart x)) s)
        as (H1 & H2 & H3 & H4);
        [apply finish_blind | intros x; apply cart_renderCart |].
      split; [exact H1|]. split; [intros _; exact H2|].
      split; [exact H3 | intros _; exact H4].
    - unfold Quota.updateCartQuantity.
      destruct (JS.at_index (cart st) index) as [item|] eqn:Hi.
      + set (s := set_cart _ st).
        destruct (saved_then_finished q
                    (fun x => updateFormSections (renderCart x)) s)
          as (H1 & H2 & H3 & H4);
          [apply finish_blind | intros x; apply cart_renderCart |].
        split; [exact H1|]. split; [intros _; exact H2|].
      split; [exact H3 | intros _; exact H4].
      + rewrite set_localStorage_same.
        rewrite bool_decide_false by (intros [? ?]; done).
        repeat split; done.
    - unfold Quota.clearCart.
      set (s := set_cart _ st).
      destruct (saved_then_finished q
                  (fun x => updateFormSections (renderCart x)) s)
        as (H1 & H2 & H3 & H4);
        [apply finish_blind | intros x; apply cart_renderCart |].
      split; [exact H1|]. split; [intros _; exact H2|].
      split; [exact H3 | intros _; exact H4]. }
  destruct Hmain as (H1 & H2 & H3 & H4).
  split; [exact H1|]. split; [exact H2|]. split; [exact H3|].
  split; [exact H4|].
  intros [Hc Hv] q' fresh Hls Hrt Hne Hvalid.
  rewrite (Quota_loadCart_same_version q' fresh text (cart st'));
    try done; by rewrite Hls.
Qed.

Lemma Quota_loadCart_current q st text parsedCart :
  localStorage st !! "tradeInCartVersion" = Some (String_ CART_VERSION) ->
  localStorage st !! "tradeInCart" = Some text ->
  text <> EmptyString ->
  JSON_parse text = Some parsedCart ->
  Quota.loadCart q st
  = let st' := set_cart (List.filter isValid parsedCart) st in
    if bool_decide (length (List.filter isValid parsedCart)
                    ≠ length parsedCart)
    then Quota.saveCart q st' else st'.
Proof.
  intros Hv Ht Hne Hp. unfold Quota.loadCart.
  rewrite bool_decide_false by (intros Hn; by apply Hn).
  rewrite Ht. unfold JS.nonempty. rewrite bool_decide_false by done.
  cbn [negb]. by rewrite Hp.
Qed.

Lemma filter_isValid_shorter (c : list Item.t) :
  Exists (fun item => isValid item = false) c ->
  length (List.filter isValid c) ≠ length c.
Proof.
  intros Hex.
  assert (Hle : forall l : list Item.t,
             (length (List.filter isValid l) <= length l)%nat).
  { induction l as [|x l IH]; simpl; [lia|].
    destruct (isValid x); simpl; lia. }
  induction Hex as [item c Hbad | item c _ IH]; simpl.
  - rewrite Hbad. pose proof (Hle c). lia.
  - destruct (isValid item); simpl; [lia|]. pose proof (Hle c). lia.
Qed.

(** X6.  [loadCart] on a page that starts with an empty cart leaves a cart
    whose items all have a card id, a name and a condition.  When the
    stored version is the current one and the stored text is an array of
    cart items, the cart is those of the stored items that have the three
    fields, in order.  When none is dropped the storage is not written;
    when one is dropped the cart that remains is saved: the storage then
    holds it if both writes are accepted, and stays as it was, with the
    text that has the dropped items, if the write of the cart is refused.
    When the stored version is another one, the cart is empty and the
    stored cart is removed; the current version is stored if that write is
    accepted, and the stored version stays if it is refused. *)
Theorem loadCart_sanitizes (q : Quota.t) (st : State) :
  let st' := Quota.loadCart q st in
  (cart st = [] -> Forall (fun item => isValid item = true) (cart st'))
  /\ (forall text parsedCart,
        localStorage st !! "tradeInCartVersion" = Some (String_ CART_VERSION) ->
        localStorage st !! "tradeInCart" = Some text ->
        text <> EmptyString ->
        JSON_parse text = Some parsedCart ->
        let kept := List.filter isValid parsedCart in
        cart st' = kept
        /\ (Forall (fun item => isValid item = true) parsedCart ->
            localStorage st' = localStorage st)
        /\ (Exists (fun item => isValid item = false) parsedCart ->
            (q "tradeInCart" (JSON_stringify kept) = true ->
             q "tradeInCartVersion" (String_ CART_VERSION) = true ->
             stored st')
            /\ (q "tradeInCart" (JSON_stringify kept) = false ->
                localStorage st' = localStorage st)))
  /\ (localStorage st !! "tradeInCartVersion" <> Some (String_ CART_VERSION) ->
      cart st' = []
      /\ localStorage st' !! "tradeInCart" = None
      /\ localStorage st' !! "tradeInCartVersion"
         = if q "tradeInCartVersion" (String_ CART_VERSION)
           then Some (String_ CART_VERSION)
           else localStorage st !! "tradeInCartVersion").
Proof.
  intros st'. subst st'. split; [|split].
  - intros Hempty. unfold Quota.loadCart. case_bool_decide.
    + unfold Quota.setItem. destruct (q _ _); constructor.
    + destruct (localStorage st !! "tradeInCart") as [text|];
        [|rewrite Hempty; constructor].
      destruct (JS.nonempty text); [|rewrite Hempty; constructor].
      destruct (JSON_parse text) as [parsedCart|]; [|constructor].
      cbn [cart set_cart]. case_bool_decide.
      * rewrite saveCart_storage. cbn. apply Forall_filter_isValid.
      * apply Forall_filter_isValid.
  - intros text parsedCart Hv Ht Hne Hp kept.
    rewrite (Quota_loadCart_current q st text parsedCart) by done.
    cbn zeta. fold kept. split; [|split].
    + case_bool_decide; [|done]. by rewrite saveCart_storage.
    + intros Hall. subst kept. rewrite (filter_isValid _ Hall).
      by rewrite bool_decide_false by (intros Hn; by apply Hn).
    + intros Hbad.
      rewrite bool_decide_true by (by apply filter_isValid_shorter).
      split.
      * intros Hc Hver. rewrite saveCart_accepted by done.
        apply stored_saveCart.
      * intros Hc. by rewrite saveCart_refused.
  - intros Hv. unfold Quota.loadCart, Quota.setItem.
    rewrite bool_decide_true by done.
    destruct (q "tradeInCartVersion" (String_ CART_VERSION)); cbn.
    + split; [done|]. split.
      * rewrite lookup_insert_ne by done. apply lookup_delete_eq.
      * apply lookup_insert_eq.
    + split; [done|]. split.
      * apply lookup_delete_eq.
      * by rewrite lookup_delete_ne.
Qed.

End QuotaProps.

Lemma accepted_write_stores_the_cart_witness :
  let st := Sample.state [] ∅ in
  let m := Quota.Add Sample.luffy "NM" 2 in
  stored (H := RefJSON.codec)
         (Quota.perform (H := RefJSON.codec) Quota.unlimited m st)
  /\ localStorage (Quota.perform (H := RefJSON.codec) Quota.full m st)
     = localStorage st
  /\ cart (Quota.perform (H := RefJSON.codec) Quota.full m st) <> cart st.
Proof.
  intros st m. split; [|split].
  - exact (proj1 (proj2 (accepted_write_stores_the_cart (H := RefJSON.codec)
                           Quota.unlimited m st)) eq_refl eq_refl eq_refl).
  - exact (proj1 (proj2 (proj2 (accepted_write_stores_the_cart
                                  (H := RefJSON.codec) Quota.full m st)))
                 eq_refl).
  - vm_compute. discriminate.
Defined.

Lemma loadCart_sanitizes_witness :
  let stored_cart := [Sample.item 4760 2; Sample.nameless 49 1] in
  let text := JSON_stringify (JSON := RefJSON.codec) stored_cart in
  let st := Sample.state [] (<["tradeInCartVersion" := "2"]>
                               (<["tradeInCart" := text]> ∅)) in
  JSON_parse (JSON := RefJSON.codec) text = Some stored_cart
  /\ cart (Quota.loadCart (H := RefJSON.codec) Quota.unlimited st)
     = [Sample.item 4760 2]
  /\ stored (H := RefJSON.codec)
            (Quota.loadCart (H := RefJSON.codec) Quota.unlimited st)
  /\ cart (Quota.loadCart (H := RefJSON.codec) Quota.full st)
     = [Sample.item 4760 2]
  /\ localStorage (Quota.loadCart (H := RefJSON.codec) Quota.full st)
     = localStorage st.
Proof.
  intros stored_cart text st.
  assert (Hp : JSON_parse (JSON := RefJSON.codec) text = Some stored_cart)
    by (vm_compute; reflexivity).
  assert (Hne : text <> EmptyString) by (vm_compute; discriminate).
  assert (Hbad : Exists (fun item => isValid item = false) stored_cart).
  { apply Exists_cons_tl, Exists_cons_hd. reflexivity. }
  split; [exact Hp|].
  destruct (proj1 (proj2 (loadCart_sanitizes (H := RefJSON.codec)
                            Quota.unlimited st))
              text stored_cart eq_refl eq_refl Hne Hp) as (Hc & _ & Hs).
  destruct (proj1 (proj2 (loadCart_sanitizes (H := RefJSON.codec)
                            Quota.full st))
              text stored_cart eq_refl eq_refl Hne Hp) as (Hc' & _ & Hs').
  split; [exact Hc|].
  split; [exact (proj1 (Hs Hbad) eq_refl eq_refl)|].
  split; [exact Hc'|].
  exact (proj2 (Hs' Hbad) eq_refl).
Defined.
